(** * LLMRepo backend: repository ingestion and context assembly

    A shallow embedding of the helper functions of [backend/main.py]:
    [onerror], [force_delete_directory], [clone_repository],
    [get_file_content], [get_repo_structure] and [process_code_for_llm],
    over a small model of Python strings, exceptions and a POSIX-like file
    tree, then of [generate_gemini_response], [get_repo_summary] and the
    four endpoints [get_repository_info], [query_repository],
    [summarize_file] and [analyze_dependencies], with the clone, the
    language model and the JSON parser as parameters, followed by the
    properties proved about them. *)

From Stdlib Require Import List String Ascii NArith Bool Arith Lia.
From Stdlib Require Import DecimalString ZArith.
Import ListNotations.

Local Open Scope N_scope.

(** ** Python strings

    A Python [str] is a sequence of Unicode code points; slicing and [len]
    count code points, so a string is a list of code points. *)

Definition pystr : Type := list N.

(** Source literals are ASCII; [py "..."] is the code-point list of one. *)
Definition py (x : string) : pystr :=
  map N_of_ascii (list_ascii_of_string x).

Fixpoint str_eqb (a b : pystr) : bool :=
  match a, b with
  | [], [] => true
  | x :: a', y :: b' => N.eqb x y && str_eqb a' b'
  | _, _ => false
  end.

(** [x in l] for a list or set of strings. *)
Definition mem (x : pystr) (l : list pystr) : bool := existsb (str_eqb x) l.

(** [s.startswith(pre)] *)
Fixpoint startswith (pre s : pystr) : bool :=
  match pre, s with
  | [], _ => true
  | p :: pre', c :: s' => N.eqb p c && startswith pre' s'
  | _ :: _, [] => false
  end.

(** [s.endswith(suf)] *)
Definition endswith (suf s : pystr) : bool := startswith (rev suf) (rev s).

(** [sub in s] for strings: a substring test. *)
Fixpoint contains (sub s : pystr) : bool :=
  startswith sub s ||
  match s with
  | [] => false
  | _ :: s' => contains sub s'
  end.

(** [s.replace(old, new)] for one-character [old] and [new]. *)
Definition replace_char (old new : N) (s : pystr) : pystr :=
  map (fun c => if N.eqb c old then new else c) s.

(** [sep.join(l)] *)
Fixpoint str_join (sep : pystr) (l : list pystr) : pystr :=
  match l with
  | [] => []
  | [x] => x
  | x :: l' => x ++ sep ++ str_join sep l'
  end.

(** [s.split(c)] for a one-character separator: never the empty list. *)
Fixpoint split_on (c : N) (s : pystr) : list pystr :=
  match s with
  | [] => [[]]
  | x :: s' =>
      if N.eqb x c then [] :: split_on c s'
      else match split_on c s' with
           | [] => [[x]]
           | w :: ws => (x :: w) :: ws
           end
  end.

(** [s.lower()] on the ASCII letters. The only code points outside A-Z
    whose Python lower-casing yields an ASCII letter give k or i, and no
    extension of [source_extensions] has either, so for the suffix tests of
    this program the ASCII mapping decides the same. *)
Definition lower_char (c : N) : N :=
  if (65 <=? c) && (c <=? 90) then c + 32 else c.

Definition lower (s : pystr) : pystr := map lower_char s.

(** [str(n)] for a non-negative integer. *)
Definition str_of_N (n : N) : pystr :=
  py (NilEmpty.string_of_uint (N.to_uint n)).

Definition slash : N := 47.
Definition backslash : N := 92.

(** ** Exceptions *)

Inductive exn : Type :=
  | PermissionError
  | FileNotFoundError
  | NotADirectoryError
  | IsADirectoryError
  | OSError
  | UnicodeDecodeError
  | GitCommandError (msg : pystr)
  | OtherException (msg : pystr)
  | HTTPException (status_code : N) (detail : pystr).

(** [except PermissionError] catches only the first; [except Exception]
    catches every constructor. *)
Definition is_PermissionError (e : exn) : bool :=
  match e with PermissionError => true | _ => false end.

(** [except OSError] inside [shutil.rmtree]. *)
Definition is_OSError (e : exn) : bool :=
  match e with
  | PermissionError | FileNotFoundError | NotADirectoryError
  | IsADirectoryError | OSError => true
  | _ => false
  end.

Inductive result (A : Type) : Type :=
  | Ok (a : A)
  | Raise (e : exn).
Arguments Ok {A} a.
Arguments Raise {A} e.

(** ** File tree

    The file system is a tree rooted at [/]. Every node carries the
    attributes the program can observe: whether it can be opened for
    reading (for a directory: listed and searched), whether
    [os.access(_, W_OK)] holds, whether another process holds it (its
    removal fails whatever the permissions), and whether [os.chmod] is
    allowed on it. An entry is removed from its directory, so it is the
    directory that has to be writable, not the entry. The process runs with
    [/] as its working directory, there are no symbolic links. A path is
    resolved without asking whether the directories on the way can be
    searched; a statement that depends on that right says so with
    [all_searchable]. *)

Record attrs : Type := mkAttrs {
  can_read : bool;
  can_write : bool;
  locked : bool;
  owned : bool
}.

#[local] Set Warnings "-register-all".

Inductive node : Type :=
  | File (a : attrs) (data : list N)
  | Dir (a : attrs) (entries : list (pystr * node)).

Definition node_attrs (n : node) : attrs :=
  match n with File a _ => a | Dir a _ => a end.

Definition is_dir (n : node) : bool :=
  match n with Dir _ _ => true | File _ _ => false end.

Fixpoint find_entry (nm : pystr) (es : list (pystr * node)) : option node :=
  match es with
  | [] => None
  | (k, n) :: es' => if str_eqb nm k then Some n else find_entry nm es'
  end.

(** The node reached from [n] along a chain of entry names. *)
Fixpoint get_at (n : node) (chain : list pystr) : option node :=
  match chain with
  | [] => Some n
  | nm :: chain' =>
      match n with
      | Dir _ es =>
          match find_entry nm es with
          | Some c => get_at c chain'
          | None => None
          end
      | File _ _ => None
      end
  end.

(** Whether every directory of the tree can be searched, so that each path
    is resolved as far as its names exist. *)
Fixpoint all_searchable (n : node) : bool :=
  match n with
  | File _ _ => true
  | Dir a es =>
      can_read a
      && forallb (fun e => let '(_, c) := e in all_searchable c) es
  end.

(** One component of a path: the empty component and [.] stay, [..] goes
    up (the root is its own parent), a name goes down. Every component is
    looked up in a directory. *)
Definition step_component (fs : node) (acc : option (list pystr)) (c : pystr)
  : option (list pystr) :=
  match acc with
  | None => None
  | Some chain =>
      match get_at fs chain with
      | Some (Dir _ _) =>
          if str_eqb c [] || str_eqb c (py ".") then Some chain
          else if str_eqb c (py "..") then Some (removelast chain)
          else match get_at fs (chain ++ [c]) with
               | Some _ => Some (chain ++ [c])
               | None => None
               end
      | _ => None
      end
  end.

(** Path resolution: the chain of names from [/] a path denotes, when it
    denotes anything. *)
Definition locate (fs : node) (path : pystr) : option (list pystr) :=
  match path with
  | [] => None
  | _ => fold_left (step_component fs) (split_on slash path) (Some [])
  end.

Definition stat (fs : node) (path : pystr) : option node :=
  match locate fs path with
  | Some chain => get_at fs chain
  | None => None
  end.

(** [os.path.exists], [os.path.isfile], [os.path.isdir]: none raises. *)
Definition os_path_exists (fs : node) (path : pystr) : bool :=
  match stat fs path with Some _ => true | None => false end.

Definition os_path_isfile (fs : node) (path : pystr) : bool :=
  match stat fs path with Some (File _ _) => true | _ => false end.

Definition os_path_isdir (fs : node) (path : pystr) : bool :=
  match stat fs path with Some (Dir _ _) => true | _ => false end.

(** [os.path.join(a, b)] *)
Definition os_path_join (a b : pystr) : pystr :=
  if startswith [slash] b then b
  else if str_eqb a [] || endswith [slash] a then a ++ b
  else a ++ [slash] ++ b.

(** ** Reading text: UTF-8 with [errors='ignore'], universal newlines *)

Definition is_cont (b : N) : bool := (128 <=? b) && (b <=? 191).

(** Validity of the second byte of a three- or four-byte sequence, which
    excludes overlong forms, surrogates and code points above U+10FFFF. *)
Definition second_ok (lead b : N) : bool :=
  if N.eqb lead 224 then (160 <=? b) && (b <=? 191)
  else if N.eqb lead 237 then (128 <=? b) && (b <=? 159)
  else if N.eqb lead 240 then (144 <=? b) && (b <=? 191)
  else if N.eqb lead 244 then (128 <=? b) && (b <=? 143)
  else is_cont b.

(** The [errors] argument of the codec. *)
Inductive errors_mode : Type := ErrorsStrict | ErrorsIgnore.

(** What the codec does with the bytes it cannot decode: under [ignore]
    they are dropped and decoding goes on with [rest], under [strict] the
    whole decoding fails. *)
Definition on_error (errors : errors_mode) (rest : option pystr)
  : option pystr :=
  match errors with
  | ErrorsIgnore => rest
  | ErrorsStrict => None
  end.

Definition emit (c : N) (rest : option pystr) : option pystr :=
  option_map (cons c) rest.

(** [bytes.decode("utf-8", errors)]: a byte that cannot start a sequence
    is an error of one byte; a sequence cut short by a byte that cannot
    continue it, or by the end of the data, is an error that covers the
    bytes read so far, and decoding resumes at the offending byte. [None]
    is [UnicodeDecodeError]. *)
Fixpoint utf8_decode (errors : errors_mode) (bs : list N) : option pystr :=
  match bs with
  | [] => Some []
  | b :: r =>
      if b <? 128 then emit b (utf8_decode errors r)
      else if b <? 194 then on_error errors (utf8_decode errors r)
      else if b <? 224 then
        match r with
        | c1 :: r1 =>
            if is_cont c1
            then emit ((b - 192) * 64 + (c1 - 128)) (utf8_decode errors r1)
            else on_error errors (utf8_decode errors r)
        | [] => on_error errors (Some [])
        end
      else if b <? 240 then
        match r with
        | c1 :: r1 =>
            if second_ok b c1 then
              match r1 with
              | c2 :: r2 =>
                  if is_cont c2
                  then emit ((b - 224) * 4096 + (c1 - 128) * 64 + (c2 - 128))
                            (utf8_decode errors r2)
                  else on_error errors (utf8_decode errors r1)
              | [] => on_error errors (Some [])
              end
            else on_error errors (utf8_decode errors r)
        | [] => on_error errors (Some [])
        end
      else if b <? 245 then
        match r with
        | c1 :: r1 =>
            if second_ok b c1 then
              match r1 with
              | c2 :: r2 =>
                  if is_cont c2 then
                    match r2 with
                    | c3 :: r3 =>
                        if is_cont c3
                        then emit ((b - 240) * 262144 + (c1 - 128) * 4096
                                   + (c2 - 128) * 64 + (c3 - 128))
                                  (utf8_decode errors r3)
                        else on_error errors (utf8_decode errors r2)
                    | [] => on_error errors (Some [])
                    end
                  else on_error errors (utf8_decode errors r1)
              | [] => on_error errors (Some [])
              end
            else on_error errors (utf8_decode errors r)
        | [] => on_error errors (Some [])
        end
      else on_error errors (utf8_decode errors r)
  end.

(** Text mode with [newline=None]: [\r\n] and a lone [\r] read as [\n]. *)
Fixpoint universal_newlines (s : pystr) : pystr :=
  match s with
  | [] => []
  | c :: s' =>
      if N.eqb c 13 then
        match s' with
        | d :: s'' =>
            if N.eqb d 10 then 10 :: universal_newlines s''
            else 10 :: universal_newlines s'
        | [] => [10]
        end
      else c :: universal_newlines s'
  end.

(** [open(path, "r", encoding="utf-8", errors='ignore')] followed by
    [f.read()]. *)
Definition open_read (fs : node) (path : pystr) : result pystr :=
  match stat fs path with
  | None => Raise FileNotFoundError
  | Some (Dir _ _) => Raise IsADirectoryError
  | Some (File a data) =>
      if can_read a then
        match utf8_decode ErrorsIgnore data with
        | Some text => Ok (universal_newlines text)
        | None => Raise UnicodeDecodeError
        end
      else Raise PermissionError
  end.

(** ** get_file_content *)

(** [try: body except Exception as e: handler(e)] *)
Definition try_except {A : Type} (body : result A) (handler : exn -> result A)
  : result A :=
  match body with
  | Ok a => Ok a
  | Raise e => handler e
  end.

Definition get_file_content (fs : node) (repo_dir file_path : pystr)
  : result (option pystr) :=
  let full_path := os_path_join repo_dir file_path in
  if negb (os_path_exists fs full_path) || negb (os_path_isfile fs full_path)
  then Ok None
  else
    try_except
      (match open_read fs full_path with
       | Ok text => Ok (Some text)
       | Raise e => Raise e
       end)
      (fun _ => Ok None).

(** ** get_repo_structure *)

(** The value stored under a key: [{"type": "file", "path": file_path}]. *)
Record descriptor : Type := mkDescriptor {
  d_type : pystr;
  d_path : pystr
}.

(** A Python [dict] with string keys: insertion-ordered, one entry per
    key. *)
Definition dict : Type := list (pystr * descriptor).

Definition keys (d : dict) : list pystr := map fst d.

(** [d[k] = v]: an existing key keeps its position. *)
Fixpoint dict_set (k : pystr) (v : descriptor) (d : dict) : dict :=
  match d with
  | [] => [(k, v)]
  | (k', v') :: d' =>
      if str_eqb k k' then (k', v) :: d' else (k', v') :: dict_set k v d'
  end.

(** [l.remove(x)]: drops the first occurrence. *)
Fixpoint list_remove (x : pystr) (l : list pystr) : list pystr :=
  match l with
  | [] => []
  | y :: l' => if str_eqb x y then l' else y :: list_remove x l'
  end.

Definition dir_names (es : list (pystr * node)) : list pystr :=
  map fst (filter (fun e => is_dir (snd e)) es).

Definition file_names (es : list (pystr * node)) : list pystr :=
  map fst (filter (fun e => negb (is_dir (snd e))) es).

(** [for root, dirs, files in os.walk(top): body], top-down. The directory
    being visited is given by the chain of names [root] below [top]. The
    body may edit [dirs] in place, and only the names it leaves are
    descended into: it returns the edited list with the new loop state.
    A directory that cannot be listed is passed over, since [os.walk]
    ignores errors of [os.scandir]. [descend] is the descent into the
    entries of one directory that are directories and are still named in
    [dirs]; a directory holds a name once, so this is the descent into the
    names of [dirs] in their order. *)
Definition descend {S : Type} (walk : list pystr -> node -> S -> S)
    (root dirs' : list pystr) : list (pystr * node) -> S -> S :=
  fix descend (l : list (pystr * node)) (s : S) {struct l} : S :=
    match l with
    | [] => s
    | (nm, child) :: l' =>
        if is_dir child && mem nm dirs'
        then descend l' (walk (root ++ [nm]) child s)
        else descend l' s
    end.

Fixpoint os_walk {S : Type}
    (body : list pystr -> list pystr -> list pystr -> S -> list pystr * S)
    (root : list pystr) (n : node) (s : S) {struct n} : S :=
  match n with
  | File _ _ => s
  | Dir a es =>
      if can_read a then
        let '(dirs', s1) := body root (dir_names es) (file_names es) s in
        descend (os_walk body) root dirs' es s1
      else s
  end.

(** [os.path.relpath(root, repo_dir)] for a directory [os.walk] visits:
    the names below the top joined by the separator, [.] for the top. *)
Definition os_path_relpath (root : list pystr) : pystr :=
  match root with
  | [] => py "."
  | _ => str_join [slash] root
  end.

(** The body of the [os.walk] loop of [get_repo_structure]. *)
Definition walk_body (root dirs files : list pystr) (structure : dict)
  : list pystr * dict :=
  let dirs := if mem (py ".git") dirs then list_remove (py ".git") dirs
              else dirs in
  let rel_path := os_path_relpath root in
  let rel_path := if str_eqb rel_path (py ".") then [] else rel_path in
  let structure :=
    fold_left
      (fun st file =>
         let file_path :=
           replace_char backslash slash (os_path_join rel_path file) in
         dict_set file_path (mkDescriptor (py "file") file_path) st)
      files structure in
  (dirs, structure).

Definition get_repo_structure (fs : node) (repo_dir : pystr) : dict :=
  let structure : dict := [] in
  if negb (os_path_isdir fs repo_dir) then structure
  else
    match stat fs repo_dir with
    | Some top => os_walk walk_body [] top structure
    | None => structure
    end.

(** ** process_code_for_llm *)

(** Which step of the builder appended a file section. *)
Inductive origin : Type := Explicit | Readme | Additional.

(** What one [context_str += ...] appends. *)
Inductive section : Type :=
  | FileSection (o : origin) (path excerpt : pystr)
  | Placeholder (path : pystr)
  | Listing (paths : list pystr).

(** The text of each appended piece, as the f-strings build it. *)
Definition render (sec : section) : pystr :=
  match sec with
  | FileSection _ file_path excerpt =>
      py (String "010" "--- File: ") ++ file_path
      ++ py (" ---" ++ String "010" "```" ++ String "010" "")
      ++ excerpt
      ++ py (String "010" "```" ++ String "010" "")
  | Placeholder file_path =>
      py (String "010" "--- File: ") ++ file_path
      ++ py (" (Could not be read or found) ---" ++ String "010" "")
  | Listing paths =>
      py (String "010" "--- Repository File Structure (Partial) ---"
          ++ String "010" "")
      ++ str_join [10] paths
      ++ py (String "010" "(... and possibly more files)" ++ String "010" "")
  end.

(** The local variables of [process_code_for_llm]. [sections] is a ghost
    record of the pieces appended to [context_str], in order. *)
Record builder : Type := mkBuilder {
  context_str : pystr;
  files_processed : list pystr;
  sections : list section
}.

(** [context_str += render sec] *)
Definition append (sec : section) (b : builder) : builder :=
  mkBuilder (context_str b ++ render sec) (files_processed b)
            (sections b ++ [sec]).

(** [files_processed.add(file_path)] *)
Definition add_processed (file_path : pystr) (b : builder) : builder :=
  mkBuilder (context_str b)
            (if mem file_path (files_processed b) then files_processed b
             else files_processed b ++ [file_path])
            (sections b).

(** The [files] entry of [context]: a list of strings, or a value that is
    not a list. A list with an entry that is not a string is looked at
    with the requests, under [request_context]. *)
Inductive files_value : Type :=
  | FilesList (l : list pystr)
  | FilesOther.

(** [context]: [None], or a dict that may hold a [files] entry. An empty
    dict is a dict without the entry; both are skipped by step 1. *)
Definition context_arg : Type := option (option files_value).

Definition explicit_files (context : context_arg) : list pystr :=
  match context with
  | Some (Some (FilesList l)) => l
  | _ => []
  end.

(** Truthiness of [content]: neither [None] nor the empty string. *)
Definition truthy (content : option pystr) : bool :=
  match content with
  | Some (_ :: _) => true
  | _ => false
  end.

Definition text_of (content : option pystr) : pystr :=
  match content with Some t => t | None => [] end.

(** Step 1, the loop over [context["files"]]. *)
Fixpoint explicit_loop (fs : node) (repo_dir : pystr) (files : list pystr)
    (b : builder) : result builder :=
  match files with
  | [] => Ok b
  | file_path :: rest =>
      if negb (mem file_path (files_processed b)) then
        match get_file_content fs repo_dir file_path with
        | Raise e => Raise e
        | Ok content =>
            if truthy content then
              explicit_loop fs repo_dir rest
                (add_processed file_path
                   (append (FileSection Explicit file_path
                              (firstn 5000 (text_of content))) b))
            else
              explicit_loop fs repo_dir rest (append (Placeholder file_path) b)
        end
      else explicit_loop fs repo_dir rest b
  end.

Definition readme_names : list pystr :=
  [py "README.md"; py "readme.md"; py "README"; py "README.txt"].

(** Step 2, the loop over the README names, left at the first hit. *)
Fixpoint readme_loop (fs : node) (repo_dir : pystr) (names : list pystr)
    (b : builder) : result builder :=
  match names with
  | [] => Ok b
  | readme_name :: rest =>
      if negb (mem readme_name (files_processed b)) then
        match get_file_content fs repo_dir readme_name with
        | Raise e => Raise e
        | Ok (Some content) =>
            Ok (add_processed readme_name
                  (append (FileSection Readme readme_name
                             (firstn 3000 content)) b))
        | Ok None => readme_loop fs repo_dir rest b
        end
      else readme_loop fs repo_dir rest b
  end.

Definition priority_files : list pystr :=
  [py "package.json"; py "requirements.txt"; py "pom.xml";
   py "build.gradle"; py "Cargo.toml"; py "setup.py"; py "main.py";
   py "index.js"; py "app.py"; py "server.js"].

Definition source_extensions : list pystr :=
  [py ".py"; py ".js"; py ".ts"; py ".jsx"; py ".tsx"; py ".java"; py ".c";
   py ".cpp"; py ".h"; py ".go"; py ".rs"; py ".php"; py ".html"; py ".css";
   py ".scss"; py ".vue"; py ".rb"].

Definition max_additional_files : nat := 10.

(** Step 3, the two loops that fill [potential_files]. *)
Definition potential_files (structure : dict) (processed : list pystr)
  : list pystr :=
  filter (fun pf => mem pf (keys structure) && negb (mem pf processed))
         priority_files
  ++ filter (fun file_path =>
               negb (mem file_path processed)
               && existsb (fun ext => endswith ext (lower file_path))
                          source_extensions)
            (keys structure).

(** Step 3, the loop over [files_to_add]. *)
Fixpoint additional_loop (fs : node) (repo_dir : pystr) (files : list pystr)
    (b : builder) : result builder :=
  match files with
  | [] => Ok b
  | file_path :: rest =>
      match get_file_content fs repo_dir file_path with
      | Raise e => Raise e
      | Ok content =>
          if truthy content then
            additional_loop fs repo_dir rest
              (add_processed file_path
                 (append (FileSection Additional file_path
                            (firstn 2500 (text_of content))) b))
          else additional_loop fs repo_dir rest b
      end
  end.

Definition header : pystr := py ("Repository Context:" ++ String "010" "").

(** Sequencing of calls that may raise. *)
Definition and_then {A B : Type} (r : result A) (k : A -> result B)
  : result B :=
  match r with
  | Ok a => k a
  | Raise e => Raise e
  end.

(** Step 1: the files named by [context]. *)
Definition include_explicit_files (fs : node) (repo_dir : pystr)
    (context : context_arg) (b : builder) : result builder :=
  match context with
  | Some (Some (FilesList files)) => explicit_loop fs repo_dir files b
  | _ => Ok b
  end.

(** Step 2: the README. *)
Definition include_readme (fs : node) (repo_dir : pystr) (b : builder)
  : result builder :=
  if negb (mem (py "README.md") (files_processed b))
     && negb (mem (py "readme.md") (files_processed b))
  then readme_loop fs repo_dir readme_names b
  else Ok b.

Definition files_to_add (structure : dict) (processed : list pystr)
  : list pystr :=
  firstn max_additional_files
    (filter (fun f => negb (mem f processed))
            (potential_files structure processed)).

(** Step 3: priority files and source files. *)
Definition include_source_files (fs : node) (repo_dir : pystr)
    (structure : dict) (b : builder) : result builder :=
  additional_loop fs repo_dir (files_to_add structure (files_processed b)) b.

(** The file structure list, when the repository is not too large. *)
Definition add_structure_list (structure : dict) (b : builder) : builder :=
  if (List.length structure <? 200)%nat
  then append (Listing (firstn 75 (keys structure))) b
  else b.

(** The whole builder, returning its final local state. *)
Definition process_code_state (fs : node) (repo_dir query : pystr)
    (context : context_arg) : result builder :=
  let b := mkBuilder header [] [] in
  and_then (include_explicit_files fs repo_dir context b) (fun b =>
  and_then (include_readme fs repo_dir b) (fun b =>
  let structure := get_repo_structure fs repo_dir in
  and_then (include_source_files fs repo_dir structure b) (fun b =>
  Ok (add_structure_list structure b)))).

(** [process_code_for_llm]: the value returned is [context_str]. *)
Definition process_code_for_llm (fs : node) (repo_dir query : pystr)
    (context : context_arg) : result pystr :=
  and_then (process_code_state fs repo_dir query context)
           (fun b => Ok (context_str b)).

(** ** Commands that change the file tree

    A command runs on a file tree and leaves a file tree, whether it
    returns or raises. *)

Definition M (A : Type) : Type := node -> result A * node.

Definition ret {A : Type} (a : A) : M A := fun fs => (Ok a, fs).

Definition raise {A : Type} (e : exn) : M A := fun fs => (Raise e, fs).

Definition bind {A B : Type} (c : M A) (k : A -> M B) : M B :=
  fun fs =>
    match c fs with
    | (Ok a, fs') => k a fs'
    | (Raise e, fs') => (Raise e, fs')
    end.

(** [try: c except <caught> as e: handler(e)]; several [except] clauses
    of one [try] are one handler that tells the exceptions apart, so that
    what a clause raises is not caught by the next. *)
Definition try_catch {A : Type} (c : M A) (caught : exn -> bool)
    (handler : exn -> M A) : M A :=
  fun fs =>
    match c fs with
    | (Ok a, fs') => (Ok a, fs')
    | (Raise e, fs') =>
        if caught e then handler e fs' else (Raise e, fs')
    end.

Notation "x <- c ;; k" := (bind c (fun x => k))
  (at level 61, c at next level, right associativity).
Notation "c ;;; k" := (bind c (fun _ => k))
  (at level 61, right associativity).

(** Replace ([Some]) or delete ([None]) the node at a chain of names. The
    root itself can be replaced but not deleted. *)
Fixpoint set_entry (nm : pystr) (new : option node)
    (es : list (pystr * node)) : list (pystr * node) :=
  match es with
  | [] => []
  | (k, n) :: es' =>
      if str_eqb nm k
      then match new with Some n' => (k, n') :: es' | None => es' end
      else (k, n) :: set_entry nm new es'
  end.

Fixpoint set_at (n : node) (chain : list pystr) (new : option node) : node :=
  match chain with
  | [] => match new with Some n' => n' | None => n end
  | [nm] =>
      match n with
      | Dir a es => Dir a (set_entry nm new es)
      | File _ _ => n
      end
  | nm :: chain' =>
      match n with
      | Dir a es =>
          match find_entry nm es with
          | Some c => Dir a (set_entry nm (Some (set_at c chain' new)) es)
          | None => n
          end
      | File _ _ => n
      end
  end.

(** The attributes of the directory that holds the entry at [chain]. *)
Definition parent_attrs (fs : node) (chain : list pystr) : option attrs :=
  match chain with
  | [] => None
  | _ =>
      match get_at fs (removelast chain) with
      | Some (Dir parent _) => Some parent
      | _ => None
      end
  end.

(** Removal of an entry with attributes [a] from a directory with
    attributes [parent] is allowed when the directory can be written and
    searched and the entry is not held by another process; the permissions
    of the entry itself play no part. *)
Definition removable (parent a : attrs) : bool :=
  can_write parent && can_read parent && negb (locked a).

(** [os.unlink(path)] *)
Definition os_unlink (path : pystr) : M unit :=
  fun fs =>
    match locate fs path with
    | None => (Raise FileNotFoundError, fs)
    | Some chain =>
        match get_at fs chain with
        | Some (File a _) =>
            match parent_attrs fs chain with
            | Some parent =>
                if removable parent a then (Ok tt, set_at fs chain None)
                else (Raise PermissionError, fs)
            | None => (Raise PermissionError, fs)
            end
        | Some (Dir _ _) => (Raise IsADirectoryError, fs)
        | None => (Raise FileNotFoundError, fs)
        end
    end.

(** [os.rmdir(path)]: only an empty directory, and never the root; the
    permission of the parent is looked at before the directory itself. *)
Definition os_rmdir (path : pystr) : M unit :=
  fun fs =>
    match locate fs path with
    | None => (Raise FileNotFoundError, fs)
    | Some chain =>
        match get_at fs chain with
        | Some (Dir a es) =>
            match parent_attrs fs chain with
            | None => (Raise OSError, fs)
            | Some parent =>
                if removable parent a then
                  match es with
                  | [] => (Ok tt, set_at fs chain None)
                  | _ :: _ => (Raise OSError, fs)
                  end
                else (Raise PermissionError, fs)
            end
        | Some (File _ _) => (Raise NotADirectoryError, fs)
        | None => (Raise FileNotFoundError, fs)
        end
    end.

(** [os.scandir(path)], used for its success or failure. *)
Definition os_scandir (path : pystr) : M unit :=
  fun fs =>
    match stat fs path with
    | Some (Dir a _) =>
        if can_read a then (Ok tt, fs) else (Raise PermissionError, fs)
    | Some (File _ _) => (Raise NotADirectoryError, fs)
    | None => (Raise FileNotFoundError, fs)
    end.

(** [os.access(path, os.W_OK)] *)
Definition os_access_W_OK (fs : node) (path : pystr) : bool :=
  match stat fs path with
  | Some n => can_write (node_attrs n)
  | None => false
  end.

(** The attributes under the mode [stat.S_IWUSR], which grants the owner
    the right to write and nothing else: the node can no longer be read. *)
Definition write_only (a : attrs) : attrs :=
  mkAttrs false true (locked a) (owned a).

Definition set_write_only (n : node) : node :=
  match n with
  | File a d => File (write_only a) d
  | Dir a es => Dir (write_only a) es
  end.

(** [os.chmod(path, stat.S_IWUSR)] *)
Definition os_chmod_S_IWUSR (path : pystr) : M unit :=
  fun fs =>
    match locate fs path with
    | None => (Raise FileNotFoundError, fs)
    | Some chain =>
        match get_at fs chain with
        | Some n =>
            if owned (node_attrs n)
            then (Ok tt, set_at fs chain (Some (set_write_only n)))
            else (Raise PermissionError, fs)
        | None => (Raise FileNotFoundError, fs)
        end
    end.

(** [time.sleep(delay)], the delay in milliseconds: the tree is left as it
    is. *)
Definition time_sleep (delay : N) : M unit := ret tt.

(** [os.lstat(path)], used for its success or failure. *)
Definition os_lstat (path : pystr) : M unit :=
  fun fs =>
    match stat fs path with
    | Some _ => (Ok tt, fs)
    | None => (Raise FileNotFoundError, fs)
    end.

(** [os.open(path, os.O_RDONLY)], used for its success or failure: the node
    has to be readable. *)
Definition os_open (path : pystr) : M unit :=
  fun fs =>
    match stat fs path with
    | Some n =>
        if can_read (node_attrs n) then (Ok tt, fs)
        else (Raise PermissionError, fs)
    | None => (Raise FileNotFoundError, fs)
    end.

(** The functions [shutil.rmtree] hands to its error handler. *)
Inductive os_func : Type :=
  OsUnlink | OsRmdir | OsScandir | OsIslink | OsOpen | OsLstat.

(** [func(path)], the call of the handler with the path alone: [os.open]
    needs a second argument and raises a [TypeError]. *)
Definition call_func (func : os_func) (path : pystr) : M unit :=
  match func with
  | OsUnlink => os_unlink path
  | OsRmdir => os_rmdir path
  | OsScandir => os_scandir path
  | OsIslink => ret tt
  | OsOpen =>
      raise (OtherException
               (py "open() missing required argument 'flags' (pos 2)"))
  | OsLstat => os_lstat path
  end.

(** ** onerror *)

Definition onerror (func : os_func) (path : pystr) (exc_info : exn) : M unit :=
  fun fs =>
    if negb (os_access_W_OK fs path) then
      (os_chmod_S_IWUSR path ;;;
       try_catch (call_func func path) (fun _ => true) (fun _ => ret tt)) fs
    else ret tt fs.

(** ** shutil.rmtree(path, onerror=onerror)

    The library's recursion where directories are opened before they are
    listed, as on Linux. A directory among the entries is opened first: one
    that cannot be opened goes to the handler as a failure of [os.open] and
    is neither entered nor removed; an opened one is emptied by the
    recursive call and then removed by [os.rmdir]. Anything else is removed
    by [os.unlink]. Each [OSError] goes to the handler. [snapshot] is the
    node that is at [path] when it is opened; it gives the entries the
    listing returns, and listing an opened file fails. *)
Fixpoint rmtree_safe_fd (snapshot : node) (path : pystr) {struct snapshot}
  : M unit :=
  match snapshot with
  | File _ _ => onerror OsScandir path NotADirectoryError
  | Dir _ es =>
      (fix remove_entries (l : list (pystr * node)) : M unit :=
         match l with
         | [] => ret tt
         | (nm, child) :: l' =>
             let fullname := os_path_join path nm in
             (if is_dir child then
                opened <- try_catch (os_open fullname ;;; ret true) is_OSError
                            (fun e => onerror OsOpen fullname e ;;; ret false) ;;
                if opened then
                  rmtree_safe_fd child fullname ;;;
                  try_catch (os_rmdir fullname) is_OSError
                            (onerror OsRmdir fullname)
                else ret tt
              else try_catch (os_unlink fullname) is_OSError
                             (onerror OsUnlink fullname)) ;;;
             remove_entries l'
         end) es
  end.

(** The path itself is looked up and opened in the same way, under
    [except Exception]; after a failure the call returns. *)
Definition shutil_rmtree (path : pystr) : M unit :=
  fun fs =>
    match stat fs path with
    | None => onerror OsLstat path FileNotFoundError fs
    | Some snapshot =>
        (opened <- try_catch (os_open path ;;; ret true) (fun _ => true)
                     (fun e => onerror OsOpen path e ;;; ret false) ;;
         if opened then
           rmtree_safe_fd snapshot path ;;;
           try_catch (os_rmdir path) is_OSError (onerror OsRmdir path)
         else ret tt) fs
    end.

(** ** force_delete_directory *)

(** One pass of the [for attempt in range(max_retries)] loop: [Some b] when
    the pass executes [return b], [None] when it falls through to the next
    pass. *)
Definition delete_attempt (dir_path : pystr) (delay : N) : M (option bool) :=
  try_catch
    (fun fs =>
       if os_path_exists fs dir_path then
         (shutil_rmtree dir_path ;;;
          (fun fs' =>
             if negb (os_path_exists fs' dir_path)
             then ret (Some true) fs'
             else ret None fs')) fs
       else ret None fs)
    (fun _ => true)
    (fun e =>
       if is_PermissionError e
       then time_sleep delay ;;; ret None
       else time_sleep delay ;;; ret None).

Fixpoint delete_attempts (dir_path : pystr) (attempts : nat) (delay : N)
  : M (option bool) :=
  match attempts with
  | O => ret None
  | S attempts' =>
      r <- delete_attempt dir_path delay ;;
      match r with
      | Some b => ret (Some b)
      | None => delete_attempts dir_path attempts' delay
      end
  end.

Definition force_delete_directory (dir_path : pystr) (max_retries : nat)
    (delay : N) : M bool :=
  r <- delete_attempts dir_path max_retries delay ;;
  match r with
  | Some b => ret b
  | None =>
      fun fs =>
        if os_path_exists fs dir_path then ret false fs else ret true fs
  end.

(** The defaults [max_retries=3, delay=0.5]. *)
Definition default_max_retries : nat := 3.
Definition default_delay : N := 500.

(** ** clone_repository *)

(** [$]: the end of the string, or the newline that ends it. *)
Definition at_end (s : pystr) : bool :=
  match s with
  | [] => true
  | [c] => N.eqb c 10
  | _ => false
  end.

(** [(\.git)?$] *)
Definition suffix_matches (s : pystr) : bool :=
  (startswith (py ".git") s && at_end (skipn 4 s)) || at_end s.

(** [([^/]+?)(\.git)?$]: the shortest non-empty run without a slash after
    which the rest matches; [taken] is the run so far. *)
Fixpoint lazy_name (taken s : pystr) : option pystr :=
  match s with
  | [] => None
  | c :: s' =>
      if N.eqb c slash then None
      else if suffix_matches s' then Some (taken ++ [c])
      else lazy_name (taken ++ [c]) s'
  end.

(** [re.search(r"/([^/]+?)(\.git)?$", repo_url)]: group 1 of the leftmost
    match. *)
Fixpoint search_repo_name (repo_url : pystr) : option pystr :=
  match repo_url with
  | [] => None
  | c :: s' =>
      if N.eqb c slash then
        match lazy_name [] s' with
        | Some g => Some g
        | None => search_repo_name s'
        end
      else search_repo_name s'
  end.

(** The URL handed to the clone. An absent or empty token is falsy. *)
Definition auth_url (repo_url : pystr) (access_token : option pystr) : pystr :=
  match access_token with
  | Some ((_ :: _) as token) =>
      if contains (py "github.com") repo_url then
        if startswith (py "https://") repo_url
        then py "https://" ++ token ++ py "@" ++ skipn 8 repo_url
        else if startswith (py "http://") repo_url
        then py "http://" ++ token ++ py "@" ++ skipn 7 repo_url
        else repo_url
      else repo_url
  | _ => repo_url
  end.

(** [str(e)] of an exception; the texts of the operating-system errors stand
    for the platform's. *)
Definition exn_str (e : exn) : pystr :=
  match e with
  | PermissionError => py "Permission denied"
  | FileNotFoundError => py "No such file or directory"
  | NotADirectoryError => py "Not a directory"
  | IsADirectoryError => py "Is a directory"
  | OSError => py "OS error"
  | UnicodeDecodeError => py "invalid start byte"
  | GitCommandError msg => msg
  | OtherException msg => msg
  | HTTPException _ detail => detail
  end.

Definition is_GitCommandError (e : exn) : bool :=
  match e with GitCommandError _ => true | _ => false end.

(** The message of the [except git.GitCommandError] branch. *)
Definition clone_error_detail (e : exn) (branch : pystr) : pystr :=
  let error_detail := py "Failed to clone repository: " ++ exn_str e ++ py ". " in
  if contains (py "Authentication failed") (exn_str e) then
    error_detail ++ py "Please check your access token and repository URL."
  else if contains (py "could not find remote branch") (exn_str e) then
    error_detail ++ py "Please ensure the branch '" ++ branch ++ py "' exists."
  else
    error_detail ++ py "Check repository URL, branch name, and permissions.".

(** [os.path.join(TEMP_DIR, f"llmrepo_{repo_name}_{int(time.time())}")],
    [now] being the clock reading in whole seconds. *)
Definition repo_dir_of (TEMP_DIR repo_name : pystr) (now : N) : pystr :=
  os_path_join TEMP_DIR (py "llmrepo_" ++ repo_name ++ py "_" ++ str_of_N now).

(** The removal of an existing destination before the clone. *)
Definition prepare_destination (repo_dir : pystr) : M unit :=
  fun fs =>
    if os_path_exists fs repo_dir then
      (ok <- force_delete_directory repo_dir default_max_retries default_delay ;;
       if negb ok
       then raise (HTTPException 500
                     (py "Failed to clean up existing directory: " ++ repo_dir))
       else ret tt) fs
    else ret tt fs.

(** The [try] around the clone with its two handlers. *)
Definition guarded_clone (clone_from : pystr -> pystr -> pystr -> M unit)
    (url repo_dir branch : pystr) : M pystr :=
  try_catch
    (clone_from url repo_dir branch ;;; ret repo_dir)
    (fun _ => true)
    (fun e =>
       if is_GitCommandError e then
         let error_detail := clone_error_detail e branch in
         force_delete_directory repo_dir default_max_retries default_delay ;;;
         raise (HTTPException 400 error_detail)
       else
         force_delete_directory repo_dir default_max_retries default_delay ;;;
         raise (HTTPException 500
                  (py "An unexpected error occurred during repository cloning: "
                   ++ exn_str e))).

(** [clone_from url to_path branch] stands for
    [git.Repo.clone_from(url, to_path, branch=branch, depth=1)], [TEMP_DIR]
    for [tempfile.gettempdir()] and [now] for [int(time.time())]. *)
Definition clone_repository (clone_from : pystr -> pystr -> pystr -> M unit)
    (TEMP_DIR : pystr) (now : N)
    (repo_url branch : pystr) (access_token : option pystr) : M pystr :=
  match search_repo_name repo_url with
  | None =>
      raise (HTTPException 400
               (py "Could not determine repository name from URL."))
  | Some repo_name =>
      let repo_dir := repo_dir_of TEMP_DIR repo_name now in
      prepare_destination repo_dir ;;;
      guarded_clone clone_from (auth_url repo_url access_token)
                    repo_dir branch
  end.

(** ** The language model: generate_gemini_response *)

(** What [model.generate_content(prompt)] returns, as far as the program
    looks at it: the parts of the answer, the [text] accessor, which can
    raise, and [prompt_feedback.block_reason], [None] when it is falsy and
    its printed form otherwise. *)
Record llm_response : Type := mkResponse {
  parts : list pystr;
  text : result pystr;
  block_reason : option pystr
}.

Definition generate_gemini_response
    (generate_content : pystr -> result llm_response)
    (prompt error_detail : pystr) : result pystr :=
  try_except
    (and_then (generate_content prompt) (fun response =>
       match parts response with
       | _ :: _ => text response
       | [] =>
           match block_reason response with
           | Some reason =>
               Ok (py "Content generation blocked due to safety settings (Reason: "
                   ++ reason
                   ++ py "). Please refine your query or check the content.")
           | None =>
               Ok (py "Received an empty response from the language model.")
           end
       end))
    (fun e => Raise (HTTPException 503 (error_detail ++ py ": " ++ exn_str e))).

(** The default [error_detail]. *)
Definition default_error_detail : pystr :=
  py "Failed to generate response from LLM".

(** ** json.dumps *)

(** A JSON value as [json.loads] builds it. A float carries whether it is
    zero, for its truth value, and the text [json.dumps] prints for it. *)
Inductive json : Type :=
  | JNull
  | JBool (b : bool)
  | JInt (value : Z)
  | JFloat (zero : bool) (repr : pystr)
  | JString (s : pystr)
  | JArray (items : list json)
  | JObject (members : list (pystr * json)).

Definition hex_digit (d : N) : N := if d <? 10 then 48 + d else 87 + d.

(** [\uXXXX] with four lower-case hexadecimal digits. *)
Definition unicode_escape (c : N) : pystr :=
  [92; 117; hex_digit (c / 4096 mod 16); hex_digit (c / 256 mod 16);
   hex_digit (c / 16 mod 16); hex_digit (c mod 16)].

(** One character of a string under [ensure_ascii=True]. *)
Definition json_escape_char (c : N) : pystr :=
  if N.eqb c 34 then [92; 34]
  else if N.eqb c 92 then [92; 92]
  else if N.eqb c 10 then [92; 110]
  else if N.eqb c 13 then [92; 114]
  else if N.eqb c 9 then [92; 116]
  else if N.eqb c 8 then [92; 98]
  else if N.eqb c 12 then [92; 102]
  else if (32 <=? c) && (c <=? 126) then [c]
  else if c <? 65536 then unicode_escape c
  else unicode_escape (55296 + (c - 65536) / 1024)
       ++ unicode_escape (56320 + (c - 65536) mod 1024).

Definition json_string (s : pystr) : pystr :=
  [34] ++ List.concat (map json_escape_char s) ++ [34].

(** A newline followed by the indentation of nesting level [level]. *)
Definition newline_indent (level : nat) : pystr :=
  [10] ++ repeat 32 (2 * level).

(** [json.dumps(v, indent=2)], [level] being the nesting level of [v]. *)
Fixpoint json_dumps_at (level : nat) (v : json) : pystr :=
  match v with
  | JNull => py "null"
  | JBool true => py "true"
  | JBool false => py "false"
  | JInt value => py (NilZero.string_of_int (Z.to_int value))
  | JFloat _ repr => repr
  | JString s => json_string s
  | JArray [] => py "[]"
  | JArray items =>
      py "["
      ++ newline_indent (S level)
      ++ str_join (py "," ++ newline_indent (S level))
           (map (json_dumps_at (S level)) items)
      ++ newline_indent level ++ py "]"
  | JObject [] => py "{}"
  | JObject members =>
      py "{"
      ++ newline_indent (S level)
      ++ str_join (py "," ++ newline_indent (S level))
           ((fix dump_members (l : list (pystr * json)) : list pystr :=
               match l with
               | [] => []
               | (k, x) :: l' =>
                   (json_string k ++ py ": " ++ json_dumps_at (S level) x)
                   :: dump_members l'
               end) members)
      ++ newline_indent level ++ py "}"
  end.

Definition json_dumps (v : json) : pystr := json_dumps_at 0 v.

(** The name of the Python type of a value. *)
Definition json_type_name (v : json) : pystr :=
  match v with
  | JNull => py "NoneType"
  | JBool _ => py "bool"
  | JInt _ => py "int"
  | JFloat _ _ => py "float"
  | JString _ => py "str"
  | JArray _ => py "list"
  | JObject _ => py "dict"
  end.

(** ** Dicts with string keys *)

(** [d[k] = v] for a dict with values of any one type. *)
Fixpoint assoc_set {V : Type} (k : pystr) (v : V) (d : list (pystr * V))
  : list (pystr * V) :=
  match d with
  | [] => [(k, v)]
  | (k', v') :: d' =>
      if str_eqb k k' then (k', v) :: d' else (k', v') :: assoc_set k v d'
  end.

Fixpoint assoc_get {V : Type} (k : pystr) (d : list (pystr * V)) : option V :=
  match d with
  | [] => None
  | (k', v) :: d' => if str_eqb k k' then Some v else assoc_get k d'
  end.

(** ** Prompts *)

(** The lines of a literal that spans several source lines. *)
Definition text_lines (l : list string) : pystr := str_join [10] (map py l).

(** ** get_repo_summary *)

(** The loop over the README names: the first content that is not [None],
    or the default text. *)
Fixpoint summary_readme (fs : node) (repo_dir : pystr) (names : list pystr)
  : result pystr :=
  match names with
  | [] => Ok (py "No README file found.")
  | readme_name :: rest =>
      and_then (get_file_content fs repo_dir readme_name) (fun content =>
        match content with
        | Some readme_content => Ok readme_content
        | None => summary_readme fs repo_dir rest
        end)
  end.

Definition summary_prompt (structure_list : list pystr)
    (readme_content : pystr) : pystr :=
  text_lines
    ["Analyze the following information about a GitHub repository and provide a concise summary (under 250 words).";
     "";
     "    Repository Structure (Sample of files):";
     "    "]%string
  ++ json_dumps (JArray (map JString (firstn 50 structure_list)))
  ++ text_lines
    ["";
     "";
     "    README Content (Partial):";
     "    "]%string
  ++ firstn 3000 readme_content
  ++ text_lines
    ["";
     "";
     "    Based on this, please summarize:";
     "    1. The main purpose or goal of the repository.";
     "    2. The primary programming languages or technologies used (if apparent).";
     "    3. Key directories or files that seem important.";
     "    4. Potential use cases or target audience.";
     "    "]%string.

Definition get_repo_summary (generate_content : pystr -> result llm_response)
    (fs : node) (repo_dir : pystr) : result pystr :=
  and_then
    (summary_readme fs repo_dir
       [py "README.md"; py "readme.md"; py "README"; py "README.txt"])
    (fun readme_content =>
       let structure := get_repo_structure fs repo_dir in
       let structure_list := keys structure in
       let prompt := summary_prompt structure_list readme_content in
       generate_gemini_response generate_content prompt
         (py "Failed to generate repository summary")).

(** ** process_code_for_llm on the context of a request

    A request carries [context] as [Optional[Dict[str, Any]]]: the entries
    of its [files] list need not be strings. [context_arg] above is such a
    context once every entry is known to be a string; here are the
    contexts as they arrive. *)

Definition request_context : Type := option (list (pystr * json)).

(** [context["files"]] when step 1 runs its loop: [context] is a dict that
    is not empty, has the key, and the value is a list. *)
Definition context_entries (context : request_context) : option (list json) :=
  match context with
  | Some ((_ :: _) as members) =>
      match assoc_get (py "files") members with
      | Some (JArray entries) => Some entries
      | _ => None
      end
  | _ => None
  end.

(** The [TypeError] step 1 meets at an entry that is not a string:
    [file_path not in files_processed] raises it for a list or a dict,
    which cannot be hashed, and [os.path.join] in [get_file_content] for
    any other value. *)
Definition entry_error (v : json) : exn :=
  OtherException
    match v with
    | JArray _ | JObject _ =>
        py "unhashable type: '" ++ json_type_name v ++ py "'"
    | _ =>
        py "join() argument must be str, bytes, or os.PathLike object, not '"
        ++ json_type_name v ++ py "'"
    end.

(** Step 1 on the entries as they arrive: a string takes one pass of
    [explicit_loop]; an entry that is not a string ends the loop with its
    error. *)
Fixpoint explicit_entries (fs : node) (repo_dir : pystr)
    (entries : list json) (b : builder) : result builder :=
  match entries with
  | [] => Ok b
  | JString file_path :: rest =>
      and_then (explicit_loop fs repo_dir [file_path] b)
               (explicit_entries fs repo_dir rest)
  | v :: _ => Raise (entry_error v)
  end.

(** Steps 2 and 3 and the listing, as in [process_code_state]. *)
Definition after_explicit_files (fs : node) (repo_dir : pystr) (b : builder)
  : result builder :=
  and_then (include_readme fs repo_dir b) (fun b =>
  let structure := get_repo_structure fs repo_dir in
  and_then (include_source_files fs repo_dir structure b) (fun b =>
  Ok (add_structure_list structure b))).

(** [process_code_for_llm(repo_dir, query, context)] for the context of a
    request. *)
Definition process_code_for_llm_request (fs : node) (repo_dir query : pystr)
    (context : request_context) : result pystr :=
  let b := mkBuilder header [] [] in
  and_then
    (match context_entries context with
     | Some entries => explicit_entries fs repo_dir entries b
     | None => Ok b
     end) (fun b =>
  and_then (after_explicit_files fs repo_dir b) (fun b =>
  Ok (context_str b))).





(** ** The endpoints *)

(** What the endpoints reach outside the program: the clone, the language
    model, [json.loads] (the message of its [JSONDecodeError] on the left),
    the temporary directory and the clock. *)
Record services : Type := mkServices {
  clone_from : pystr -> pystr -> pystr -> M unit;
  generate_content : pystr -> result llm_response;
  json_loads : pystr -> pystr + json;
  TEMP_DIR : pystr;
  now : N
}.

(** The request models; [branch] and [access_token] as [clone_repository]
    takes them. *)
Module RepoRequest.
Record t : Type := mk {
  repo_url : pystr;
  branch : pystr;
  access_token : option pystr
}.
End RepoRequest.

Module QueryRequest.
Record t : Type := mk {
  repo_url : pystr;
  query : pystr;
  branch : pystr;
  context : request_context;
  access_token : option pystr
}.
End QueryRequest.

Module FileRequest.
Record t : Type := mk {
  repo_url : pystr;
  file_path : pystr;
  branch : pystr;
  access_token : option pystr
}.
End FileRequest.

(** A call that reads the file tree. *)
Definition reading {A : Type} (f : node -> result A) : M A :=
  fun fs => (f fs, fs).

(** [except HTTPException as e: raise e] and [except Exception as e: raise
    HTTPException(500, ...)]: what leaves the [try] of an endpoint for the
    exception [e]. *)
Definition as_http_error (e : exn) : exn :=
  match e with
  | HTTPException _ _ => e
  | _ => HTTPException 500
           (py "An unexpected server error occurred: " ++ exn_str e)
  end.

(** The [finally] clause: [if repo_dir: force_delete_directory(repo_dir)].
    It runs after the [try] and its handlers, whatever their outcome, which
    stays the outcome of the whole unless the clause itself raises. *)
Definition cleanup (repo_dir : option pystr) : M unit :=
  match repo_dir with
  | Some ((_ :: _) as dir) =>
      force_delete_directory dir default_max_retries default_delay ;;; ret tt
  | _ => ret tt
  end.

Definition and_finally {A : Type} (c : M A) (final : M unit) : M A :=
  fun fs =>
    match c fs with
    | (r, fs1) =>
        match final fs1 with
        | (Ok _, fs2) => (r, fs2)
        | (Raise e, fs2) => (Raise e, fs2)
        end
    end.

(** The frame the four endpoints share: [repo_dir] is [None] until the
    clone returns, the body runs on the clone, every exception that is not
    an [HTTPException] becomes one of status 500, and the [finally] clause
    removes the clone. The test [repo_dir is None] after the clone never
    holds, as [clone_repository] returns a string or raises. *)
Definition endpoint {A : Type} (sv : services)
    (repo_url branch : pystr) (access_token : option pystr)
    (body : pystr -> M A) : M A :=
  fun fs =>
    match clone_repository (clone_from sv) (TEMP_DIR sv) (now sv)
            repo_url branch access_token fs with
    | (Raise e, fs1) =>
        and_finally (raise (as_http_error e)) (cleanup None) fs1
    | (Ok repo_dir, fs1) =>
        and_finally
          (try_catch (body repo_dir) (fun _ => true)
                     (fun e => raise (as_http_error e)))
          (cleanup (Some repo_dir)) fs1
    end.

(** *** get_repository_info *)

Record repository_info : Type := mkRepositoryInfo {
  info_repo_url : pystr;
  info_branch : pystr;
  info_summary : pystr;
  info_structure : dict
}.

(** What the endpoint does with the clone. *)
Definition repository_info_body (sv : services)
    (repo_request : RepoRequest.t) (repo_dir : pystr) : M repository_info :=
  structure <- reading (fun fs => Ok (get_repo_structure fs repo_dir)) ;;
  summary <- reading (fun fs =>
               get_repo_summary (generate_content sv) fs repo_dir) ;;
  ret (mkRepositoryInfo (RepoRequest.repo_url repo_request)
         (RepoRequest.branch repo_request) summary structure).

Definition get_repository_info (sv : services) (repo_request : RepoRequest.t)
  : M repository_info :=
  endpoint sv (RepoRequest.repo_url repo_request)
    (RepoRequest.branch repo_request) (RepoRequest.access_token repo_request)
    (repository_info_body sv repo_request).

(** *** query_repository *)

Definition query_prompt (context_str query : pystr) : pystr :=
  text_lines
    ["You are an AI assistant specialized in analyzing and explaining code repositories.";
     "        You will be given context from a Git repository, including file contents and structure, followed by a user's question.";
     "";
     "        Repository Context:";
     "        "]%string
  ++ context_str
  ++ text_lines
    ["";
     "";
     "        User Question:";
     "        "]%string
  ++ query
  ++ text_lines
    ["";
     "";
     "        Please provide a detailed and accurate answer based *only* on the provided repository context.";
     "        - If the context contains the answer, explain it clearly, referencing specific files if helpful.";
     "        - If the context seems relevant but doesn't definitively answer the question, explain what you found and why it's insufficient.";
     "        - If the provided context doesn't contain information relevant to the question, state that clearly. Do not invent information.";
     "        - Structure your answer clearly. Use Markdown for formatting code snippets or file paths if necessary.";
     "        "]%string.

Record query_answer : Type := mkQueryAnswer {
  answer_query : pystr;
  answer_response : pystr;
  answer_repo_url : pystr;
  answer_branch : pystr
}.

Definition query_body (sv : services) (query_request : QueryRequest.t)
    (repo_dir : pystr) : M query_answer :=
  context_str <- reading (fun fs =>
                   process_code_for_llm_request fs repo_dir
                     (QueryRequest.query query_request)
                     (QueryRequest.context query_request)) ;;
  let prompt := query_prompt context_str (QueryRequest.query query_request) in
  response_text <- reading (fun _ =>
                     generate_gemini_response (generate_content sv) prompt
                       (py "Failed to get response for repository query")) ;;
  ret (mkQueryAnswer (QueryRequest.query query_request) response_text
         (QueryRequest.repo_url query_request)
         (QueryRequest.branch query_request)).

Definition query_repository (sv : services) (query_request : QueryRequest.t)
  : M query_answer :=
  endpoint sv (QueryRequest.repo_url query_request)
    (QueryRequest.branch query_request)
    (QueryRequest.access_token query_request)
    (query_body sv query_request).

(** *** summarize_file *)

Definition max_content_length : nat := 15000.

Definition file_prompt (file_path content_to_summarize : pystr)
    (truncated : bool) : pystr :=
  text_lines
    ["You are an AI assistant specialized in analyzing and explaining code.";
     "        Please provide a detailed summary of the following file from a GitHub repository.";
     "";
     "        File Path: "]%string
  ++ file_path
  ++ text_lines
    ["";
     "        "]%string
  ++ (if truncated then py "File Content (Truncated):" else py "File Content:")
  ++ text_lines
    ["";
     "        ```";
     "        "]%string
  ++ content_to_summarize
  ++ text_lines
    ["";
     "        ```";
     "        "]%string
  ++ (if truncated then py "... (Content Truncated)" else [])
  ++ text_lines
    ["";
     "";
     "        In your summary, please focus on:";
     "        1. The main purpose or role of this file within a larger project.";
     "        2. Key functions, classes, components, or configurations defined in the file and their responsibilities.";
     "        3. How this file might interact with other parts of the codebase (if inferrable).";
     "        4. Any notable patterns, algorithms, important libraries/frameworks used, or complex logic.";
     "";
     "        Keep the summary informative and well-structured. Use Markdown for readability.";
     "        "]%string.

Record file_summary : Type := mkFileSummary {
  fsum_repo_url : pystr;
  fsum_branch : pystr;
  fsum_file_path : pystr;
  fsum_summary : pystr
}.

Definition file_body (sv : services) (file_request : FileRequest.t)
    (repo_dir : pystr) : M file_summary :=
  file_content <- reading (fun fs =>
                    get_file_content fs repo_dir
                      (FileRequest.file_path file_request)) ;;
  match file_content with
  | None =>
      raise (HTTPException 404
               (py "File not found or could not be read: "
                ++ FileRequest.file_path file_request))
  | Some file_content =>
      let truncated :=
        (max_content_length <? List.length file_content)%nat in
      let content_to_summarize := firstn max_content_length file_content in
      let prompt := file_prompt (FileRequest.file_path file_request)
                      content_to_summarize truncated in
      summary_text <- reading (fun _ =>
                        generate_gemini_response (generate_content sv) prompt
                          (py "Failed to generate summary for file "
                           ++ FileRequest.file_path file_request)) ;;
      ret (mkFileSummary (FileRequest.repo_url file_request)
             (FileRequest.branch file_request)
             (FileRequest.file_path file_request) summary_text)
  end.

Definition summarize_file (sv : services) (file_request : FileRequest.t)
  : M file_summary :=
  endpoint sv (FileRequest.repo_url file_request)
    (FileRequest.branch file_request) (FileRequest.access_token file_request)
    (file_body sv file_request).

(** *** analyze_dependencies *)

(** The white space of [str.strip] and of the pattern class for spaces. *)
Definition is_space (c : N) : bool :=
  ((9 <=? c) && (c <=? 13)) || ((28 <=? c) && (c <=? 32))
  || N.eqb c 133 || N.eqb c 160 || N.eqb c 5760
  || ((8192 <=? c) && (c <=? 8202))
  || N.eqb c 8232 || N.eqb c 8233 || N.eqb c 8239 || N.eqb c 8287
  || N.eqb c 12288.

Fixpoint lstrip (s : pystr) : pystr :=
  match s with
  | c :: s' => if is_space c then lstrip s' else s
  | [] => []
  end.

Definition rstrip (s : pystr) : pystr := rev (lstrip (rev s)).

(** [s.strip()] *)
Definition strip (s : pystr) : pystr := rstrip (lstrip s).

(** The line boundaries of [str.splitlines]. *)
Definition is_linebreak (c : N) : bool :=
  ((10 <=? c) && (c <=? 13)) || ((28 <=? c) && (c <=? 30))
  || N.eqb c 133 || N.eqb c 8232 || N.eqb c 8233.

(** [s.splitlines()]: the lines without their boundaries; a carriage return with its line feed is one
    boundary, and a boundary at the very end opens no further line. *)
Fixpoint splitlines (s : pystr) : list pystr :=
  match s with
  | [] => []
  | c :: s' =>
      if is_linebreak c then
        [] :: match s' with
              | d :: s'' =>
                  if N.eqb c 13 && N.eqb d 10 then splitlines s''
                  else splitlines s'
              | [] => []
              end
      else match splitlines s' with
           | [] => [[c]]
           | line :: lines => (c :: line) :: lines
           end
  end.

(** The longest prefix of characters that pass a test, and the rest. *)
Fixpoint span (p : N -> bool) (s : pystr) : pystr * pystr :=
  match s with
  | c :: s' =>
      if p c then let '(taken, rest) := span p s' in (c :: taken, rest)
      else ([], s)
  | [] => ([], [])
  end.

(** [[a-zA-Z0-9_.-]] *)
Definition is_name_char (c : N) : bool :=
  ((97 <=? c) && (c <=? 122)) || ((65 <=? c) && (c <=? 90))
  || ((48 <=? c) && (c <=? 57))
  || N.eqb c 95 || N.eqb c 46 || N.eqb c 45.

(** [[<>=!~]] *)
Definition is_spec_char (c : N) : bool :=
  N.eqb c 60 || N.eqb c 62 || N.eqb c 61 || N.eqb c 33 || N.eqb c 126.

(** The match of the requirement pattern at the start of a line: any
    spaces, a name (group 1) of one or more of the characters above, any
    spaces, and then, if one of [<>=!~] follows, the rest of the line
    (group 2), which is [None] otherwise. Each repetition takes all it can
    and nothing after it can fail, so the match is the greedy one; there
    is no match when the name is empty. *)
Definition match_requirement (line : pystr) : option (pystr * option pystr) :=
  let '(name, rest) := span is_name_char (lstrip line) in
  match name with
  | [] => None
  | _ =>
      let rest := lstrip rest in
      match rest with
      | c :: _ =>
          if is_spec_char c
          then Some (name, Some (fst (span (fun d => negb (N.eqb d 10)) rest)))
          else Some (name, None)
      | [] => Some (name, None)
      end
  end.

(** The loop over [content.splitlines()] that fills [reqs]. *)
Definition requirement_step (reqs : list (pystr * pystr)) (line : pystr)
  : list (pystr * pystr) :=
  let line := strip line in
  match line with
  | [] => reqs
  | _ =>
      if negb (startswith (py "#") line) then
        match match_requirement line with
        | Some (name, group2) =>
            let version :=
              match group2 with
              | Some spec => strip spec
              | None => py "any"
              end in
            assoc_set name version reqs
        | None => reqs
        end
      else reqs
  end.

Definition parse_requirements (content : pystr) : list (pystr * pystr) :=
  fold_left requirement_step (splitlines content) [].

(** Truth value of a JSON value. *)
Definition json_truthy (v : json) : bool :=
  match v with
  | JNull => false
  | JBool b => b
  | JInt value => negb (Z.eqb value 0)
  | JFloat zero _ => negb zero
  | JString s => match s with [] => false | _ => true end
  | JArray items => match items with [] => false | _ => true end
  | JObject members => match members with [] => false | _ => true end
  end.

(** [package_data.get(key, {})]: only a dict has the method. *)
Definition json_get (package_data : json) (key : pystr) : result json :=
  match package_data with
  | JObject members =>
      Ok match assoc_get key members with
         | Some v => v
         | None => JObject []
         end
  | _ =>
      Raise (OtherException
               (py "'" ++ json_type_name package_data
                ++ py "' object has no attribute 'get'"))
  end.

(** The two dictionaries [analyze_dependencies] fills. *)
Record findings : Type := mkFindings {
  dependencies : list (pystr * json);
  dependency_files_content : list (pystr * pystr)
}.

(** The check of [package.json]. *)
Definition check_package_json (json_loads : pystr -> pystr + json)
    (fs : node) (repo_dir : pystr) (f : findings) : result findings :=
  let package_json_path := os_path_join repo_dir (py "package.json") in
  if os_path_exists fs package_json_path then
    and_then (get_file_content fs repo_dir (py "package.json")) (fun content =>
      if truthy content then
        match json_loads (text_of content) with
        | inr package_data =>
            and_then (json_get package_data (py "dependencies")) (fun deps =>
            and_then (json_get package_data (py "devDependencies"))
              (fun dev_deps =>
            let d1 := if json_truthy deps
                      then assoc_set (py "nodejs_runtime") deps (dependencies f)
                      else dependencies f in
            let d2 := if json_truthy dev_deps
                      then assoc_set (py "nodejs_development") dev_deps d1
                      else d1 in
            let c := if json_truthy deps || json_truthy dev_deps
                     then assoc_set (py "package.json")
                            (firstn 2000 (text_of content))
                            (dependency_files_content f)
                     else dependency_files_content f in
            Ok (mkFindings d2 c)))
        | inl message =>
            Ok (mkFindings
                  (assoc_set (py "nodejs_parse_error") (JString message)
                     (dependencies f))
                  (dependency_files_content f))
        end
      else Ok f)
  else Ok f.

Definition req_files : list pystr :=
  [py "requirements.txt"; py "requirements/base.txt";
   py "requirements/dev.txt"; py "pyproject.toml"].

(** [reqs] as the value stored in [dependencies]. *)
Definition reqs_value (reqs : list (pystr * pystr)) : json :=
  JObject (map (fun kv => (fst kv, JString (snd kv))) reqs).

(** The body of the loop over [req_files]. *)
Definition check_req_file (fs : node) (repo_dir : pystr) (f : findings)
    (req_file_name : pystr) : result findings :=
  let req_path := os_path_join repo_dir req_file_name in
  if os_path_exists fs req_path then
    and_then (get_file_content fs repo_dir req_file_name) (fun content =>
      if truthy content then
        if endswith (py ".txt") req_file_name then
          let reqs := parse_requirements (text_of content) in
          match reqs with
          | [] => Ok f
          | _ =>
              Ok (mkFindings
                    (assoc_set
                       (py "python_" ++ replace_char slash 95 req_file_name)
                       (reqs_value reqs) (dependencies f))
                    (assoc_set req_file_name (firstn 2000 (text_of content))
                       (dependency_files_content f)))
          end
        else if str_eqb req_file_name (py "pyproject.toml") then
          if contains (py "[tool.poetry.dependencies]") (text_of content)
             || contains (py "[project.dependencies]") (text_of content)
          then
            Ok (mkFindings
                  (assoc_set (py "python_pyproject_toml")
                     (JString (py "Found (Poetry/PEP621 format)"))
                     (dependencies f))
                  (assoc_set req_file_name (firstn 2000 (text_of content))
                     (dependency_files_content f)))
          else Ok f
        else Ok f
      else Ok f)
  else Ok f.

Definition other_dep_files : list (pystr * pystr) :=
  [(py "pom.xml", py "java_maven");
   (py "build.gradle", py "java_gradle");
   (py "build.gradle.kts", py "java_gradle_kotlin");
   (py "Cargo.toml", py "rust_cargo");
   (py "go.mod", py "go_modules");
   (py "composer.json", py "php_composer");
   (py "Gemfile", py "ruby_bundler")].

(** The body of the loop over [other_dep_files.items()]. *)
Definition check_other_file (fs : node) (repo_dir : pystr) (f : findings)
    (item : pystr * pystr) : result findings :=
  let '(fname, key) := item in
  let fpath := os_path_join repo_dir fname in
  if os_path_exists fs fpath then
    and_then (get_file_content fs repo_dir fname) (fun content =>
      if truthy content then
        Ok (mkFindings
              (assoc_set key (JString (py "Detected")) (dependencies f))
              (assoc_set fname (firstn 1500 (text_of content))
                 (dependency_files_content f)))
      else Ok f)
  else Ok f.

(** A [for] loop whose body may raise. *)
Fixpoint for_each {A S : Type} (body : S -> A -> result S) (l : list A)
    (s : S) : result S :=
  match l with
  | [] => Ok s
  | x :: l' => and_then (body s x) (for_each body l')
  end.

(** Everything up to the call of the language model. *)
Definition collect_dependencies (json_loads : pystr -> pystr + json)
    (fs : node) (repo_dir : pystr) : result findings :=
  and_then (check_package_json json_loads fs repo_dir (mkFindings [] []))
    (fun f =>
  and_then (for_each (check_req_file fs repo_dir) req_files f) (fun f =>
  for_each (check_other_file fs repo_dir) other_dep_files f)).

Definition dependency_context (f : findings) : pystr :=
  let context_for_llm :=
    py ("Detected Dependencies:" ++ String "010" "")
    ++ json_dumps (JObject (dependencies f)) ++ [10; 10] in
  match dependency_files_content f with
  | [] => context_for_llm
  | files =>
      fold_left
        (fun acc item =>
           acc ++ py "--- " ++ fst item ++ py (" ---" ++ String "010" "")
           ++ snd item ++ [10; 10])
        files
        (context_for_llm
         ++ py ("Relevant File Contents (Partial):" ++ String "010" ""))
  end.

Definition dependency_prompt (context_for_llm : pystr) : pystr :=
  text_lines
    ["Analyze the following dependency information extracted from a code repository.";
     "";
     "            "]%string
  ++ context_for_llm
  ++ text_lines
    ["";
     "";
     "            Based on the detected dependencies and their file contents (if provided):";
     "            1. Identify the primary programming languages/ecosystems used in this project.";
     "            2. For the most significant dependencies (especially in Node.js and Python if listed), briefly explain their purpose in the context of a typical web application or software project (e.g., 'React: Frontend UI library', 'Flask: Python web framework', 'Requests: HTTP client library').";
     "            3. Mention any notable development-only dependencies if present.";
     "            4. If multiple ecosystems are detected (e.g., Python backend, Node.js frontend), mention this possibility.";
     "";
     "            Provide a concise overview. Focus on giving a general understanding of the project's tech stack based on these dependencies. Do not just list the dependencies back. If parsing errors occurred or detection is basic (like 'Detected' for Java/Rust), acknowledge that the analysis might be incomplete.";
     "            "]%string.

Definition no_dependencies_explanation : pystr :=
  py "No supported dependency files (like package.json, requirements.txt, etc.) were found in the root directory or common subdirectories.".

Record dependency_report : Type := mkDependencyReport {
  report_repo_url : pystr;
  report_branch : pystr;
  report_dependencies : list (pystr * json);
  report_explanation : pystr
}.

Definition dependencies_body (sv : services) (repo_request : RepoRequest.t)
    (repo_dir : pystr) : M dependency_report :=
  f <- reading (fun fs => collect_dependencies (json_loads sv) fs repo_dir) ;;
  explanation <-
    match dependencies f with
    | _ :: _ =>
        reading (fun _ =>
          generate_gemini_response (generate_content sv)
            (dependency_prompt (dependency_context f))
            (py "Failed to generate dependency explanation"))
    | [] => ret no_dependencies_explanation
    end ;;
  ret (mkDependencyReport (RepoRequest.repo_url repo_request)
         (RepoRequest.branch repo_request) (dependencies f) explanation).

Definition analyze_dependencies (sv : services) (repo_request : RepoRequest.t)
  : M dependency_report :=
  endpoint sv (RepoRequest.repo_url repo_request)
    (RepoRequest.branch repo_request) (RepoRequest.access_token repo_request)
    (dependencies_body sv repo_request).

(** ** Vocabulary of the statements about the bundle *)

(** The excerpt cap of each step. *)
Definition cap (o : origin) : nat :=
  match o with
  | Explicit => 5000
  | Readme => 3000
  | Additional => 2500
  end.

(** A piece that step [o] may append: a file section of that step within
    its cap, or, for step 1 only, a placeholder. *)
Definition produced_by (o : origin) (sec : section) : Prop :=
  match sec with
  | FileSection o' _ excerpt => o' = o /\ (List.length excerpt <= cap o)%nat
  | Placeholder _ => o = Explicit
  | Listing _ => False
  end.

Definition is_additional (sec : section) : bool :=
  match sec with FileSection Additional _ _ => true | _ => false end.

(** The number of file sections step 3 appended. *)
Definition count_additional (l : list section) : nat :=
  List.length (filter is_additional l).

(** The text of a sequence of pieces. *)
Definition render_all (l : list section) : pystr :=
  List.concat (map render l).

(** The cap of the step that appended a file section holds for it. *)
Definition within_cap (sec : section) : Prop :=
  match sec with
  | FileSection o _ excerpt => (List.length excerpt <= cap o)%nat
  | _ => True
  end.

Definition is_listing (sec : section) : bool :=
  match sec with Listing _ => true | _ => false end.

(** The pieces that carry the label of [path]: its file sections and its
    placeholders. *)
Definition labels (path : pystr) (sec : section) : bool :=
  match sec with
  | FileSection _ p _ => str_eqb p path
  | Placeholder p => str_eqb p path
  | Listing _ => false
  end.

(** The locals of [process_code_for_llm] before step 1. *)
Definition initial_builder : builder := mkBuilder header [] [].

(** A file section shows the content of its file, cut at the cap of its
    step; a section of step 1 or 3 is there for a non-empty content only,
    a section of step 2 for one of the README names only. *)
Definition shows_file (fs : node) (repo_dir : pystr) (sec : section) : Prop :=
  match sec with
  | FileSection o file_path excerpt =>
      exists text,
        get_file_content fs repo_dir file_path = Ok (Some text)
        /\ excerpt = firstn (cap o) text
        /\ (o = Readme -> In file_path readme_names)
        /\ (o <> Readme -> text <> [])
  | _ => True
  end.

(** *** Well-formed trees and the files in them *)

(** A name a directory can hold: not empty, not [.] or [..], and with no
    separator in it. A backslash is a separator on the platforms where
    [os.sep] is one. *)
Definition name_ok (nm : pystr) : bool :=
  negb (str_eqb nm []) && negb (str_eqb nm (py "."))
  && negb (str_eqb nm (py ".."))
  && forallb (fun c => negb (N.eqb c slash) && negb (N.eqb c backslash)) nm.

Fixpoint nodupb (l : list pystr) : bool :=
  match l with
  | [] => true
  | x :: l' => negb (mem x l') && nodupb l'
  end.

(** Every directory of the tree holds each name once, and every name is
    one a directory can hold. *)
Fixpoint well_formed (n : node) : bool :=
  match n with
  | File _ _ => true
  | Dir _ es =>
      nodupb (map fst es)
      && (fix all (l : list (pystr * node)) : bool :=
            match l with
            | [] => true
            | (nm, child) :: l' => name_ok nm && well_formed child && all l'
            end) es
  end.

(** [in_tree n chain file]: below [n], the directories named by [chain],
    each inside the one before, lead to a regular file named [file]. *)
Inductive in_tree : node -> list pystr -> pystr -> Prop :=
  | in_tree_here (a a' : attrs) (es : list (pystr * node)) (file : pystr)
      (data : list N) :
      In (file, File a' data) es -> in_tree (Dir a es) [] file
  | in_tree_below (a : attrs) (es : list (pystr * node)) (nm : pystr)
      (child : node) (chain : list pystr) (file : pystr) :
      In (nm, child) es -> is_dir child = true ->
      in_tree child chain file -> in_tree (Dir a es) (nm :: chain) file.

(** The key [get_repo_structure] gives the file [file] of the directory
    [root]. *)
Definition index_key (root : list pystr) (file : pystr) : pystr :=
  let rel_path := os_path_relpath root in
  let rel_path := if str_eqb rel_path (py ".") then [] else rel_path in
  replace_char backslash slash (os_path_join rel_path file).

(** Every key stands for a regular file of the tree, and no directory on
    the way to it is named [.git]. *)
Definition keyed (top : node) (s : dict) : Prop :=
  forall k, In k (keys s) ->
    exists chain file,
      k = index_key chain file /\ in_tree top chain file
      /\ ~ In (py ".git") chain.

(** *** Repository names *)

(** What may follow the name: nothing, [.git], and either with the newline
    that ends the string. *)
Definition name_suffix (suf : pystr) : Prop :=
  suf = [] \/ suf = [10] \/ suf = py ".git" \/ suf = py ".git" ++ [10].

(** *** Files the walk reaches *)

(** [reachable n chain file]: as [in_tree], through directories that can
    be listed and none of which is named [.git]. *)
Inductive reachable : node -> list pystr -> pystr -> Prop :=
  | reachable_here (a a' : attrs) (es : list (pystr * node)) (file : pystr)
      (data : list N) :
      can_read a = true ->
      In (file, File a' data) es -> reachable (Dir a es) [] file
  | reachable_below (a : attrs) (es : list (pystr * node)) (nm : pystr)
      (child : node) (chain : list pystr) (file : pystr) :
      can_read a = true ->
      In (nm, child) es -> is_dir child = true -> nm <> py ".git" ->
      reachable child chain file -> reachable (Dir a es) (nm :: chain) file.

(** The descriptor stored under a key names that key. *)
Definition describes (entry : pystr * descriptor) : Prop :=
  d_type (snd entry) = py "file" /\ d_path (snd entry) = fst entry.

(** *** Pieces of the bundle *)

Definition is_readme_section (sec : section) : bool :=
  match sec with FileSection Readme _ _ => true | _ => false end.

(** The first of the names whose file can be read, with its content. *)
Fixpoint first_readable (fs : node) (repo_dir : pystr) (names : list pystr)
  : option (pystr * pystr) :=
  match names with
  | [] => None
  | name :: rest =>
      match get_file_content fs repo_dir name with
      | Ok (Some content) => Some (name, content)
      | _ => first_readable fs repo_dir rest
      end
  end.

(** A path step 3 may pick: a key of the index that is a priority file or
    ends, in lower case, with a source extension. *)
Definition eligible (structure : dict) (file_path : pystr) : Prop :=
  In file_path (keys structure)
  /\ (In file_path priority_files
      \/ existsb (fun ext => endswith ext (lower file_path)) source_extensions
         = true).

Definition from_index (structure : dict) (sec : section) : Prop :=
  match sec with
  | FileSection Additional file_path _ => eligible structure file_path
  | _ => True
  end.

(** *** Outcomes of an endpoint *)

(** The endpoint returned, or raised an [HTTPException]. *)
Definition http_only {A : Type} (outcome : result A * node) : Prop :=
  match outcome with
  | (Ok _, _) => True
  | (Raise (HTTPException _ _), _) => True
  | (Raise _, _) => False
  end.

(** The clone [clone_repository] makes for a request. *)
Definition request_clone (sv : services) (repo_url branch : pystr)
    (access_token : option pystr) : M pystr :=
  clone_repository (clone_from sv) (TEMP_DIR sv) (now sv) repo_url branch
    access_token.

(** Whenever the clone succeeded, the tree the endpoint leaves is the one
    [force_delete_directory] leaves when run on the tree of the clone, and
    the clone is gone exactly when that call returned [True]. *)
Definition removes_clone {A : Type} (clone : M pystr) (run : M A)
    (fs : node) : Prop :=
  forall repo_dir fs1,
    clone fs = (Ok repo_dir, fs1) ->
    exists ok fs2,
      force_delete_directory repo_dir default_max_retries default_delay fs1
      = (Ok ok, fs2)
      /\ snd (run fs) = fs2
      /\ (ok = true <-> os_path_exists fs2 repo_dir = false).

(** Whenever the clone failed, the endpoint raises the same exception and
    leaves the same tree. *)
Definition passes_clone_failure {A : Type} (clone : M pystr) (run : M A)
    (fs : node) : Prop :=
  forall e fs1, clone fs = (Raise e, fs1) -> run fs = (Raise e, fs1).

(** The names [analyze_dependencies] looks for below the root. *)
Definition dependency_file_names : list pystr :=
  py "package.json" :: req_files ++ map fst other_dep_files.

(** A requirement as [parse_requirements] stores it: a name of one or
    more name characters, and a version that is [any] or begins with one
    of the comparison characters. *)
Definition requirement_ok (entry : pystr * pystr) : Prop :=
  fst entry <> [] /\ forallb is_name_char (fst entry) = true
  /\ (snd entry = py "any"
      \/ exists c rest, snd entry = c :: rest /\ is_spec_char c = true).

(** A text without white space. *)
Definition unspaced (s : pystr) : Prop :=
  Forall (fun c => is_space c = false) s.

(** ** Concrete trees and clone outcomes used in the examples *)

(** Readable, writable, not held by anyone, owned. *)
Definition plain : attrs := mkAttrs true true false true.

(** The same, but held by another process. *)
Definition held : attrs := mkAttrs true true true true.

(** A repository with one file whose bytes [ff 61] are not valid UTF-8. *)
Definition fs_invalid_bytes : node :=
  Dir plain [(py "repo", Dir plain [(py "bad.txt", File plain [255; 97])])].

(** An empty temporary directory. *)
Definition fs_tmp : node := Dir plain [(py "tmp", Dir plain [])].

(** What an interrupted clone into [/tmp/llmrepo_repo_1700000000] leaves
    behind, the lock file having the attributes [a]. *)
Definition partial_clone (a : attrs) : node :=
  Dir plain
    [(py "tmp",
      Dir plain
        [(py "llmrepo_repo_1700000000",
          Dir plain [(py ".git", Dir plain [(py "config.lock", File a [])])])])].

Definition branch_error_text : pystr :=
  py "stderr: 'fatal: could not find remote branch nope to clone'".

(** A clone that fails for a missing branch after it has begun to fill the
    destination. *)
Definition clone_missing_branch (a : attrs) (url to_path branch : pystr)
  : M unit :=
  fun _ => (Raise (GitCommandError branch_error_text), partial_clone a).

(** The text [git clone] prints for a missing branch. *)
Definition git_missing_branch_text : pystr :=
  py ("warning: Could not find remote branch nope to clone."
      ++ String "010" "fatal: Remote branch nope not found in upstream origin").

(** The clone as git fails it for a branch the remote does not have: it
    raises with that text and leaves the destination partly filled. *)
Definition clone_git_missing_branch (url to_path branch : pystr) : M unit :=
  fun _ => (Raise (GitCommandError git_missing_branch_text),
            partial_clone plain).

(** A URL of a host that is not GitHub, with [github.com] in its path. *)
Definition other_host_url : pystr := py "https://evil.example/github.com/x.git".

(** A repository that holds [main.py] and nothing else. *)
Definition fs_main_py : node :=
  Dir plain
    [(py "repo", Dir plain [(py "main.py", File plain (py "print(1)"))])].

(** A repository of 500 source files [f0.py] ... [f499.py], the number
    written as one code point. *)
Definition fs_500 : node :=
  Dir plain
    [(py "repo",
      Dir plain
        (map (fun i => (py "f" ++ [1000 + N.of_nat i] ++ py ".py",
                        File plain (py "x = 1")))
             (seq 0 500)))].



(** A read-only node that belongs to someone else: [os.chmod] on it
    raises. *)
Definition foreign : attrs := mkAttrs true false false false.

(** A read-only node of one's own: [os.chmod] is allowed on it. *)
Definition read_only : attrs := mkAttrs true false false true.

(** What a clone leaves when the [.git] directory has the attributes [d]
    and the lock file in it the attributes [a]. *)
Definition clone_left (d a : attrs) : node :=
  Dir plain
    [(py "tmp",
      Dir plain
        [(py "llmrepo_repo_1700000000",
          Dir plain [(py ".git", Dir d [(py "config.lock", File a [])])])])].

(** A read-only lock file in a [.git] directory with the attributes [d]. *)
Definition guarded_clone_left (d : attrs) : node := clone_left d read_only.

(** The same with a read-only [.git], after the mode of the lock file has
    become [S_IWUSR]. *)
Definition guarded_clone_left_write_only : node :=
  clone_left read_only (write_only read_only).

(** A checkout whose [.git] is a regular file, as in a linked working
    tree. *)
Definition fs_git_file : node :=
  Dir plain
    [(py "repo",
      Dir plain [(py ".git", File plain (py "gitdir: /srv/repo.git"));
                 (py "main.py", File plain (py "print(1)"))])].

(** A checkout with its [.git] directory and a nested source file. *)
Definition checkout_top : node :=
  Dir plain
    [(py ".git", Dir plain [(py "HEAD", File plain (py "ref: main"))]);
     (py "README.md", File plain (py "Demo"));
     (py "src", Dir plain [(py "app.py", File plain (py "print(1)"))])].

Definition fs_checkout : node := Dir plain [(py "repo", checkout_top)].

(** *** Services of the examples *)

(** The tree after a clone into [/tmp/llmrepo_repo_1700000000]. *)
Definition fs_cloned : node :=
  Dir plain [(py "tmp", Dir plain [(py "llmrepo_repo_1700000000", checkout_top)])].

(** A clone that succeeds. *)
Definition clone_checkout (url to_path branch : pystr) : M unit :=
  fun _ => (Ok tt, fs_cloned).

(** A clone that is cut off by something other than git. *)
Definition clone_interrupted (url to_path branch : pystr) : M unit :=
  fun _ => (Raise (OtherException (py "connection reset")), partial_clone plain).

(** A model that answers, and one that cannot be reached. *)
Definition model_answers (prompt : pystr) : result llm_response :=
  Ok (mkResponse [py "It prints 1."] (Ok (py "It prints 1.")) None).

Definition model_unreachable (prompt : pystr) : result llm_response :=
  Raise (OtherException (py "deadline exceeded")).

Definition no_json (content : pystr) : pystr + json :=
  inl (py "Expecting value: line 1 column 1 (char 0)").

Definition sv_answers : services :=
  mkServices clone_checkout model_answers no_json (py "/tmp") 1700000000.

Definition sv_unreachable : services :=
  mkServices clone_checkout model_unreachable no_json (py "/tmp") 1700000000.

Definition sample_request : RepoRequest.t :=
  RepoRequest.mk (py "https://github.com/u/repo.git") (py "main") None.

(** The tree after a clone whose root holds a [package.json] with the
    text [[1]]. *)
Definition fs_cloned_package : node :=
  Dir plain
    [(py "tmp",
      Dir plain
        [(py "llmrepo_repo_1700000000",
          Dir plain [(py "package.json", File plain (py "[1]"))])])].

Definition clone_package (url to_path branch : pystr) : M unit :=
  fun _ => (Ok tt, fs_cloned_package).

(** [json.loads] on the text [[1]]. *)
Definition loads_list (content : pystr) : pystr + json :=
  inr (JArray [JInt 1]).

Definition sv_package_list : services :=
  mkServices clone_package model_answers loads_list (py "/tmp") 1700000000.

Definition sv_package_no_json : services :=
  mkServices clone_package model_answers no_json (py "/tmp") 1700000000.

Definition sample_url : pystr := py "https://github.com/u/repo.git".

(** Where the examples' clone lands. *)
Definition sample_dir : pystr := py "/tmp/llmrepo_repo_1700000000".

Definition sample_query : QueryRequest.t :=
  QueryRequest.mk sample_url (py "what does it do") (py "main") None None.


(** A request for a file the checkout does not hold. *)
Definition sample_file : FileRequest.t :=
  FileRequest.mk sample_url (py "missing.txt") (py "main") None.

(** A request whose URL ends with a slash. *)
Definition unnamed_request : RepoRequest.t :=
  RepoRequest.mk (py "https://github.com/u/repo/") (py "main") None.

(** * Properties *)

(** ** Strings and membership *)

Lemma str_eqb_eq (a b : pystr) : str_eqb a b = true <-> a = b.
Proof.
  revert b; induction a as [|x a IH]; intros [|y b]; simpl;
    try (split; [discriminate | congruence]); try tauto.
  rewrite andb_true_iff, N.eqb_eq, IH.
  split; [intros [-> ->]; reflexivity | intros H; inversion H; auto].
Qed.

Lemma str_eqb_refl (a : pystr) : str_eqb a a = true.
Proof. apply str_eqb_eq; reflexivity. Qed.

Lemma str_eqb_neq (a b : pystr) : str_eqb a b = false <-> a <> b.
Proof.
  rewrite <- str_eqb_eq. destruct (str_eqb a b); split; congruence.
Qed.

Lemma mem_In (x : pystr) (l : list pystr) : mem x l = true <-> In x l.
Proof.
  unfold mem. rewrite existsb_exists. split.
  - intros [y [Hy He]]. apply str_eqb_eq in He. subst; assumption.
  - intros H. exists x. split; [assumption | apply str_eqb_refl].
Qed.

Lemma mem_not_In (x : pystr) (l : list pystr) : mem x l = false <-> ~ In x l.
Proof.
  rewrite <- mem_In. destruct (mem x l); split; congruence.
Qed.

(** ** Decoding under [errors='ignore'] never fails *)



(** ** get_file_content *)


Lemma get_file_content_total (fs : node) (repo_dir file_path : pystr) :
  exists content, get_file_content fs repo_dir file_path = Ok content.
Proof.
  unfold get_file_content.
  destruct (negb (os_path_exists fs (os_path_join repo_dir file_path))
            || negb (os_path_isfile fs (os_path_join repo_dir file_path)));
    [eexists; reflexivity|].
  destruct (open_read fs (os_path_join repo_dir file_path));
    eexists; reflexivity.
Qed.




(** ** force_delete_directory *)

(** One pass of the retry loop never raises, and returns from the function
    only with [True], when the path is gone. *)
Lemma delete_attempt_spec (dir_path : pystr) (delay : N) (fs : node) :
  exists r fs',
    delete_attempt dir_path delay fs = (Ok r, fs')
    /\ (r = None \/ (r = Some true /\ os_path_exists fs' dir_path = false)).
Proof.
  unfold delete_attempt, try_catch.
  destruct (os_path_exists fs dir_path) eqn:He.
  - unfold bind. destruct (shutil_rmtree dir_path fs) as [[[]|e] fs1].
    + destruct (os_path_exists fs1 dir_path) eqn:He1; simpl.
      * exists None, fs1. auto.
      * exists (Some true), fs1. auto.
    + exists None, fs1. split; [|auto].
      destruct (is_PermissionError e); reflexivity.
  - exists None, fs. auto.
Qed.

Lemma delete_attempts_spec (dir_path : pystr) (delay : N) (attempts : nat)
    (fs : node) :
  exists r fs',
    delete_attempts dir_path attempts delay fs = (Ok r, fs')
    /\ (r = None \/ (r = Some true /\ os_path_exists fs' dir_path = false)).
Proof.
  revert fs. induction attempts as [|n IH]; intros fs.
  - exists None, fs. split; [reflexivity | auto].
  - simpl. unfold bind.
    destruct (delete_attempt_spec dir_path delay fs) as [r [fs1 [E H]]].
    rewrite E. destruct H as [-> | [-> He]].
    + apply IH.
    + exists (Some true), fs1. auto.
Qed.

(** A path that does not exist: every pass falls through and the tree is
    untouched. *)
Lemma delete_attempts_absent (dir_path : pystr) (delay : N) (attempts : nat)
    (fs : node) :
  os_path_exists fs dir_path = false ->
  delete_attempts dir_path attempts delay fs = (Ok None, fs).
Proof.
  intros He. induction attempts as [|n IH]; [reflexivity|].
  simpl. unfold bind, delete_attempt, try_catch. rewrite He. simpl.
  exact IH.
Qed.

Lemma force_delete_directory_absent (dir_path : pystr) (max_retries : nat)
    (delay : N) (fs : node) :
  os_path_exists fs dir_path = false ->
  force_delete_directory dir_path max_retries delay fs = (Ok true, fs).
Proof.
  intros He. unfold force_delete_directory, bind.
  rewrite (delete_attempts_absent _ _ _ _ He), He. reflexivity.
Qed.

(** C10: [force_delete_directory] is total. On every tree and for every
    path, retry count and delay it returns (it does not raise), and the
    value returned is [True] exactly when the path does not exist in the
    tree it leaves. *)
Theorem force_delete_directory_total (dir_path : pystr) (max_retries : nat)
    (delay : N) (fs : node) :
  exists b fs',
    force_delete_directory dir_path max_retries delay fs = (Ok b, fs')
    /\ (b = true <-> os_path_exists fs' dir_path = false).
Proof.
  unfold force_delete_directory, bind.
  destruct (delete_attempts_spec dir_path delay max_retries fs)
    as [r [fs1 [E H]]].
  rewrite E. destruct H as [-> | [-> He]].
  - destruct (os_path_exists fs1 dir_path) eqn:He.
    + exists false, fs1. split; [reflexivity|]. rewrite He. split; discriminate.
    + exists true, fs1. split; [reflexivity|]. rewrite He. tauto.
  - exists true, fs1. split; [reflexivity|]. tauto.
Qed.

(** The handlers at work. A read-only file in a directory that can be
    written is removed like any other, and the handler is not called. In a
    read-only [.git] of one's own the lock file cannot be removed; the
    handler sets the directory to [S_IWUSR], which does not help, no pass
    raises, and the function returns [False] with the destination in
    place. When [.git] belongs to someone else [os.chmod] is refused:
    [shutil.rmtree] raises [PermissionError], every pass catches it, and
    the function returns [False] with the tree as it was. A [.git] that
    cannot be opened is neither entered nor removed: the function returns
    [False] with the tree as it was. *)
Example force_delete_directory_read_only :
  force_delete_directory (repo_dir_of (py "/tmp") (py "repo") 1700000000)
    default_max_retries default_delay (partial_clone read_only)
  = (Ok true, fs_tmp).
Proof. reflexivity. Qed.

Example force_delete_directory_read_only_directory :
  force_delete_directory (repo_dir_of (py "/tmp") (py "repo") 1700000000)
    default_max_retries default_delay (clone_left read_only plain)
  = (Ok false, clone_left (write_only read_only) plain).
Proof. reflexivity. Qed.

Example force_delete_directory_catches :
  fst (shutil_rmtree (repo_dir_of (py "/tmp") (py "repo") 1700000000)
         (clone_left foreign plain))
  = Raise PermissionError
  /\ force_delete_directory (repo_dir_of (py "/tmp") (py "repo") 1700000000)
       default_max_retries default_delay (clone_left foreign plain)
     = (Ok false, clone_left foreign plain).
Proof. split; reflexivity. Qed.

Example force_delete_directory_unopened_directory :
  force_delete_directory (repo_dir_of (py "/tmp") (py "repo") 1700000000)
    default_max_retries default_delay (clone_left (write_only plain) plain)
  = (Ok false, clone_left (write_only plain) plain).
Proof. reflexivity. Qed.

(** C7: on a path that does not exist [force_delete_directory] returns
    [True] and leaves the tree as it is, so a second call made right after
    the first returns [True] as well. *)
Theorem force_delete_directory_idempotent (dir_path : pystr)
    (max_retries : nat) (delay : N) (fs : node) :
  os_path_exists fs dir_path = false ->
  force_delete_directory dir_path max_retries delay fs = (Ok true, fs)
  /\ (first <- force_delete_directory dir_path max_retries delay ;;
      second <- force_delete_directory dir_path max_retries delay ;;
      ret (first, second)) fs = (Ok (true, true), fs).
Proof.
  intros He. split; [apply force_delete_directory_absent; assumption|].
  unfold bind.
  rewrite !(force_delete_directory_absent _ _ _ _ He). reflexivity.
Qed.

Lemma force_delete_directory_idempotent_witness :
  force_delete_directory (py "/tmp/llmrepo_x_1") 3 500 fs_invalid_bytes
    = (Ok true, fs_invalid_bytes)
  /\ (first <- force_delete_directory (py "/tmp/llmrepo_x_1") 3 500 ;;
      second <- force_delete_directory (py "/tmp/llmrepo_x_1") 3 500 ;;
      ret (first, second)) fs_invalid_bytes
     = (Ok (true, true), fs_invalid_bytes).
Proof.
  apply (force_delete_directory_idempotent (py "/tmp/llmrepo_x_1") 3 500
           fs_invalid_bytes).
  reflexivity.
Defined.

(** ** clone_repository *)

Section Clone.

Variable clone_from : pystr -> pystr -> pystr -> M unit.
Variables (TEMP_DIR : pystr) (now : N).

(** Once the repository name is found and the destination is free, the
    outcome of [clone_repository] is that of the guarded clone, run on the
    URL [auth_url] computes. *)
Lemma clone_repository_runs_clone (repo_url branch repo_name : pystr)
    (access_token : option pystr) (fs fs1 : node) :
  search_repo_name repo_url = Some repo_name ->
  prepare_destination (repo_dir_of TEMP_DIR repo_name now) fs = (Ok tt, fs1) ->
  clone_repository clone_from TEMP_DIR now repo_url branch access_token fs
  = guarded_clone clone_from (auth_url repo_url access_token)
      (repo_dir_of TEMP_DIR repo_name now) branch fs1.
Proof.
  intros Hn Hp. unfold clone_repository. rewrite Hn.
  unfold bind. rewrite Hp. reflexivity.
Qed.

(** The failure branch for a [GitCommandError]: the destination is removed
    as far as possible, then the error is raised. *)
Lemma guarded_clone_git_error (url repo_dir branch msg : pystr)
    (fs1 fs2 : node) :
  clone_from url repo_dir branch fs1 = (Raise (GitCommandError msg), fs2) ->
  exists ok fs3,
    force_delete_directory repo_dir default_max_retries default_delay fs2
    = (Ok ok, fs3)
    /\ guarded_clone clone_from url repo_dir branch fs1
       = (Raise (HTTPException 400
                   (clone_error_detail (GitCommandError msg) branch)), fs3)
    /\ (ok = true <-> os_path_exists fs3 repo_dir = false).
Proof.
  intros Hc.
  destruct (force_delete_directory_total repo_dir default_max_retries
              default_delay fs2) as [ok [fs3 [Hd Hiff]]].
  exists ok, fs3. repeat split; try apply Hiff; try assumption.
  unfold guarded_clone, try_catch, bind. rewrite Hc. simpl.
  unfold bind. rewrite Hd. reflexivity.
Qed.

(** When the test of the handler matches, that is when the clone raises a
    [GitCommandError] whose text contains [could not find remote branch]
    in lower case and not [Authentication failed], [clone_repository] runs
    [force_delete_directory] on the destination in the tree the clone
    left, then raises the error of status 400 whose detail names the
    branch; the destination is gone afterwards exactly when that removal
    returned [True]. *)
Theorem clone_branch_not_found (repo_url branch repo_name msg : pystr)
    (access_token : option pystr) (fs fs1 fs2 : node) :
  search_repo_name repo_url = Some repo_name ->
  prepare_destination (repo_dir_of TEMP_DIR repo_name now) fs = (Ok tt, fs1) ->
  clone_from (auth_url repo_url access_token)
             (repo_dir_of TEMP_DIR repo_name now) branch fs1
  = (Raise (GitCommandError msg), fs2) ->
  contains (py "could not find remote branch") msg = true ->
  contains (py "Authentication failed") msg = false ->
  exists ok fs3,
    force_delete_directory (repo_dir_of TEMP_DIR repo_name now)
      default_max_retries default_delay fs2 = (Ok ok, fs3)
    /\ clone_repository clone_from TEMP_DIR now repo_url branch access_token fs
       = (Raise (HTTPException 400
                   ((py "Failed to clone repository: " ++ msg ++ py ". ")
                    ++ py "Please ensure the branch '" ++ branch
                    ++ py "' exists.")), fs3)
    /\ (ok = true <->
        os_path_exists fs3 (repo_dir_of TEMP_DIR repo_name now) = false).
Proof.
  intros Hn Hp Hc Hb Ha.
  destruct (guarded_clone_git_error _ _ _ _ _ _ Hc) as [ok [fs3 [Hd [Hg Hiff]]]].
  exists ok, fs3. repeat split; try apply Hiff; try assumption.
  rewrite (clone_repository_runs_clone _ _ _ _ _ _ Hn Hp), Hg.
  unfold clone_error_detail. cbn [exn_str]. rewrite Ha, Hb. reflexivity.
Qed.

(** The clone is run on [auth_url repo_url access_token].
    That URL is the original one with the token and [@] put right after the
    scheme when the token is non-empty, the URL contains [github.com] and
    it begins with the lower-case [https://] or [http://]; in every other
    case (no token, an empty token, another host, another scheme or spelling
    of the scheme) it is the original URL. *)
Theorem clone_url_embeds_token (repo_url branch repo_name : pystr)
    (access_token : option pystr) (fs fs1 : node) :
  search_repo_name repo_url = Some repo_name ->
  prepare_destination (repo_dir_of TEMP_DIR repo_name now) fs = (Ok tt, fs1) ->
  clone_repository clone_from TEMP_DIR now repo_url branch access_token fs
  = guarded_clone clone_from (auth_url repo_url access_token)
      (repo_dir_of TEMP_DIR repo_name now) branch fs1
  /\ (forall token rest,
        access_token = Some token -> token <> [] ->
        contains (py "github.com") repo_url = true ->
        (repo_url = py "https://" ++ rest ->
         auth_url repo_url access_token
         = py "https://" ++ token ++ py "@" ++ rest)
        /\ (repo_url = py "http://" ++ rest ->
            auth_url repo_url access_token
            = py "http://" ++ token ++ py "@" ++ rest))
  /\ (access_token = None \/ access_token = Some []
      \/ contains (py "github.com") repo_url = false
      \/ (startswith (py "https://") repo_url = false
          /\ startswith (py "http://") repo_url = false) ->
      auth_url repo_url access_token = repo_url).
Proof.
  intros Hn Hp. split; [apply clone_repository_runs_clone; assumption|].
  split.
  - intros token rest -> Ht Hg. unfold auth_url.
    destruct token as [|t token]; [congruence|]. rewrite Hg.
    split; intros ->.
    + reflexivity.
    + reflexivity.
  - intros H. unfold auth_url.
    destruct access_token as [[|t token]|]; try reflexivity.
    destruct H as [H | [H | [H | [H1 H2]]]]; try discriminate.
    + rewrite H. reflexivity.
    + rewrite H1, H2. destruct (contains _ _); reflexivity.
Qed.

End Clone.

Lemma clone_branch_not_found_witness :
  exists ok fs3,
    force_delete_directory (repo_dir_of (py "/tmp") (py "repo") 1700000000)
      default_max_retries default_delay (partial_clone plain) = (Ok ok, fs3)
    /\ clone_repository (clone_missing_branch plain) (py "/tmp") 1700000000
         (py "https://github.com/u/repo.git") (py "nope") None fs_tmp
       = (Raise (HTTPException 400
                   ((py "Failed to clone repository: " ++ branch_error_text
                     ++ py ". ")
                    ++ py "Please ensure the branch '" ++ py "nope"
                    ++ py "' exists.")), fs3)
    /\ (ok = true <->
        os_path_exists fs3 (repo_dir_of (py "/tmp") (py "repo") 1700000000)
        = false).
Proof.
  apply (clone_branch_not_found (clone_missing_branch plain) (py "/tmp")
           1700000000 (py "https://github.com/u/repo.git") (py "nope")
           (py "repo") branch_error_text None fs_tmp fs_tmp
           (partial_clone plain));
    reflexivity.
Defined.

(** Removal is best effort: the clone fails and leaves a file that another
    process holds. [clone_repository] raises its error,
    [force_delete_directory] having failed to remove the destination,
    which still exists afterwards. *)
Lemma clone_branch_not_found_destination_remains :
  contains (py "could not find remote branch") branch_error_text = true
  /\ exists fs3,
       clone_repository (clone_missing_branch held) (py "/tmp") 1700000000
         (py "https://github.com/u/repo.git") (py "nope") None fs_tmp
       = (Raise (HTTPException 400
                   ((py "Failed to clone repository: " ++ branch_error_text
                     ++ py ". ")
                    ++ py "Please ensure the branch '" ++ py "nope"
                    ++ py "' exists.")), fs3)
       /\ force_delete_directory
            (repo_dir_of (py "/tmp") (py "repo") 1700000000)
            default_max_retries default_delay (partial_clone held)
          = (Ok false, fs3)
       /\ os_path_exists fs3 (repo_dir_of (py "/tmp") (py "repo") 1700000000)
          = true.
Proof.
  split; [reflexivity|]. exists (partial_clone held).
  repeat split; vm_compute; reflexivity.
Qed.

(** The text [git clone] itself prints for a missing branch begins with a
    capital letter, which the case-sensitive test does not match: the
    detail then ends with the general advice. *)
Remark clone_error_detail_git_text :
  contains (py "could not find remote branch") git_missing_branch_text = false
  /\ clone_error_detail (GitCommandError git_missing_branch_text) (py "nope")
     = (py "Failed to clone repository: " ++ git_missing_branch_text
        ++ py ". ")
       ++ py "Check repository URL, branch name, and permissions.".
Proof. split; vm_compute; reflexivity. Qed.

(** C4: the failing input. The clone fails for a branch the remote does
    not have and raises with the text git prints for it, which begins
    [warning: Could not find remote branch]. The handler looks for
    [could not find remote branch] with a small letter, which that text
    does not contain, although it does once put in lower case: the error
    raised does not name the branch, its detail ends with the general
    advice. The destination has been removed before the error is raised. *)
Theorem clone_missing_branch_not_recognised :
  contains (py "could not find remote branch") git_missing_branch_text = false
  /\ contains (py "could not find remote branch")
       (lower git_missing_branch_text) = true
  /\ clone_repository clone_git_missing_branch (py "/tmp") 1700000000
       (py "https://github.com/u/repo.git") (py "nope") None fs_tmp
     = (Raise (HTTPException 400
                 (py "Failed to clone repository: " ++ git_missing_branch_text
                  ++ py ". Check repository URL, branch name, and permissions.")),
        fs_tmp)
  /\ contains (py "Please ensure the branch")
       (clone_error_detail (GitCommandError git_missing_branch_text)
          (py "nope")) = false.
Proof. repeat split; vm_compute; reflexivity. Qed.

(** C8: the failing input. A token is supplied with the URL of a host that
    is not GitHub and has [github.com] in its path. The test
    [github.com in repo_url] passes, and whatever the clone does it is run
    on the URL with the token put after the scheme, so that the token goes
    to that host. *)
Theorem clone_token_sent_to_other_host
    (clone_from : pystr -> pystr -> pystr -> M unit) :
  auth_url other_host_url (Some (py "TOKEN"))
  = py "https://TOKEN@evil.example/github.com/x.git"
  /\ clone_repository clone_from (py "/tmp") 1700000000 other_host_url
       (py "main") (Some (py "TOKEN")) fs_tmp
     = guarded_clone clone_from
         (py "https://TOKEN@evil.example/github.com/x.git")
         (py "/tmp/llmrepo_x_1700000000") (py "main") fs_tmp.
Proof. split; reflexivity. Qed.

Lemma clone_url_embeds_token_witness :
  auth_url (py "https://github.com/u/repo.git") (Some (py "TOKEN"))
  = py "https://TOKEN@github.com/u/repo.git".
Proof.
  apply (proj1 (proj1 (proj2 (clone_url_embeds_token
           (clone_missing_branch plain) (py "/tmp") 1700000000
           (py "https://github.com/u/repo.git") (py "main") (py "repo")
           (Some (py "TOKEN")) fs_tmp fs_tmp eq_refl eq_refl))
         (py "TOKEN") (py "github.com/u/repo.git") eq_refl
         ltac:(discriminate) eq_refl));
    reflexivity.
Defined.

(** Other schemes are left alone: a token is supplied and the URL names
    the host [github.com], yet the URL handed to the clone is the original
    one, with no token in it, because its scheme is not spelled [https://]
    or [http://]. *)
Lemma clone_url_other_scheme_unmodified :
  contains (py "github.com") (py "HTTPS://github.com/u/repo.git") = true
  /\ auth_url (py "HTTPS://github.com/u/repo.git") (Some (py "TOKEN"))
     = py "HTTPS://github.com/u/repo.git"
  /\ auth_url (py "HTTPS://github.com/u/repo.git") (Some (py "TOKEN"))
     <> py "HTTPS://" ++ py "TOKEN" ++ py "@" ++ py "github.com/u/repo.git"
  /\ contains (py "github.com") (py "ssh://git@github.com/u/repo.git") = true
  /\ auth_url (py "ssh://git@github.com/u/repo.git") (Some (py "TOKEN"))
     = py "ssh://git@github.com/u/repo.git".
Proof. repeat split; try reflexivity. vm_compute. discriminate. Qed.

(** ** process_code_for_llm *)

Section Builder.

Variables (fs : node) (repo_dir : pystr).

#[local] Arguments firstn : simpl never.

Lemma truthy_some (content : option pystr) :
  truthy content = true ->
  exists t, content = Some t /\ t <> [] /\ text_of content = t.
Proof.
  destruct content as [[|c t]|]; simpl; try discriminate.
  intros _. exists (c :: t). repeat split. discriminate.
Qed.

Lemma firstn_le {A : Type} (n : nat) (l : list A) :
  (List.length (firstn n l) <= n)%nat.
Proof. rewrite length_firstn. lia. Qed.

Lemma render_all_app (l1 l2 : list section) :
  render_all (l1 ++ l2) = render_all l1 ++ render_all l2.
Proof. unfold render_all. rewrite map_app, concat_app. reflexivity. Qed.

Lemma render_all_one (sec : section) : render_all [sec] = render sec.
Proof. unfold render_all. simpl. apply app_nil_r. Qed.

Lemma In_add_processed (q file_path : pystr) (b : builder) :
  In q (files_processed (add_processed file_path b))
  <-> In q (files_processed b) \/ q = file_path.
Proof.
  unfold add_processed. simpl.
  destruct (mem file_path (files_processed b)) eqn:Hm.
  - apply mem_In in Hm. split; [auto | intros [H | ->]; assumption].
  - rewrite in_app_iff. simpl. split; intros [H | H]; auto.
    + destruct H as [<- | []]. auto.
Qed.

(** Step 1. The pieces it appends are those of step 1; a file section
    stands for a path whose content is non-empty, a placeholder for a path
    whose content is absent or empty; only paths with non-empty content are
    recorded; and every path of the list is recorded already or gets a
    piece. *)
Lemma explicit_loop_spec (files : list pystr) (b : builder) :
  exists b' new,
    explicit_loop fs repo_dir files b = Ok b'
    /\ sections b' = sections b ++ new
    /\ context_str b' = context_str b ++ render_all new
    /\ Forall (produced_by Explicit) new
    /\ (forall o q e, In (FileSection o q e) new ->
          exists t, get_file_content fs repo_dir q = Ok (Some t) /\ t <> []
                    /\ e = firstn 5000 t)
    /\ (forall q, In (Placeholder q) new ->
          exists c, get_file_content fs repo_dir q = Ok c /\ truthy c = false)
    /\ (forall q, In q (files_processed b') ->
          In q (files_processed b)
          \/ exists t, get_file_content fs repo_dir q = Ok (Some t) /\ t <> [])
    /\ (forall q, In q files ->
          In q (files_processed b) \/ In (Placeholder q) new
          \/ exists e, In (FileSection Explicit q e) new).
Proof.
  revert b. induction files as [|file_path rest IH]; intros b.
  - exists b, []. simpl. rewrite !app_nil_r.
    repeat split; auto; try (intros; contradiction).
  - simpl. destruct (mem file_path (files_processed b)) eqn:Hm; simpl.
    + destruct (IH b) as [b' [new [E [Hs [Hc [Hp [Hf [Hph [Hfp Hin]]]]]]]]].
      exists b', new. repeat split; auto.
      intros q [<- | Hq]; [left; apply mem_In; assumption | auto].
    + destruct (get_file_content_total fs repo_dir file_path) as [content Hg].
      rewrite Hg. destruct (truthy content) eqn:Ht.
      * destruct (truthy_some _ Ht) as [t [-> [Hne Htx]]].
        set (sec := FileSection Explicit file_path (firstn 5000 (text_of (Some t)))).
        destruct (IH (add_processed file_path (append sec b)))
          as [b' [new [E [Hs [Hc [Hp [Hf [Hph [Hfp Hin]]]]]]]]].
        exists b', (sec :: new). simpl in Hs, Hc.
        split; [exact E|]. split; [rewrite Hs, <- app_assoc; reflexivity|].
        split; [rewrite Hc, <- app_assoc; f_equal;
                change (sec :: new) with ([sec] ++ new);
                rewrite render_all_app, render_all_one; reflexivity|].
        split; [constructor; [split; [reflexivity | apply firstn_le] | exact Hp]|].
        split; [intros o q e [Hq | Hq];
                [inversion Hq; subst; exists t; auto | eauto]|].
        split; [intros q [Hq | Hq]; [discriminate | auto]|].
        split.
        -- intros q Hq. destruct (Hfp q Hq) as [H | H]; [|auto].
           apply In_add_processed in H. destruct H as [H | ->]; [auto|].
           right. exists t. auto.
        -- intros q [<- | Hq].
           ++ right; right. exists (firstn 5000 (text_of (Some t))). left.
              reflexivity.
           ++ destruct (Hin q Hq) as [H | [H | [e H]]].
              ** apply In_add_processed in H. destruct H as [H | ->]; [auto|].
                 right; right. exists (firstn 5000 (text_of (Some t))). left.
                 reflexivity.
              ** right; left. right. exact H.
              ** right; right. exists e. right. exact H.
      * destruct (IH (append (Placeholder file_path) b))
          as [b' [new [E [Hs [Hc [Hp [Hf [Hph [Hfp Hin]]]]]]]]].
        exists b', (Placeholder file_path :: new). simpl in Hs, Hc.
        split; [exact E|]. split; [rewrite Hs, <- app_assoc; reflexivity|].
        split; [rewrite Hc, <- app_assoc; f_equal;
                change (Placeholder file_path :: new)
                  with ([Placeholder file_path] ++ new);
                rewrite render_all_app, render_all_one; reflexivity|].
        split; [constructor; [reflexivity | exact Hp]|].
        split; [intros o q e [Hq | Hq]; [discriminate | eauto]|].
        split; [intros q [Hq | Hq];
                [inversion Hq; subst; exists content; auto | auto]|].
        split; [exact Hfp|].
        intros q [<- | Hq].
        -- right; left. left. reflexivity.
        -- destruct (Hin q Hq) as [H | [H | [e H]]]; auto.
           ++ right; left. right. exact H.
           ++ right; right. exists e. right. exact H.
Qed.

(** Step 2 appends at most one piece, a README section. *)
Lemma readme_loop_spec (names : list pystr) (b : builder) :
  exists b' new,
    readme_loop fs repo_dir names b = Ok b'
    /\ sections b' = sections b ++ new
    /\ context_str b' = context_str b ++ render_all new
    /\ Forall (produced_by Readme) new
    /\ (List.length new <= 1)%nat.
Proof.
  revert b. induction names as [|readme_name rest IH]; intros b.
  - exists b, []. simpl. rewrite !app_nil_r. repeat split; auto.
  - simpl. destruct (mem readme_name (files_processed b)); simpl;
      [apply IH|].
    destruct (get_file_content_total fs repo_dir readme_name) as [content Hg].
    rewrite Hg. destruct content as [content|]; [|apply IH].
    eexists _, [FileSection Readme readme_name (firstn 3000 content)].
    split; [reflexivity|]. simpl. rewrite render_all_one.
    repeat split; auto.
    constructor; [split; [reflexivity | apply firstn_le] | constructor].
Qed.

(** Step 3 appends at most one file section for each entry of
    [files_to_add]. *)
Lemma additional_loop_spec (files : list pystr) (b : builder) :
  exists b' new,
    additional_loop fs repo_dir files b = Ok b'
    /\ sections b' = sections b ++ new
    /\ context_str b' = context_str b ++ render_all new
    /\ Forall (produced_by Additional) new
    /\ (List.length new <= List.length files)%nat.
Proof.
  revert b. induction files as [|file_path rest IH]; intros b.
  - exists b, []. simpl. rewrite !app_nil_r. repeat split; auto.
  - simpl.
    destruct (get_file_content_total fs repo_dir file_path) as [content Hg].
    rewrite Hg. destruct (truthy content).
    + set (sec := FileSection Additional file_path
                    (firstn 2500 (text_of content))).
      destruct (IH (add_processed file_path (append sec b)))
        as [b' [new [E [Hs [Hc [Hp Hl]]]]]].
      exists b', (sec :: new). simpl in Hs, Hc.
      split; [exact E|]. split; [rewrite Hs, <- app_assoc; reflexivity|].
      split; [rewrite Hc, <- app_assoc; f_equal;
              change (sec :: new) with ([sec] ++ new);
              rewrite render_all_app, render_all_one; reflexivity|].
      split; [constructor; [split; [reflexivity | apply firstn_le] | exact Hp]|].
      simpl. lia.
    + destruct (IH b) as [b' [new [E [Hs [Hc [Hp Hl]]]]]].
      exists b', new. repeat split; auto.
Qed.

Lemma files_to_add_length (structure : dict) (processed : list pystr) :
  (List.length (files_to_add structure processed) <= 10)%nat.
Proof. unfold files_to_add. apply firstn_le. Qed.

End Builder.

Lemma produced_by_within_cap (o : origin) (sec : section) :
  produced_by o sec -> within_cap sec.
Proof.
  destruct sec as [o' p e| |]; simpl; auto. intros [-> H]. exact H.
Qed.

Lemma Forall_produced_within (o : origin) (l : list section) :
  Forall (produced_by o) l -> Forall within_cap l.
Proof.
  intros H. eapply Forall_impl; [|exact H].
  intros sec. apply produced_by_within_cap.
Qed.

Lemma include_explicit_files_spec (fs : node) (repo_dir : pystr)
    (context : context_arg) :
  exists b1,
    include_explicit_files fs repo_dir context initial_builder = Ok b1
    /\ context_str b1 = header ++ render_all (sections b1)
    /\ Forall (produced_by Explicit) (sections b1)
    /\ (forall o q e, In (FileSection o q e) (sections b1) ->
          exists t, get_file_content fs repo_dir q = Ok (Some t) /\ t <> []
                    /\ e = firstn 5000 t)
    /\ (forall q, In (Placeholder q) (sections b1) ->
          exists c, get_file_content fs repo_dir q = Ok c /\ truthy c = false)
    /\ (forall q, In q (files_processed b1) ->
          exists t, get_file_content fs repo_dir q = Ok (Some t) /\ t <> [])
    /\ (forall q, In q (explicit_files context) ->
          In (Placeholder q) (sections b1)
          \/ exists e, In (FileSection Explicit q e) (sections b1)).
Proof.
  assert (Hbase : exists b1,
             Ok initial_builder = Ok b1
             /\ context_str b1 = header ++ render_all (sections b1)
             /\ Forall (produced_by Explicit) (sections b1)
             /\ (forall o q e, In (FileSection o q e) (sections b1) ->
                   exists t, get_file_content fs repo_dir q = Ok (Some t)
                             /\ t <> [] /\ e = firstn 5000 t)
             /\ (forall q, In (Placeholder q) (sections b1) ->
                   exists c, get_file_content fs repo_dir q = Ok c
                             /\ truthy c = false)
             /\ (forall q, In q (files_processed b1) ->
                   exists t, get_file_content fs repo_dir q = Ok (Some t)
                             /\ t <> [])
             /\ (forall q : pystr, In q [] ->
                   In (Placeholder q) (sections b1)
                   \/ exists e, In (FileSection Explicit q e) (sections b1))).
  { exists initial_builder. simpl.
    repeat split; auto; intros; contradiction. }
  destruct context as [[[files|]|]|]; try exact Hbase. clear Hbase.
  simpl.
  destruct (explicit_loop_spec fs repo_dir files initial_builder)
    as [b1 [new [E [Hs [Hc [Hp [Hf [Hph [Hfp Hin]]]]]]]]].
  simpl in Hs, Hc. subst new.
  exists b1. repeat split; auto.
  - intros q Hq. destruct (Hfp q Hq) as [[] | H]. exact H.
  - intros q Hq. destruct (Hin q Hq) as [[] | H]. exact H.
Qed.

(** The bundle as a whole: its pieces are those of step 1, at most one
    README section, at most ten sections of step 3 and, for an index of
    fewer than 200 paths, the listing; the text returned is the header
    followed by the text of the pieces. *)
Lemma process_code_state_spec (fs : node) (repo_dir query : pystr)
    (context : context_arg) :
  exists b1 b new2 new3,
    include_explicit_files fs repo_dir context initial_builder = Ok b1
    /\ process_code_state fs repo_dir query context = Ok b
    /\ sections b
       = sections b1 ++ new2 ++ new3
         ++ (if (List.length (get_repo_structure fs repo_dir) <? 200)%nat
             then [Listing (firstn 75 (keys (get_repo_structure fs repo_dir)))]
             else [])
    /\ context_str b = header ++ render_all (sections b)
    /\ Forall (produced_by Readme) new2 /\ (List.length new2 <= 1)%nat
    /\ Forall (produced_by Additional) new3 /\ (List.length new3 <= 10)%nat.
Proof.
  destruct (include_explicit_files_spec fs repo_dir context)
    as [b1 [E1 [Hc1 _]]].
  assert (H2 : exists b2 new2,
             include_readme fs repo_dir b1 = Ok b2
             /\ sections b2 = sections b1 ++ new2
             /\ context_str b2 = context_str b1 ++ render_all new2
             /\ Forall (produced_by Readme) new2
             /\ (List.length new2 <= 1)%nat).
  { unfold include_readme.
    destruct (negb (mem (py "README.md") (files_processed b1))
              && negb (mem (py "readme.md") (files_processed b1))).
    - apply readme_loop_spec.
    - exists b1, []. simpl. rewrite !app_nil_r. repeat split; auto. }
  destruct H2 as [b2 [new2 [E2 [Hs2 [Hc2 [Hp2 Hl2]]]]]].
  set (structure := get_repo_structure fs repo_dir).
  destruct (additional_loop_spec fs repo_dir
              (files_to_add structure (files_processed b2)) b2)
    as [b3 [new3 [E3 [Hs3 [Hc3 [Hp3 Hl3]]]]]].
  pose proof (files_to_add_length structure (files_processed b2)) as Hle.
  exists b1, (add_structure_list structure b3), new2, new3.
  split; [exact E1|].
  split.
  { unfold process_code_state. fold initial_builder. rewrite E1. simpl.
    rewrite E2. simpl. fold structure. unfold include_source_files.
    rewrite E3. reflexivity. }
  unfold add_structure_list.
  destruct (List.length structure <? 200)%nat; simpl.
  - rewrite Hs3, Hs2, Hc3, Hc2, Hc1. rewrite !render_all_app, render_all_one.
    rewrite <- !app_assoc. repeat split; auto. lia.
  - rewrite Hs3, Hs2, Hc3, Hc2, Hc1. rewrite !render_all_app.
    rewrite !app_nil_r, <- !app_assoc. repeat split; auto. lia.
Qed.

(** *** What a file section shows *)

Lemma shows_file_append (fs : node) (repo_dir : pystr) (sec : section)
    (b : builder) :
  shows_file fs repo_dir sec ->
  Forall (shows_file fs repo_dir) (sections b) ->
  Forall (shows_file fs repo_dir) (sections (append sec b)).
Proof.
  intros Hsec Hb. simpl. apply Forall_app. split; [exact Hb|].
  constructor; [exact Hsec | constructor].
Qed.

Lemma explicit_loop_excerpts (fs : node) (repo_dir : pystr)
    (files : list pystr) :
  forall b b',
    explicit_loop fs repo_dir files b = Ok b' ->
    Forall (shows_file fs repo_dir) (sections b) ->
    Forall (shows_file fs repo_dir) (sections b').
Proof.
  induction files as [|file_path rest IH]; intros b b' E Hb; simpl in E.
  - injection E as <-. exact Hb.
  - destruct (negb (mem file_path (files_processed b))); [|eauto].
    destruct (get_file_content fs repo_dir file_path) as [content|] eqn:Hg;
      [|discriminate].
    destruct (truthy content) eqn:Ht.
    + destruct (truthy_some _ Ht) as [t [-> [Hne Htx]]].
      apply (IH _ _ E). apply (shows_file_append fs repo_dir _ b); [|exact Hb].
      exists t. repeat split; auto. discriminate.
    + apply (IH _ _ E). apply (shows_file_append fs repo_dir _ b); [|exact Hb].
      exact I.
Qed.

Lemma readme_loop_excerpts (fs : node) (repo_dir : pystr)
    (names : list pystr) :
  (forall q, In q names -> In q readme_names) ->
  forall b b',
    readme_loop fs repo_dir names b = Ok b' ->
    Forall (shows_file fs repo_dir) (sections b) ->
    Forall (shows_file fs repo_dir) (sections b').
Proof.
  induction names as [|readme_name rest IH]; intros Hsub b b' E Hb;
    simpl in E.
  - injection E as <-. exact Hb.
  - assert (Hrest : forall q, In q rest -> In q readme_names)
      by (intros q Hq; apply Hsub; right; exact Hq).
    destruct (negb (mem readme_name (files_processed b))); [|eauto].
    destruct (get_file_content fs repo_dir readme_name) as [[content|]|]
      eqn:Hg; [| eauto | discriminate].
    injection E as <-.
    apply (shows_file_append fs repo_dir _ b); [|exact Hb].
    exists content. split; [exact Hg|]. split; [reflexivity|].
    split; [intros _; apply Hsub; left; reflexivity | intros H; congruence].
Qed.

Lemma additional_loop_excerpts (fs : node) (repo_dir : pystr)
    (files : list pystr) :
  forall b b',
    additional_loop fs repo_dir files b = Ok b' ->
    Forall (shows_file fs repo_dir) (sections b) ->
    Forall (shows_file fs repo_dir) (sections b').
Proof.
  induction files as [|file_path rest IH]; intros b b' E Hb; simpl in E.
  - injection E as <-. exact Hb.
  - destruct (get_file_content fs repo_dir file_path) as [content|] eqn:Hg;
      [|discriminate].
    destruct (truthy content) eqn:Ht; [|eauto].
    destruct (truthy_some _ Ht) as [t [-> [Hne Htx]]].
    apply (IH _ _ E). apply (shows_file_append fs repo_dir _ b); [|exact Hb].
    exists t. repeat split; auto. discriminate.
Qed.

(** Every file section of the bundle shows the content of its file, cut at
    the cap of its step. *)
Lemma process_code_state_excerpts (fs : node) (repo_dir query : pystr)
    (context : context_arg) (b : builder) :
  process_code_state fs repo_dir query context = Ok b ->
  Forall (shows_file fs repo_dir) (sections b).
Proof.
  unfold process_code_state. intros E.
  destruct (include_explicit_files fs repo_dir context
              (mkBuilder header [] [])) as [b1|] eqn:E1; [|discriminate].
  assert (H1 : Forall (shows_file fs repo_dir) (sections b1)).
  { unfold include_explicit_files in E1.
    destruct context as [[[files|]|]|];
      try (injection E1 as <-; constructor).
    apply (explicit_loop_excerpts fs repo_dir files _ _ E1). constructor. }
  simpl in E.
  destruct (include_readme fs repo_dir b1) as [b2|] eqn:E2; [|discriminate].
  assert (H2 : Forall (shows_file fs repo_dir) (sections b2)).
  { unfold include_readme in E2.
    destruct (negb (mem (py "README.md") (files_processed b1))
              && negb (mem (py "readme.md") (files_processed b1)));
      [|injection E2 as <-; exact H1].
    apply (readme_loop_excerpts fs repo_dir readme_names (fun q H => H)
             _ _ E2 H1). }
  simpl in E.
  destruct (include_source_files fs repo_dir
              (get_repo_structure fs repo_dir) b2) as [b3|] eqn:E3;
    [|discriminate].
  assert (H3 : Forall (shows_file fs repo_dir) (sections b3))
    by (apply (additional_loop_excerpts fs repo_dir _ _ _ E3 H2)).
  simpl in E. injection E as <-. unfold add_structure_list.
  destruct (_ <? _)%nat; [|exact H3].
  apply shows_file_append; [exact I | exact H3].
Qed.

(** C5: [process_code_for_llm] returns the header followed by the text of
    the pieces appended, and every file section among them keeps the cap of
    its step: 5,000 characters for an explicitly requested file, 3,000 for
    the README, 2,500 for a file of step 3. The excerpt of a section is the
    content of its file cut at that cap. *)
Theorem excerpts_within_caps (fs : node) (repo_dir query : pystr)
    (context : context_arg) :
  exists b,
    process_code_state fs repo_dir query context = Ok b
    /\ process_code_for_llm fs repo_dir query context
       = Ok (header ++ render_all (sections b))
    /\ Forall within_cap (sections b)
    /\ Forall (shows_file fs repo_dir) (sections b)
    /\ cap Explicit = 5000%nat /\ cap Readme = 3000%nat
    /\ cap Additional = 2500%nat.
Proof.
  destruct (process_code_state_spec fs repo_dir query context)
    as [b1 [b [new2 [new3 [E1 [E [Hs [Hc [Hp2 [_ [Hp3 _]]]]]]]]]]].
  destruct (include_explicit_files_spec fs repo_dir context)
    as [b1' [E1' [_ [Hp1 _]]]].
  rewrite E1 in E1'. injection E1' as <-.
  exists b. split; [exact E|].
  split; [unfold process_code_for_llm; rewrite E; simpl; rewrite Hc;
          reflexivity|].
  split; [|split; [apply (process_code_state_excerpts _ _ _ _ _ E)
                  | repeat split]].
  rewrite Hs. repeat (apply Forall_app; split);
    eauto using Forall_produced_within.
  destruct (_ <? _)%nat; repeat constructor.
Qed.

Lemma count_additional_app (l1 l2 : list section) :
  count_additional (l1 ++ l2) = (count_additional l1 + count_additional l2)%nat.
Proof. unfold count_additional. rewrite filter_app, length_app. reflexivity. Qed.

Lemma count_additional_le (l : list section) :
  (count_additional l <= List.length l)%nat.
Proof. unfold count_additional. apply filter_length_le. Qed.

Lemma count_additional_other (o : origin) (l : list section) :
  o <> Additional -> Forall (produced_by o) l -> count_additional l = 0%nat.
Proof.
  intros Ho H. induction H as [|sec l Hsec _ IH]; [reflexivity|].
  unfold count_additional in *. simpl.
  destruct sec as [o' p e| |]; simpl in *; auto.
  destruct Hsec as [-> _]. destruct o; simpl; auto. congruence.
Qed.

Lemma no_listing_produced (o : origin) (l : list section) :
  Forall (produced_by o) l -> existsb is_listing l = false.
Proof.
  intros H. induction H as [|sec l Hsec _ IH]; [reflexivity|].
  simpl. rewrite IH. destruct sec; simpl in *; auto. contradiction.
Qed.

(** C6: for an index of 500 paths the bundle holds at most ten file
    sections of step 3 and no file structure listing, whatever steps 1
    and 2 included. *)
Theorem large_index_bundle (fs : node) (repo_dir query : pystr)
    (context : context_arg) :
  List.length (get_repo_structure fs repo_dir) = 500%nat ->
  exists b,
    process_code_state fs repo_dir query context = Ok b
    /\ (count_additional (sections b) <= 10)%nat
    /\ existsb is_listing (sections b) = false.
Proof.
  intros Hlen.
  destruct (process_code_state_spec fs repo_dir query context)
    as [b1 [b [new2 [new3 [E1 [E [Hs [Hc [Hp2 [Hl2 [Hp3 Hl3]]]]]]]]]]].
  destruct (include_explicit_files_spec fs repo_dir context)
    as [b1' [E1' [_ [Hp1 _]]]].
  rewrite E1 in E1'. injection E1' as <-.
  rewrite Hlen in Hs. change (500 <? 200)%nat with false in Hs.
  rewrite !app_nil_r in Hs.
  exists b. split; [exact E|]. rewrite Hs. split.
  - rewrite !count_additional_app.
    rewrite (count_additional_other Explicit) by (auto; discriminate).
    rewrite (count_additional_other Readme) by (auto; discriminate).
    pose proof (count_additional_le new3). lia.
  - rewrite !existsb_app.
    rewrite (no_listing_produced _ _ Hp1), (no_listing_produced _ _ Hp2),
      (no_listing_produced _ _ Hp3).
    reflexivity.
Qed.

Lemma large_index_bundle_witness :
  exists b,
    process_code_state fs_500 (py "/repo") (py "what does it do") None = Ok b
    /\ (count_additional (sections b) <= 10)%nat
    /\ existsb is_listing (sections b) = false.
Proof.
  apply (large_index_bundle fs_500 (py "/repo") (py "what does it do") None).
  vm_compute. reflexivity.
Defined.






(** C1, the failing input: in a repository that holds [main.py], with no
    explicit files, step 3 lists [main.py] once as a priority file and once
    as a source file, and the bundle holds its section twice. *)
Lemma main_py_section_twice :
  exists b,
    process_code_state fs_main_py (py "/repo") (py "what does it do") None
    = Ok b
    /\ sections b
       = [FileSection Additional (py "main.py") (py "print(1)");
          FileSection Additional (py "main.py") (py "print(1)");
          Listing [py "main.py"]]
    /\ List.length (filter (labels (py "main.py")) (sections b)) = 2%nat
    /\ potential_files (get_repo_structure fs_main_py (py "/repo")) []
       = [py "main.py"; py "main.py"].
Proof. eexists. repeat split; vm_compute; reflexivity. Qed.

(** The part of C1 that holds: every entry of the explicit file list has a
    file section or a placeholder of its own in the bundle. *)
Lemma explicit_files_all_present (fs : node) (repo_dir query : pystr)
    (context : context_arg) :
  exists b,
    process_code_state fs repo_dir query context = Ok b
    /\ Forall (fun file_path =>
                 In (Placeholder file_path) (sections b)
                 \/ exists e, In (FileSection Explicit file_path e) (sections b))
              (explicit_files context).
Proof.
  destruct (process_code_state_spec fs repo_dir query context)
    as [b1 [b [new2 [new3 [E1 [E [Hs _]]]]]]].
  destruct (include_explicit_files_spec fs repo_dir context)
    as [b1' [E1' [_ [_ [_ [_ [_ Hall]]]]]]].
  rewrite E1 in E1'. injection E1' as <-.
  exists b. split; [exact E|]. apply Forall_forall. intros q Hq.
  rewrite Hs. destruct (Hall q Hq) as [H | [e H]].
  - left. apply in_or_app. left. exact H.
  - right. exists e. apply in_or_app. left. exact H.
Qed.

(** ** get_repo_structure *)

(** Induction on a tree, with the hypothesis for every entry of a
    directory. *)
Section NodeInduction.

Variable P : node -> Prop.
Hypothesis P_file : forall a data, P (File a data).
Hypothesis P_dir :
  forall a es, Forall (fun e => P (snd e)) es -> P (Dir a es).

Fixpoint node_induction (n : node) : P n :=
  match n with
  | File a data => P_file a data
  | Dir a es =>
      P_dir a es
        ((fix entries (l : list (pystr * node))
            : Forall (fun e => P (snd e)) l :=
            match l with
            | [] => Forall_nil _
            | e :: l' => Forall_cons e (node_induction (snd e)) (entries l')
            end) es)
  end.

End NodeInduction.

(** *** The dictionary *)

Lemma In_keys_dict_set (x k : pystr) (v : descriptor) (d : dict) :
  In x (keys (dict_set k v d)) <-> In x (keys d) \/ x = k.
Proof.
  induction d as [|[k' v'] d IH]; simpl.
  - split; [intros [<- | []]; auto | intros [[] | ->]; auto].
  - destruct (str_eqb k k') eqn:He; simpl.
    + apply str_eqb_eq in He. subst k'. split; [auto|].
      intros [H | ->]; auto.
    + unfold keys in IH. rewrite IH. tauto.
Qed.

Lemma NoDup_dict_set (k : pystr) (v : descriptor) (d : dict) :
  NoDup (keys d) -> NoDup (keys (dict_set k v d)).
Proof.
  induction d as [|[k' v'] d IH]; simpl; intros H.
  - constructor; [intros [] | constructor].
  - inversion H as [|? ? Hn Hd]; subst.
    destruct (str_eqb k k') eqn:He; simpl.
    + constructor; assumption.
    + constructor; [|apply IH; assumption].
      intros Hin. apply In_keys_dict_set in Hin. destruct Hin as [Hin | ->].
      * apply Hn. exact Hin.
      * rewrite str_eqb_refl in He. discriminate.
Qed.

(** *** One directory *)

Lemma walk_body_unfold (root dirs files : list pystr) (structure : dict) :
  snd (walk_body root dirs files structure)
  = fold_left
      (fun st file =>
         dict_set (index_key root file)
                  (mkDescriptor (py "file") (index_key root file)) st)
      files structure.
Proof. reflexivity. Qed.

(** The loop body adds the key of every file of the directory and no other
    key, and keeps the keys distinct. *)
Lemma walk_body_keys (root dirs files : list pystr) (structure : dict) :
  (NoDup (keys structure) ->
   NoDup (keys (snd (walk_body root dirs files structure))))
  /\ (forall k, In k (keys (snd (walk_body root dirs files structure))) <->
        In k (keys structure)
        \/ exists file, In file files /\ k = index_key root file).
Proof.
  rewrite walk_body_unfold.
  revert structure. induction files as [|file files IH]; intros structure.
  - simpl. split; [auto|]. intros k. split; [auto|].
    intros [H | [file [[] _]]]. exact H.
  - simpl. destruct (IH (dict_set (index_key root file)
                           (mkDescriptor (py "file") (index_key root file))
                           structure)) as [IHn IHk].
    split.
    + intros H. apply IHn. apply NoDup_dict_set. exact H.
    + intros k. rewrite IHk, In_keys_dict_set. split.
      * intros [[H | ->] | [f [Hf ->]]]; eauto.
      * intros [H | [f [[<- | Hf] ->]]]; eauto.
Qed.

Lemma walk_body_dirs (root dirs files : list pystr) (structure : dict) :
  fst (walk_body root dirs files structure)
  = if mem (py ".git") dirs then list_remove (py ".git") dirs else dirs.
Proof. reflexivity. Qed.

(** *** The walk *)

(** Whatever the loop body preserves, the walk preserves. *)
Lemma os_walk_preserves {S : Type}
    (body : list pystr -> list pystr -> list pystr -> S -> list pystr * S)
    (P : S -> Prop) :
  (forall root dirs files s, P s -> P (snd (body root dirs files s))) ->
  forall n root s, P s -> P (os_walk body root n s).
Proof.
  intros Hbody n. induction n as [a data | a es IH] using node_induction;
    intros root s Hs; simpl; [exact Hs|].
  destruct (can_read a); [|exact Hs].
  pose proof (Hbody root (dir_names es) (file_names es) s Hs) as H1.
  destruct (body root (dir_names es) (file_names es) s) as [dirs' s1].
  simpl in H1. clear Hs. revert s1 H1.
  induction IH as [|[nm child] l Hchild _ IHl]; intros s1 H1; [exact H1|].
  simpl. destruct (is_dir child && mem nm dirs'); apply IHl; [|exact H1].
  apply Hchild. exact H1.
Qed.

Lemma replace_char_absent (old new : N) (s : pystr) :
  old <> new -> ~ In old (replace_char old new s).
Proof.
  intros Hne Hin. unfold replace_char in Hin. apply in_map_iff in Hin.
  destruct Hin as [c [Hc _]].
  destruct (N.eqb_spec c old); congruence.
Qed.

Lemma NoDup_keys_get_repo_structure (fs : node) (repo_dir : pystr) :
  NoDup (keys (get_repo_structure fs repo_dir)).
Proof.
  unfold get_repo_structure.
  destruct (negb (os_path_isdir fs repo_dir)); [constructor|].
  destruct (stat fs repo_dir) as [top|]; [|constructor].
  apply (os_walk_preserves walk_body (fun s => NoDup (keys s))).
  - intros root dirs files s. apply walk_body_keys.
  - constructor.
Qed.

Lemma no_backslash_get_repo_structure (fs : node) (repo_dir k : pystr) :
  In k (keys (get_repo_structure fs repo_dir)) -> ~ In backslash k.
Proof.
  revert k. unfold get_repo_structure.
  destruct (negb (os_path_isdir fs repo_dir)); [intros k []|].
  destruct (stat fs repo_dir) as [top|]; [|intros k []].
  apply (os_walk_preserves walk_body
           (fun s => forall k, In k (keys s) -> ~ In backslash k)).
  - intros root dirs files s Hs k Hk.
    apply (proj2 (walk_body_keys root dirs files s)) in Hk.
    destruct Hk as [Hk | [file [_ ->]]]; [auto|].
    apply replace_char_absent. discriminate.
  - intros k [].
Qed.

(** *** Well-formed trees *)

Lemma nodupb_NoDup (l : list pystr) : nodupb l = true -> NoDup l.
Proof.
  induction l as [|x l IH]; simpl; [constructor|].
  rewrite andb_true_iff, negb_true_iff. intros [Hx Hl].
  constructor; [apply mem_not_In; exact Hx | auto].
Qed.

Lemma well_formed_dir (a : attrs) (es : list (pystr * node)) :
  well_formed (Dir a es) = true ->
  NoDup (map fst es)
  /\ forall nm child, In (nm, child) es ->
       name_ok nm = true /\ well_formed child = true.
Proof.
  simpl. rewrite andb_true_iff. intros [Hn Hall].
  split; [apply nodupb_NoDup; exact Hn|]. clear Hn.
  induction es as [|[nm' child'] es IH]; [intros nm child []|].
  rewrite !andb_true_iff in Hall. destruct Hall as [[Hnm Hc] Hrest].
  intros nm child [Hin | Hin]; [inversion Hin; subst; auto | auto].
Qed.

(** The names of the entries that pass a test are distinct when all the
    names are. *)
Lemma selected_names_distinct (keep : pystr * node -> bool)
    (es : list (pystr * node)) :
  NoDup (map fst es) -> NoDup (map fst (filter keep es)).
Proof.
  intros Hes. induction es as [|[nm child] es IH]; [constructor|].
  simpl in Hes. apply NoDup_cons_iff in Hes. destruct Hes as [Hnm Hes].
  simpl. destruct (keep (nm, child)); [|exact (IH Hes)].
  simpl. apply NoDup_cons; [|exact (IH Hes)].
  rewrite in_map_iff. intros [[nm' child'] [Heq Hin]]. simpl in Heq. subst nm'.
  apply filter_In in Hin. apply Hnm. rewrite in_map_iff.
  exists (nm, child'). split; [reflexivity | apply Hin].
Qed.

Lemma list_remove_NoDup (x : pystr) (l : list pystr) :
  NoDup l -> ~ In x (list_remove x l).
Proof.
  induction l as [|y l IH]; simpl; [auto|]. intros H.
  inversion H as [|? ? Hy Hl]; subst.
  destruct (str_eqb x y) eqn:He.
  - apply str_eqb_eq in He. subst. exact Hy.
  - intros [-> | Hin]; [rewrite str_eqb_refl in He; discriminate|].
    exact (IH Hl Hin).
Qed.

(** After the loop body has edited [dirs], [.git] is not among the names
    left. *)
Lemma walk_body_prunes (root dirs files : list pystr) (structure : dict) :
  NoDup dirs ->
  ~ In (py ".git") (fst (walk_body root dirs files structure)).
Proof.
  intros Hn. rewrite walk_body_dirs.
  destruct (mem (py ".git") dirs) eqn:Hm.
  - apply list_remove_NoDup. exact Hn.
  - apply mem_not_In. exact Hm.
Qed.

Lemma file_names_In (file : pystr) (es : list (pystr * node)) :
  In file (file_names es) -> exists a data, In (file, File a data) es.
Proof.
  unfold file_names. rewrite in_map_iff.
  intros [[nm child] [Hnm Hin]]. simpl in Hnm. subst nm.
  apply filter_In in Hin. destruct Hin as [Hin Hd].
  destruct child as [a data | a es']; [eauto | discriminate].
Qed.

Lemma os_walk_keyed (top : node) :
  forall n root s,
    well_formed n = true ->
    (forall chain file, in_tree n chain file ->
                        in_tree top (root ++ chain) file) ->
    ~ In (py ".git") root ->
    keyed top s -> keyed top (os_walk walk_body root n s).
Proof.
  intros n. induction n as [a data | a es IH] using node_induction;
    intros root s Hwf Hsub Hroot Hs; cbn [os_walk]; [exact Hs|].
  destruct (can_read a); [|exact Hs].
  destruct (well_formed_dir a es Hwf) as [Hnd Hentries].
  pose proof (walk_body_prunes root (dir_names es) (file_names es) s
                (selected_names_distinct _ es Hnd)) as Hprune.
  assert (H1 : keyed top (snd (walk_body root (dir_names es) (file_names es) s))).
  { intros k Hk. apply (proj2 (walk_body_keys _ _ _ _)) in Hk.
    destruct Hk as [Hk | [file [Hf ->]]]; [auto|].
    apply file_names_In in Hf. destruct Hf as [a' [data Hf]].
    exists root, file. repeat split; [|exact Hroot].
    rewrite <- (app_nil_r root). apply Hsub.
    apply (in_tree_here a a' es file data Hf). }
  destruct (walk_body root (dir_names es) (file_names es) s) as [dirs' s1].
  simpl in Hprune, H1. clear Hs.
  assert (Hloop : forall l,
             Forall (fun e =>
                       forall root s,
                         well_formed (snd e) = true ->
                         (forall chain file, in_tree (snd e) chain file ->
                            in_tree top (root ++ chain) file) ->
                         ~ In (py ".git") root ->
                         keyed top s ->
                         keyed top (os_walk walk_body root (snd e) s)) l ->
             (forall e, In e l -> In e es) ->
             forall s1, keyed top s1 ->
                        keyed top (descend (os_walk walk_body) root dirs' l s1));
    [|apply Hloop; auto].
  intros l Hl. induction Hl as [|[nm child] l Hchild _ IHl];
    intros Hin s2 H2; [exact H2|]. simpl.
  assert (Hrest : forall e, In e l -> In e es)
    by (intros e He; apply Hin; right; exact He).
  destruct (is_dir child && mem nm dirs') eqn:Hgo; [|apply IHl; assumption].
  apply IHl; [assumption|].
  apply andb_true_iff in Hgo. destruct Hgo as [Hd Hm].
  assert (Hes : In (nm, child) es) by (apply Hin; left; reflexivity).
  apply Hchild; [apply (Hentries nm child Hes) | | | exact H2].
  - intros chain file Ht. rewrite <- app_assoc. apply Hsub.
    apply (in_tree_below a es nm child chain file Hes Hd Ht).
  - intros Hg. apply in_app_or in Hg. destruct Hg as [Hg | [Hg | []]];
      [exact (Hroot Hg)|].
    apply Hprune. apply mem_In. rewrite <- Hg. exact Hm.
Qed.

(** *** Keys and components *)

Lemma name_ok_spec (nm : pystr) :
  name_ok nm = true ->
  nm <> [] /\ nm <> py "." /\ ~ In slash nm /\ ~ In backslash nm.
Proof.
  unfold name_ok. rewrite !andb_true_iff, !negb_true_iff, !str_eqb_neq.
  intros [[[H1 H2] _] H4]. rewrite forallb_forall in H4.
  repeat split; auto; intros Hin; apply H4 in Hin;
    vm_compute in Hin; discriminate.
Qed.

Lemma split_on_no_sep (c : N) (s : pystr) :
  ~ In c s -> split_on c s = [s].
Proof.
  induction s as [|x s IH]; simpl; [reflexivity|]. intros H.
  destruct (N.eqb_spec x c) as [-> | Hne]; [exfalso; apply H; auto|].
  rewrite IH by (intros Hin; apply H; auto). reflexivity.
Qed.

Lemma split_on_app (c : N) (a b : pystr) :
  ~ In c a -> split_on c (a ++ c :: b) = a :: split_on c b.
Proof.
  induction a as [|x a IH]; simpl; intros H.
  - rewrite N.eqb_refl. reflexivity.
  - destruct (N.eqb_spec x c) as [-> | Hne]; [exfalso; apply H; auto|].
    rewrite IH by (intros Hin; apply H; auto). reflexivity.
Qed.

Lemma split_join (c : N) (l : list pystr) :
  l <> [] -> (forall x, In x l -> ~ In c x) ->
  split_on c (str_join [c] l) = l.
Proof.
  induction l as [|x l IH]; [congruence|]. intros _ H.
  destruct l as [|y l].
  - simpl. apply split_on_no_sep. apply H. left. reflexivity.
  - change (str_join [c] (x :: y :: l))
      with (x ++ c :: str_join [c] (y :: l)).
    rewrite split_on_app by (apply H; left; reflexivity).
    rewrite IH; [reflexivity | discriminate |].
    intros z Hz. apply H. right. exact Hz.
Qed.

Lemma str_join_snoc (sep : pystr) (l : list pystr) (x : pystr) :
  l <> [] -> str_join sep (l ++ [x]) = str_join sep l ++ sep ++ x.
Proof.
  induction l as [|y l IH]; [congruence|]. intros _.
  destruct l as [|z l]; [reflexivity|].
  change (str_join sep ((y :: z :: l) ++ [x]))
    with (y ++ sep ++ str_join sep ((z :: l) ++ [x])).
  rewrite IH by discriminate.
  change (str_join sep (y :: z :: l)) with (y ++ sep ++ str_join sep (z :: l)).
  rewrite <- !app_assoc. reflexivity.
Qed.

Lemma replace_char_id (old new : N) (s : pystr) :
  ~ In old s -> replace_char old new s = s.
Proof.
  induction s as [|x s IH]; simpl; [reflexivity|]. intros H.
  destruct (N.eqb_spec x old) as [-> | Hne]; [exfalso; apply H; auto|].
  rewrite IH by (intros Hin; apply H; auto). reflexivity.
Qed.

Lemma endswith_other (c x : N) (s : pystr) :
  x <> c -> endswith [c] (s ++ [x]) = false.
Proof.
  intros H. unfold endswith. rewrite rev_app_distr. simpl.
  destruct (N.eqb_spec c x); [congruence | reflexivity].
Qed.

Lemma In_str_join (c : N) (sep : pystr) (l : list pystr) :
  In c (str_join sep l) -> In c sep \/ exists x, In x l /\ In c x.
Proof.
  induction l as [|x l IH]; simpl; [intros []|].
  destruct l as [|y l]; [intros H; right; exists x; auto|].
  rewrite !in_app_iff. intros [H | [H | H]]; [right; exists x; auto | auto |].
  destruct (IH H) as [Hs | [z [Hz Hc]]]; [auto|].
  right. exists z. simpl in *. tauto.
Qed.

Lemma startswith_absent (c : N) (s : pystr) :
  ~ In c s -> startswith [c] s = false.
Proof.
  destruct s as [|x s]; [reflexivity|]. intros H. cbn [startswith].
  destruct (N.eqb_spec c x) as [-> | _]; [exfalso; apply H; left|];
    reflexivity.
Qed.

Lemma os_path_join_plain (a b : pystr) :
  startswith [slash] b = false -> a <> [] -> endswith [slash] a = false ->
  os_path_join a b = a ++ [slash] ++ b.
Proof.
  intros H1 H2 H3. unfold os_path_join. rewrite H1, H3.
  destruct a; [congruence | reflexivity].
Qed.

Lemma os_path_join_nil (b : pystr) : os_path_join [] b = b.
Proof. unfold os_path_join. destruct (startswith [slash] b); reflexivity. Qed.

(** In a tree of well-formed names the key of a file is its directory
    names and its own name joined by [/]. *)
Lemma index_key_join (chain : list pystr) (file : pystr) :
  (forall d, In d chain -> name_ok d = true) -> name_ok file = true ->
  index_key chain file = str_join [slash] (chain ++ [file]).
Proof.
  intros Hchain Hfile.
  destruct (name_ok_spec file Hfile) as [Hf1 [_ [Hf3 Hf4]]].
  destruct chain as [|d chain].
  - change (index_key [] file)
      with (replace_char backslash slash (os_path_join [] file)).
    rewrite os_path_join_nil. apply replace_char_id. exact Hf4.
  - set (rel := os_path_relpath (d :: chain)).
    assert (Hrel : rel = str_join [slash] (d :: chain)) by reflexivity.
    assert (Hslash : forall c, In c rel ->
               c = slash \/ exists x, In x (d :: chain) /\ In c x).
    { intros c Hc. rewrite Hrel in Hc. apply In_str_join in Hc.
      destruct Hc as [[<- | []] | H]; auto. }
    assert (Hlast : exists s x, rel = s ++ [x] /\ x <> slash).
    { destruct (exists_last (l := d :: chain)) as [l' [nm Hl]];
        [discriminate|].
      assert (Hnm : name_ok nm = true)
        by (apply Hchain; rewrite Hl; apply in_or_app; right; left; reflexivity).
      destruct (name_ok_spec nm Hnm) as [Hn1 [_ [Hn3 _]]].
      destruct (exists_last Hn1) as [u [x Hu]].
      assert (Hx : x <> slash)
        by (intros ->; apply Hn3; rewrite Hu; apply in_or_app; right; left;
            reflexivity).
      rewrite Hrel, Hl. destruct l' as [|y l'].
      - exists u, x. simpl. auto.
      - rewrite str_join_snoc by discriminate. rewrite Hu.
        exists (str_join [slash] (y :: l') ++ [slash] ++ u), x.
        rewrite <- !app_assoc. auto. }
    destruct Hlast as [s [x [Hs Hx]]].
    assert (Hdot : str_eqb rel (py ".") = false).
    { apply str_eqb_neq. intros Hd. destruct chain as [|d' chain].
      - assert (Hdok : name_ok d = true) by (apply Hchain; left; reflexivity).
        destruct (name_ok_spec d Hdok) as [_ [Hd2 _]]. apply Hd2.
        rewrite <- Hd. reflexivity.
      - assert (Hin : In slash rel).
        { rewrite Hrel.
          change (str_join [slash] (d :: d' :: chain))
            with (d ++ [slash] ++ str_join [slash] (d' :: chain)).
          apply in_or_app. right. left. reflexivity. }
        rewrite Hd in Hin. simpl in Hin.
        destruct Hin as [Hin | []]. discriminate. }
    unfold index_key. fold rel. rewrite Hdot.
    assert (Hjoin : os_path_join rel file = rel ++ [slash] ++ file).
    { apply os_path_join_plain.
      - apply startswith_absent. exact Hf3.
      - rewrite Hs. destruct s; discriminate.
      - rewrite Hs. apply endswith_other. exact Hx. }
    rewrite Hjoin, Hrel, <- str_join_snoc by discriminate.
    apply replace_char_id. intros Hb. apply In_str_join in Hb.
    destruct Hb as [[Hb | []] | [y [Hy Hb]]]; [discriminate|].
    apply in_app_or in Hy. destruct Hy as [Hy | [<- | []]]; [|auto].
    destruct (name_ok_spec y (Hchain y Hy)) as [_ [_ [_ Hy4]]]. auto.
Qed.

Lemma in_tree_names_ok (n : node) (chain : list pystr) (file : pystr) :
  well_formed n = true -> in_tree n chain file ->
  (forall d, In d chain -> name_ok d = true) /\ name_ok file = true.
Proof.
  intros Hwf Ht. induction Ht as [a a' es file data Hin
                                 | a es nm child chain file Hin Hd Ht IH].
  - destruct (well_formed_dir a es Hwf) as [_ He].
    split; [intros d []|]. apply (He file _ Hin).
  - destruct (well_formed_dir a es Hwf) as [_ He].
    destruct (He nm child Hin) as [Hnm Hc].
    destruct (IH Hc) as [IH1 IH2]. split; [|exact IH2].
    intros d [<- | Hd']; auto.
Qed.

Lemma index_key_components (n : node) (chain : list pystr) (file : pystr) :
  well_formed n = true -> in_tree n chain file ->
  split_on slash (index_key chain file) = chain ++ [file].
Proof.
  intros Hwf Ht. destruct (in_tree_names_ok n chain file Hwf Ht) as [Hc Hf].
  rewrite index_key_join by assumption.
  apply split_join; [destruct chain; discriminate|].
  intros x Hx. apply in_app_or in Hx.
  destruct Hx as [Hx | [<- | []]].
  - apply (name_ok_spec x (Hc x Hx)).
  - apply (name_ok_spec file Hf).
Qed.

Lemma keyed_get_repo_structure (fs : node) (repo_dir : pystr) (top : node) :
  stat fs repo_dir = Some top -> well_formed top = true ->
  keyed top (get_repo_structure fs repo_dir).
Proof.
  intros Hs Hwf. unfold get_repo_structure. rewrite Hs.
  destruct (negb (os_path_isdir fs repo_dir)); [intros k []|].
  apply os_walk_keyed; auto.
  intros k [].
Qed.

(** C3, counterexample: in a checkout whose [.git] is a regular file the
    index has the key [.git], a key with a component equal to [.git]. *)
Lemma index_has_git_file_key :
  well_formed fs_git_file = true
  /\ keys (get_repo_structure fs_git_file (py "/repo"))
     = [py ".git"; py "main.py"]
  /\ In (py ".git") (split_on slash (py ".git")).
Proof. repeat split; try reflexivity. left. reflexivity. Qed.

(** C3, as amended: the index is empty when the root does not exist or is
    not a directory; its keys are distinct; no key holds a backslash; and
    in a tree whose directories hold every name once and only names without
    a separator, the components of a key are the names of directories of
    the tree, each inside the one before and none named [.git], followed by
    the name of a regular file in the last of them. The function is total:
    neither the directory test nor the walk raises. *)
Theorem index_keys (fs : node) (repo_dir : pystr) :
  (os_path_exists fs repo_dir = false ->
   get_repo_structure fs repo_dir = [])
  /\ (os_path_isdir fs repo_dir = false ->
      get_repo_structure fs repo_dir = [])
  /\ NoDup (keys (get_repo_structure fs repo_dir))
  /\ (forall k, In k (keys (get_repo_structure fs repo_dir)) ->
        ~ In backslash k)
  /\ (forall top,
        stat fs repo_dir = Some top -> well_formed top = true ->
        forall k, In k (keys (get_repo_structure fs repo_dir)) ->
          exists chain file,
            split_on slash k = chain ++ [file]
            /\ in_tree top chain file
            /\ ~ In (py ".git") chain).
Proof.
  assert (Hdir : os_path_isdir fs repo_dir = false ->
                 get_repo_structure fs repo_dir = []).
  { intros H. unfold get_repo_structure. rewrite H. reflexivity. }
  split.
  { intros H. apply Hdir. unfold os_path_exists, os_path_isdir in *.
    destruct (stat fs repo_dir); [discriminate | reflexivity]. }
  split; [exact Hdir|].
  split; [apply NoDup_keys_get_repo_structure|].
  split; [intros k; apply no_backslash_get_repo_structure|].
  intros top Hs Hwf k Hk.
  destruct (keyed_get_repo_structure fs repo_dir top Hs Hwf k Hk)
    as [chain [file [-> [Ht Hg]]]].
  exists chain, file. split; [|auto].
  apply (index_key_components top); assumption.
Qed.

Lemma index_keys_witness :
  exists chain file,
    split_on slash (py "src/app.py") = chain ++ [file]
    /\ in_tree checkout_top chain file
    /\ ~ In (py ".git") chain.
Proof.
  apply (proj2 (proj2 (proj2 (proj2 (index_keys fs_checkout (py "/repo")))))
           checkout_top eq_refl eq_refl (py "src/app.py")).
  vm_compute. right. left. reflexivity.
Defined.

(** ** Removal of a directory, as the callers see it *)

(** Whatever the tree, [force_delete_directory] returns, and its value
    tells whether the path is gone. *)
Lemma force_delete_directory_returns (dir_path : pystr) (max_retries : nat)
    (delay : N) (fs : node) :
  exists ok fs',
    force_delete_directory dir_path max_retries delay fs = (Ok ok, fs')
    /\ (ok = true <-> os_path_exists fs' dir_path = false).
Proof.
  unfold force_delete_directory, bind.
  destruct (delete_attempts_spec dir_path delay max_retries fs)
    as [r [fs1 [-> [-> | [-> Hgone]]]]].
  - destruct (os_path_exists fs1 dir_path) eqn:He;
      [exists false, fs1 | exists true, fs1];
      (split; [reflexivity|]); rewrite He; split; congruence.
  - exists true, fs1. split; [reflexivity | tauto].
Qed.

(** ** onerror *)

Lemma find_entry_set_entry (nm m : pystr) (x c : node)
    (es : list (pystr * node)) :
  find_entry nm es = Some c ->
  find_entry m (set_entry nm (Some x) es)
  = if str_eqb m nm then Some x else find_entry m es.
Proof.
  induction es as [|[k n] es IH]; simpl; [discriminate|].
  destruct (str_eqb nm k) eqn:E; intros H.
  - apply str_eqb_eq in E. subst k. simpl.
    destruct (str_eqb m nm); reflexivity.
  - simpl. rewrite (IH H). destruct (str_eqb m k) eqn:Em; [|reflexivity].
    apply str_eqb_eq in Em. subst k.
    destruct (str_eqb m nm) eqn:En; [|reflexivity].
    apply str_eqb_eq in En. subst nm. rewrite str_eqb_refl in E.
    discriminate.
Qed.

Lemma set_entry_again (nm : pystr) (new : option node) (x : node)
    (es : list (pystr * node)) :
  set_entry nm new (set_entry nm (Some x) es) = set_entry nm new es.
Proof.
  induction es as [|[k n] es IH]; simpl; [reflexivity|].
  destruct (str_eqb nm k) eqn:E; simpl; rewrite E; [reflexivity|].
  rewrite IH. reflexivity.
Qed.

Lemma set_at_below (a0 : attrs) (es : list (pystr * node)) (nm : pystr)
    (chain : list pystr) (c n' : node) :
  find_entry nm es = Some c ->
  set_at (Dir a0 es) (nm :: chain) (Some n')
  = Dir a0 (set_entry nm (Some (set_at c chain (Some n'))) es).
Proof.
  intros H. destruct chain; simpl; [|rewrite H]; reflexivity.
Qed.

(** Replacing a file by a file leaves every node where it was and of the
    kind it was. *)
Lemma get_at_kind (chain : list pystr) :
  forall (fs : node) (a a' : attrs) (d d' : list N) (ch : list pystr),
    get_at fs chain = Some (File a d) ->
    option_map is_dir (get_at (set_at fs chain (Some (File a' d'))) ch)
    = option_map is_dir (get_at fs ch).
Proof.
  induction chain as [|nm chain IH]; intros fs a a' d d' ch H.
  - simpl in H. injection H as ->. destruct ch; reflexivity.
  - destruct fs as [a0 d0 | a0 es]; [discriminate|]. simpl in H.
    destruct (find_entry nm es) as [c|] eqn:Hc; [|discriminate].
    rewrite (set_at_below a0 es nm chain c _ Hc).
    destruct ch as [|m ch]; [reflexivity|]. simpl.
    rewrite (find_entry_set_entry nm m _ c es Hc).
    destruct (str_eqb m nm) eqn:E; [|reflexivity].
    apply str_eqb_eq in E. subst m. rewrite Hc.
    apply (IH c a a' d d' ch H).
Qed.

(** Away from the file replaced, every node keeps its kind and its
    attributes. *)
Lemma get_at_elsewhere (chain : list pystr) :
  forall (fs : node) (a a' : attrs) (d d' : list N) (ch : list pystr),
    get_at fs chain = Some (File a d) -> ch <> chain ->
    match get_at (set_at fs chain (Some (File a' d'))) ch, get_at fs ch with
    | Some (Dir x _), Some (Dir y _) => x = y
    | Some (File x _), Some (File y _) => x = y
    | None, None => True
    | _, _ => False
    end.
Proof.
  induction chain as [|nm chain IH]; intros fs a a' d d' ch H Hne.
  - simpl in H. injection H as ->.
    destruct ch as [|m ch]; [congruence | exact I].
  - destruct fs as [a0 d0 | a0 es]; [discriminate|]. simpl in H.
    destruct (find_entry nm es) as [c|] eqn:Hc; [|discriminate].
    rewrite (set_at_below a0 es nm chain c _ Hc).
    destruct ch as [|m ch]; [reflexivity|]. simpl.
    rewrite (find_entry_set_entry nm m _ c es Hc).
    destruct (str_eqb m nm) eqn:E.
    + apply str_eqb_eq in E. subst m. rewrite Hc.
      apply (IH c a a' d d' ch H). congruence.
    + destruct (find_entry m es) as [n|]; [|exact I].
      destruct (get_at n ch) as [[x ?|x ?]|]; auto.
Qed.

Lemma parent_attrs_replaced (fs : node) (chain : list pystr) (a a' : attrs)
    (d d' : list N) :
  get_at fs chain = Some (File a d) ->
  parent_attrs (set_at fs chain (Some (File a' d'))) chain
  = parent_attrs fs chain.
Proof.
  intros H. unfold parent_attrs. destruct chain as [|nm chain]; [reflexivity|].
  assert (Hne : removelast (nm :: chain) <> nm :: chain).
  { intros Heq.
    pose proof (app_removelast_last nm (l := nm :: chain)
                  ltac:(discriminate)) as Hl.
    rewrite Heq in Hl. apply (f_equal (@List.length pystr)) in Hl.
    rewrite length_app in Hl. simpl in Hl. lia. }
  pose proof (get_at_elsewhere (nm :: chain) fs a a' d d' _ H Hne) as Hk.
  destruct (get_at (set_at fs (nm :: chain) (Some (File a' d')))
              (removelast (nm :: chain))) as [[x ?|x ?]|];
    destruct (get_at fs (removelast (nm :: chain))) as [[y ?|y ?]|];
    try contradiction; try reflexivity.
  subst y. reflexivity.
Qed.

Lemma get_at_replaced (chain : list pystr) :
  forall (fs n n' : node),
    get_at fs chain = Some n ->
    get_at (set_at fs chain (Some n')) chain = Some n'.
Proof.
  induction chain as [|nm chain IH]; intros fs n n' H; [reflexivity|].
  destruct fs as [a0 d0 | a0 es]; [discriminate|]. simpl in H.
  destruct (find_entry nm es) as [c|] eqn:Hc; [|discriminate].
  rewrite (set_at_below a0 es nm chain c _ Hc). simpl.
  rewrite (find_entry_set_entry nm nm _ c es Hc), str_eqb_refl.
  apply (IH c n n' H).
Qed.

Lemma set_at_replaced_removed (chain : list pystr) :
  forall (fs n n' : node),
    chain <> [] -> get_at fs chain = Some n ->
    set_at (set_at fs chain (Some n')) chain None = set_at fs chain None.
Proof.
  induction chain as [|nm chain IH]; intros fs n n' Hne H; [congruence|].
  destruct fs as [a0 d0 | a0 es]; [discriminate|]. simpl in H.
  destruct (find_entry nm es) as [c|] eqn:Hc; [|discriminate].
  rewrite (set_at_below a0 es nm chain c _ Hc).
  destruct chain as [|m chain].
  - simpl. rewrite set_entry_again. reflexivity.
  - assert (Hbelow : forall es' c',
               find_entry nm es' = Some c' ->
               set_at (Dir a0 es') (nm :: m :: chain) None
               = Dir a0 (set_entry nm (Some (set_at c' (m :: chain) None)) es')).
    { intros es' c' H'. simpl. rewrite H'. reflexivity. }
    rewrite (Hbelow es c Hc).
    rewrite (Hbelow _ (set_at c (m :: chain) (Some n'))).
    + rewrite set_entry_again.
      rewrite (IH c n n'); [reflexivity | discriminate | exact H].
    + rewrite (find_entry_set_entry nm nm _ c es Hc), str_eqb_refl.
      reflexivity.
Qed.

Lemma step_component_replaced (fs : node) (chain : list pystr)
    (a a' : attrs) (d d' : list N) (acc : option (list pystr)) (c : pystr) :
  get_at fs chain = Some (File a d) ->
  step_component (set_at fs chain (Some (File a' d'))) acc c
  = step_component fs acc c.
Proof.
  intros H. unfold step_component. destruct acc as [ch|]; [|reflexivity].
  pose proof (get_at_kind chain fs a a' d d' ch H) as Hk.
  pose proof (get_at_kind chain fs a a' d d' (ch ++ [c]) H) as Hk'.
  destruct (get_at (set_at fs chain (Some (File a' d'))) ch) as [[?|?]|];
    destruct (get_at fs ch) as [[?|?]|]; try discriminate; try reflexivity.
  destruct (str_eqb c [] || str_eqb c (py ".")); [reflexivity|].
  destruct (str_eqb c (py "..")); [reflexivity|].
  destruct (get_at (set_at fs chain (Some (File a' d'))) (ch ++ [c]));
    destruct (get_at fs (ch ++ [c])); try discriminate; reflexivity.
Qed.

Lemma locate_replaced (fs : node) (chain : list pystr) (a a' : attrs)
    (d d' : list N) (path : pystr) :
  get_at fs chain = Some (File a d) ->
  locate (set_at fs chain (Some (File a' d'))) path = locate fs path.
Proof.
  intros H. unfold locate. destruct path as [|x path]; [reflexivity|].
  generalize (Some (@nil pystr)).
  induction (split_on slash (x :: path)) as [|c comps IH]; intros acc;
    [reflexivity|].
  simpl. rewrite (step_component_replaced fs chain a a' d d' acc c H).
  apply IH.
Qed.

(** X1: the handler called by [shutil.rmtree] for a file that
    [os.access] does not report writable, in a tree whose directories can
    all be searched. When [os.chmod] is not allowed on the file the handler
    raises [PermissionError] and the tree is as it was. Otherwise the mode
    of the file becomes [S_IWUSR], write only, and [os.unlink] is tried
    again; it removes the file exactly when the directory that holds it can
    be written and nobody holds the file, and a failure is not raised. The
    mode of the file plays no part in that, so a removal that has just
    failed fails again: after the handler the file is still there. *)
Theorem onerror_read_only_file (path : pystr) (exc_info : exn) (fs : node)
    (chain : list pystr) (a parent : attrs) (data : list N) :
  all_searchable fs = true ->
  locate fs path = Some chain -> get_at fs chain = Some (File a data) ->
  parent_attrs fs chain = Some parent ->
  can_write a = false ->
  onerror OsUnlink path exc_info fs
  = (if owned a then
       (Ok tt,
        if removable parent a then set_at fs chain None
        else set_at fs chain (Some (File (write_only a) data)))
     else (Raise PermissionError, fs))
  /\ (fst (os_unlink path fs) <> Ok tt ->
      os_path_exists (snd (onerror OsUnlink path exc_info fs)) path = true).
Proof.
  intros _ Hl Hg Hp Hw.
  assert (Hne : chain <> []) by (intros ->; discriminate Hp).
  assert (Hrun : onerror OsUnlink path exc_info fs
                 = (if owned a then
                      (Ok tt,
                       if removable parent a then set_at fs chain None
                       else set_at fs chain (Some (File (write_only a) data)))
                    else (Raise PermissionError, fs))).
  { unfold onerror, os_access_W_OK, stat. rewrite Hl, Hg.
    cbn [node_attrs]. rewrite Hw. cbn [negb].
    unfold bind at 1. unfold os_chmod_S_IWUSR. rewrite Hl, Hg.
    cbn [node_attrs]. destruct (owned a); [|reflexivity].
    unfold try_catch, call_func, os_unlink. cbn [set_write_only].
    rewrite (locate_replaced fs chain a _ data data path Hg), Hl.
    rewrite (get_at_replaced chain fs _ _ Hg).
    rewrite (parent_attrs_replaced fs chain a _ data data Hg), Hp.
    change (removable parent (write_only a)) with (removable parent a).
    destruct (removable parent a); [|reflexivity].
    rewrite (set_at_replaced_removed chain fs (File a data));
      [reflexivity | exact Hne | exact Hg]. }
  split; [exact Hrun|].
  intros Hfail. rewrite Hrun.
  assert (Hr : removable parent a = false).
  { unfold os_unlink in Hfail. rewrite Hl, Hg, Hp in Hfail.
    destruct (removable parent a); [|reflexivity].
    exfalso. apply Hfail. reflexivity. }
  rewrite Hr. unfold os_path_exists, stat.
  destruct (owned a); cbn [snd].
  - rewrite (locate_replaced fs chain a _ data data path Hg), Hl.
    rewrite (get_at_replaced chain fs _ _ Hg). reflexivity.
  - rewrite Hl, Hg. reflexivity.
Qed.

Lemma onerror_read_only_file_witness :
  onerror OsUnlink (py "/tmp/llmrepo_repo_1700000000/.git/config.lock")
    PermissionError (guarded_clone_left read_only)
  = (Ok tt, guarded_clone_left_write_only)
  /\ os_path_exists guarded_clone_left_write_only
       (py "/tmp/llmrepo_repo_1700000000/.git/config.lock") = true.
Proof.
  destruct (onerror_read_only_file
              (py "/tmp/llmrepo_repo_1700000000/.git/config.lock")
              PermissionError (guarded_clone_left read_only)
              [py "tmp"; py "llmrepo_repo_1700000000"; py ".git";
               py "config.lock"] read_only read_only [] eq_refl eq_refl
              eq_refl eq_refl eq_refl) as [Hrun Hstays].
  split; [exact Hrun|].
  rewrite Hrun in Hstays. apply Hstays. discriminate.
Defined.

(** ** clone_repository: outcomes *)

Section CloneOutcomes.

Variable clone_from : pystr -> pystr -> pystr -> M unit.
Variables (TEMP_DIR : pystr) (now : N).

Lemma prepare_destination_outcome (repo_dir : pystr) (fs : node) :
  exists fs1,
    prepare_destination repo_dir fs = (Ok tt, fs1)
    \/ prepare_destination repo_dir fs
       = (Raise (HTTPException 500
                   (py "Failed to clean up existing directory: " ++ repo_dir)),
          fs1).
Proof.
  unfold prepare_destination.
  destruct (os_path_exists fs repo_dir); [|exists fs; left; reflexivity].
  unfold bind.
  destruct (force_delete_directory_returns repo_dir default_max_retries
              default_delay fs) as [ok [fs1 [E _]]].
  rewrite E. exists fs1. destruct ok; [left | right]; reflexivity.
Qed.

Lemma guarded_clone_outcome (url repo_dir branch : pystr) (fs1 : node) :
  exists fs3,
    guarded_clone clone_from url repo_dir branch fs1 = (Ok repo_dir, fs3)
    \/ exists status detail,
         guarded_clone clone_from url repo_dir branch fs1
         = (Raise (HTTPException status detail), fs3)
         /\ (status = 400 \/ status = 500).
Proof.
  unfold guarded_clone, try_catch, bind.
  destruct (clone_from url repo_dir branch fs1) as [[[]|e] fs2].
  - exists fs2. left. reflexivity.
  - destruct (force_delete_directory_returns repo_dir default_max_retries
                default_delay fs2) as [ok [fs3 [E _]]].
    exists fs3. right.
    destruct (is_GitCommandError e); unfold bind; rewrite E;
      eexists _, _; (split; [reflexivity|]); auto.
Qed.

(** X2: whatever the clone does, [clone_repository] either returns the
    destination computed from the URL and the clock, or raises an
    [HTTPException] of status 400 or 500; no other exception leaves it. *)
Theorem clone_repository_outcomes (repo_url branch : pystr)
    (access_token : option pystr) (fs : node) :
  match clone_repository clone_from TEMP_DIR now repo_url branch
          access_token fs with
  | (Ok repo_dir, _) =>
      exists repo_name,
        search_repo_name repo_url = Some repo_name
        /\ repo_dir = repo_dir_of TEMP_DIR repo_name now
  | (Raise (HTTPException status _), _) => status = 400 \/ status = 500
  | (Raise _, _) => False
  end.
Proof.
  unfold clone_repository.
  destruct (search_repo_name repo_url) as [repo_name|]; [|left; reflexivity].
  unfold bind.
  destruct (prepare_destination_outcome (repo_dir_of TEMP_DIR repo_name now) fs)
    as [fs1 [E | E]]; rewrite E; [|right; reflexivity].
  destruct (guarded_clone_outcome (auth_url repo_url access_token)
              (repo_dir_of TEMP_DIR repo_name now) branch fs1)
    as [fs3 [E' | [status [detail [E' Hs]]]]]; rewrite E'.
  - exists repo_name. auto.
  - exact Hs.
Qed.

(** X3: every failure of the clone itself is followed by the removal of the
    destination: the tree left is the one [force_delete_directory] leaves,
    the status is 400 for a [GitCommandError] and 500 for anything else,
    and the destination is gone exactly when the removal returned [True]. *)
Theorem clone_failure_cleans_up (repo_url branch repo_name : pystr)
    (access_token : option pystr) (e : exn) (fs fs1 fs2 : node) :
  search_repo_name repo_url = Some repo_name ->
  prepare_destination (repo_dir_of TEMP_DIR repo_name now) fs = (Ok tt, fs1) ->
  clone_from (auth_url repo_url access_token)
             (repo_dir_of TEMP_DIR repo_name now) branch fs1
  = (Raise e, fs2) ->
  exists ok fs3,
    force_delete_directory (repo_dir_of TEMP_DIR repo_name now)
      default_max_retries default_delay fs2 = (Ok ok, fs3)
    /\ clone_repository clone_from TEMP_DIR now repo_url branch access_token fs
       = (Raise
            (if is_GitCommandError e
             then HTTPException 400 (clone_error_detail e branch)
             else HTTPException 500
                    (py "An unexpected error occurred during repository cloning: "
                     ++ exn_str e)), fs3)
    /\ (ok = true <->
        os_path_exists fs3 (repo_dir_of TEMP_DIR repo_name now) = false).
Proof.
  intros Hn Hp Hc.
  destruct (force_delete_directory_returns (repo_dir_of TEMP_DIR repo_name now)
              default_max_retries default_delay fs2) as [ok [fs3 [E Hiff]]].
  exists ok, fs3. split; [exact E|]. split; [|exact Hiff].
  unfold clone_repository. rewrite Hn. unfold bind. rewrite Hp.
  unfold guarded_clone, try_catch, bind. rewrite Hc.
  destruct (is_GitCommandError e); unfold bind; rewrite E; reflexivity.
Qed.

End CloneOutcomes.

Lemma clone_failure_cleans_up_witness :
  exists ok fs3,
    force_delete_directory (repo_dir_of (py "/tmp") (py "repo") 1700000000)
      default_max_retries default_delay (partial_clone plain) = (Ok ok, fs3)
    /\ clone_repository clone_interrupted (py "/tmp") 1700000000 sample_url
         (py "main") None fs_tmp
       = (Raise (HTTPException 500
                   (py "An unexpected error occurred during repository cloning: "
                    ++ py "connection reset")), fs3)
    /\ (ok = true <->
        os_path_exists fs3 (repo_dir_of (py "/tmp") (py "repo") 1700000000)
        = false).
Proof.
  apply (clone_failure_cleans_up clone_interrupted (py "/tmp") 1700000000
           sample_url (py "main") (py "repo") None
           (OtherException (py "connection reset")) fs_tmp fs_tmp
           (partial_clone plain));
    reflexivity.
Defined.

(** ** The repository name *)

Lemma startswith_split (pre s : pystr) :
  startswith pre s = true -> s = pre ++ skipn (List.length pre) s.
Proof.
  revert s. induction pre as [|p pre IH]; intros s H; [reflexivity|].
  destruct s as [|c s]; [discriminate|]. simpl in H.
  apply andb_true_iff in H. destruct H as [Hc Hs].
  apply N.eqb_eq in Hc. subst c. simpl. f_equal. apply IH. exact Hs.
Qed.

Lemma at_end_cases (s : pystr) : at_end s = true -> s = [] \/ s = [10].
Proof.
  destruct s as [|c [|d s]]; simpl; auto; [|discriminate].
  intros H. apply N.eqb_eq in H. subst. auto.
Qed.

Lemma suffix_matches_cases (s : pystr) :
  suffix_matches s = true -> name_suffix s.
Proof.
  unfold suffix_matches, name_suffix. rewrite orb_true_iff, andb_true_iff.
  intros [[Hs He] | He].
  - apply startswith_split in Hs. change (List.length (py ".git")) with 4%nat in Hs.
    apply at_end_cases in He. destruct He as [He | He]; rewrite He in Hs.
    + right; right; left. rewrite Hs. reflexivity.
    + right; right; right. exact Hs.
  - apply at_end_cases in He. tauto.
Qed.

Lemma lazy_name_sound (s taken g : pystr) :
  lazy_name taken s = Some g ->
  exists rest suf,
    g = taken ++ rest /\ rest <> [] /\ ~ In slash rest
    /\ s = rest ++ suf /\ name_suffix suf.
Proof.
  revert taken. induction s as [|c s IH]; intros taken H; [discriminate|].
  simpl in H. destruct (N.eqb_spec c slash) as [|Hc]; [discriminate|].
  destruct (suffix_matches s) eqn:Hm.
  - injection H as <-. exists [c], s. repeat split; auto.
    + discriminate.
    + intros [Hin | []]. congruence.
    + apply suffix_matches_cases. exact Hm.
  - destruct (IH _ H) as [rest [suf [Hg [Hr [Hns [Hs Hsuf]]]]]].
    exists (c :: rest), suf. rewrite Hg, <- app_assoc. repeat split; auto.
    + discriminate.
    + intros [Hin | Hin]; [congruence | auto].
    + simpl. rewrite Hs. reflexivity.
Qed.

(** The name holds no slash. *)
Lemma search_repo_name_segment (repo_url repo_name : pystr) :
  search_repo_name repo_url = Some repo_name -> ~ In slash repo_name.
Proof.
  induction repo_url as [|c s IH]; intros H; [discriminate|].
  simpl in H. destruct (c =? slash); [|exact (IH H)].
  destruct (lazy_name [] s) as [g|] eqn:Hl; [|exact (IH H)].
  injection H as <-.
  destruct (lazy_name_sound _ _ _ Hl) as [rest [suf [Hg [_ [Hns _]]]]].
  simpl in Hg. subst g. exact Hns.
Qed.

(** Every character of the name is one of the URL. *)
Lemma search_repo_name_within (repo_url repo_name : pystr) (c : N) :
  search_repo_name repo_url = Some repo_name ->
  In c repo_name -> In c repo_url.
Proof.
  induction repo_url as [|x s IH]; intros H Hc; [discriminate|].
  simpl in H. right.
  destruct (x =? slash); [|exact (IH H Hc)].
  destruct (lazy_name [] s) as [g|] eqn:Hl; [|exact (IH H Hc)].
  injection H as <-.
  destruct (lazy_name_sound _ _ _ Hl) as [rest [suf [Hg [_ [_ [Hs _]]]]]].
  simpl in Hg. subst g. rewrite Hs. apply in_or_app. left. exact Hc.
Qed.

(** X4: the name [clone_repository] takes from a URL is not empty, holds no
    slash, and is the last segment of the URL, up to a final [.git] and a
    final newline. *)
Theorem search_repo_name_sound (repo_url repo_name : pystr) :
  search_repo_name repo_url = Some repo_name ->
  repo_name <> [] /\ ~ In slash repo_name
  /\ exists pre suf,
       repo_url = pre ++ [slash] ++ repo_name ++ suf /\ name_suffix suf.
Proof.
  induction repo_url as [|c s IH]; intros H; [discriminate|].
  simpl in H. destruct (N.eqb_spec c slash) as [-> | Hc].
  - destruct (lazy_name [] s) as [g|] eqn:Hl.
    + injection H as <-.
      destruct (lazy_name_sound _ _ _ Hl) as [rest [suf [Hg [Hr [Hns [Hs Hsuf]]]]]].
      simpl in Hg. subst g. repeat split; auto.
      exists [], suf. simpl. rewrite Hs. auto.
    + destruct (IH H) as [Hne [Hns [pre [suf [Hs Hsuf]]]]].
      repeat split; auto. exists (slash :: pre), suf. simpl. rewrite Hs. auto.
  - destruct (IH H) as [Hne [Hns [pre [suf [Hs Hsuf]]]]].
    repeat split; auto. exists (c :: pre), suf. simpl. rewrite Hs. auto.
Qed.

Lemma search_repo_name_sound_witness :
  py "repo" <> [] /\ ~ In slash (py "repo")
  /\ exists pre suf,
       sample_url = pre ++ [slash] ++ py "repo" ++ suf /\ name_suffix suf.
Proof.
  apply (search_repo_name_sound sample_url (py "repo")). reflexivity.
Defined.

Lemma suffix_matches_slash (p : pystr) : suffix_matches (p ++ [slash]) = false.
Proof.
  destruct (suffix_matches (p ++ [slash])) eqn:H; [|reflexivity].
  apply suffix_matches_cases in H.
  assert (Hl : forall q : pystr, p ++ [slash] = q -> last q 0 = slash).
  { intros q <-. apply last_last. }
  destruct H as [H | [H | [H | H]]]; apply Hl in H; vm_compute in H;
    discriminate.
Qed.

Lemma lazy_name_slash (p taken : pystr) :
  lazy_name taken (p ++ [slash]) = None.
Proof.
  revert taken. induction p as [|c p IH]; intros taken; [reflexivity|].
  cbn [lazy_name app]. destruct (c =? slash); [reflexivity|].
  rewrite suffix_matches_slash. apply IH.
Qed.

Lemma search_repo_name_slash (p : pystr) :
  search_repo_name (p ++ [slash]) = None.
Proof.
  induction p as [|c p IH]; [reflexivity|]. cbn [search_repo_name app].
  destruct (c =? slash); [|exact IH].
  rewrite lazy_name_slash. exact IH.
Qed.

Lemma search_repo_name_no_slash (s : pystr) :
  ~ In slash s -> search_repo_name s = None.
Proof.
  induction s as [|c s IH]; [reflexivity|]. intros H.
  cbn [search_repo_name]. destruct (N.eqb_spec c slash) as [-> | _]; [exfalso; apply H; left; reflexivity|].
  apply IH. intros Hin. apply H. right. exact Hin.
Qed.

(** X5: a URL without a slash, or one that ends with a slash, has no
    repository name: [clone_repository] raises the error of status 400
    at once, and neither the file tree nor the clone is touched. *)
Theorem clone_repository_rejects_url
    (clone_from : pystr -> pystr -> pystr -> M unit) (TEMP_DIR : pystr)
    (now : N) (repo_url branch : pystr) (access_token : option pystr)
    (fs : node) :
  ~ In slash repo_url \/ (exists p, repo_url = p ++ [slash]) ->
  clone_repository clone_from TEMP_DIR now repo_url branch access_token fs
  = (Raise (HTTPException 400
              (py "Could not determine repository name from URL.")), fs).
Proof.
  intros H. unfold clone_repository.
  assert (Hn : search_repo_name repo_url = None).
  { destruct H as [H | [p ->]];
      [apply search_repo_name_no_slash; exact H | apply search_repo_name_slash]. }
  rewrite Hn. reflexivity.
Qed.

Lemma clone_repository_rejects_url_witness :
  clone_repository clone_checkout (py "/tmp") 1700000000
    (py "https://github.com/u/repo/") (py "main") None fs_tmp
  = (Raise (HTTPException 400
              (py "Could not determine repository name from URL.")), fs_tmp).
Proof.
  apply (clone_repository_rejects_url clone_checkout (py "/tmp") 1700000000
           (py "https://github.com/u/repo/") (py "main") None fs_tmp).
  right. exists (py "https://github.com/u/repo"). reflexivity.
Defined.

(** *** The destination *)

Lemma string_of_uint_digits (d : Decimal.uint) (c : N) :
  In c (py (NilEmpty.string_of_uint d)) -> 48 <= c <= 57.
Proof.
  induction d as [|d IHd|d IHd|d IHd|d IHd|d IHd|d IHd|d IHd|d IHd|d IHd|d IHd];
    simpl; [intros [] | ..];
    (intros [<- | Hin]; [vm_compute; split; discriminate | exact (IHd Hin)]).
Qed.

(** X6: the destination is [TEMP_DIR] joined with one name, which begins
    with [llmrepo_] and holds no slash, and holds a backslash only when the
    URL holds one. Where the slash is the only separator of path
    components the destination is therefore an entry of [TEMP_DIR] itself,
    whatever the URL; a backslash of the URL is carried into the name. *)
Theorem destination_inside_temp_dir (TEMP_DIR repo_url repo_name : pystr)
    (now : N) :
  search_repo_name repo_url = Some repo_name ->
  exists leaf,
    startswith (py "llmrepo_") leaf = true
    /\ ~ In slash leaf
    /\ (In backslash leaf -> In backslash repo_url)
    /\ (repo_dir_of TEMP_DIR repo_name now = TEMP_DIR ++ leaf
        \/ repo_dir_of TEMP_DIR repo_name now = TEMP_DIR ++ [slash] ++ leaf).
Proof.
  intros H. pose proof (search_repo_name_segment _ _ H) as Hns.
  exists (py "llmrepo_" ++ repo_name ++ py "_" ++ str_of_N now).
  assert (Hother : forall c,
             c = slash \/ c = backslash ->
             In c (py "llmrepo_" ++ repo_name ++ py "_" ++ str_of_N now) ->
             In c repo_name).
  { intros c Hc. rewrite !in_app_iff. intros [Hin | [Hin | [Hin | Hin]]].
    - exfalso. revert Hin. destruct Hc as [-> | ->]; vm_compute;
        intuition discriminate.
    - exact Hin.
    - exfalso. revert Hin. destruct Hc as [-> | ->]; vm_compute;
        intuition discriminate.
    - exfalso. apply string_of_uint_digits in Hin.
      destruct Hc as [-> | ->]; vm_compute in Hin; destruct Hin as [H1 H2];
        [apply H1 | apply H2]; reflexivity. }
  split; [reflexivity|]. split; [|split].
  - intros Hin. exact (Hns (Hother slash (or_introl eq_refl) Hin)).
  - intros Hin.
    exact (search_repo_name_within _ _ _ H
             (Hother backslash (or_intror eq_refl) Hin)).
  - unfold repo_dir_of, os_path_join.
    change (startswith [slash]
              (py "llmrepo_" ++ repo_name ++ py "_" ++ str_of_N now))
      with false.
    cbv iota. destruct (str_eqb TEMP_DIR [] || endswith [slash] TEMP_DIR); auto.
Qed.

Lemma destination_inside_temp_dir_witness :
  exists leaf,
    startswith (py "llmrepo_") leaf = true
    /\ ~ In slash leaf
    /\ (In backslash leaf -> In backslash sample_url)
    /\ (repo_dir_of (py "/tmp") (py "repo") 1700000000 = py "/tmp" ++ leaf
        \/ repo_dir_of (py "/tmp") (py "repo") 1700000000
           = py "/tmp" ++ [slash] ++ leaf).
Proof.
  apply (destination_inside_temp_dir (py "/tmp") sample_url (py "repo")
           1700000000).
  reflexivity.
Defined.

(** ** get_repo_structure: what the index holds *)

Lemma dict_set_describes (k : pystr) (d : dict) :
  Forall describes d ->
  Forall describes (dict_set k (mkDescriptor (py "file") k) d).
Proof.
  induction d as [|[k' v'] d IH]; simpl; intros H.
  - constructor; [split; reflexivity | constructor].
  - inversion H as [|? ? Hkv Hd]; subst.
    destruct (str_eqb k k') eqn:He.
    + apply str_eqb_eq in He. subst k'.
      constructor; [split; reflexivity | exact Hd].
    + constructor; [exact Hkv | apply IH; exact Hd].
Qed.

(** X7: every entry of the index is [{"type": "file", "path": key}] for its own
    key. *)
Theorem index_entries_describe_keys (fs : node) (repo_dir : pystr) :
  Forall describes (get_repo_structure fs repo_dir).
Proof.
  unfold get_repo_structure.
  destruct (negb (os_path_isdir fs repo_dir)); [constructor|].
  destruct (stat fs repo_dir) as [top|]; [|constructor].
  apply (os_walk_preserves walk_body (Forall describes)); [|constructor].
  intros root dirs files s. rewrite walk_body_unfold.
  revert s. induction files as [|file files IH]; intros s Hs; [exact Hs|].
  simpl. apply IH. apply dict_set_describes. exact Hs.
Qed.

Lemma os_walk_keeps_keys (k : pystr) (n : node) (root : list pystr) (s : dict) :
  In k (keys s) -> In k (keys (os_walk walk_body root n s)).
Proof.
  apply (os_walk_preserves walk_body (fun s' => In k (keys s'))).
  intros root' dirs files s' H. apply walk_body_keys. left. exact H.
Qed.

Lemma descend_keeps_keys (k : pystr) (root dirs' : list pystr)
    (l : list (pystr * node)) (s : dict) :
  In k (keys s) ->
  In k (keys (descend (os_walk walk_body) root dirs' l s)).
Proof.
  revert s. induction l as [|[nm child] l IH]; intros s H; [exact H|].
  simpl. destruct (is_dir child && mem nm dirs'); apply IH; [|exact H].
  apply os_walk_keeps_keys. exact H.
Qed.

Lemma file_names_intro (file : pystr) (a : attrs) (data : list N)
    (es : list (pystr * node)) :
  In (file, File a data) es -> In file (file_names es).
Proof.
  intros H. unfold file_names. apply in_map_iff.
  exists (file, File a data). split; [reflexivity|].
  apply filter_In. split; [exact H | reflexivity].
Qed.

Lemma dir_names_intro (nm : pystr) (child : node) (es : list (pystr * node)) :
  In (nm, child) es -> is_dir child = true -> In nm (dir_names es).
Proof.
  intros H Hd. unfold dir_names. apply in_map_iff.
  exists (nm, child). split; [reflexivity|].
  apply filter_In. split; [exact H | exact Hd].
Qed.

Lemma list_remove_keeps (x y : pystr) (l : list pystr) :
  y <> x -> In y l -> In y (list_remove x l).
Proof.
  intros Hne. induction l as [|z l IH]; simpl; [auto|].
  destruct (str_eqb x z) eqn:He.
  - apply str_eqb_eq in He. subst z. intros [H | H]; [congruence | exact H].
  - intros [H | H]; [left; exact H | right; exact (IH H)].
Qed.

Lemma os_walk_reaches (n : node) (chain : list pystr) (file : pystr) :
  reachable n chain file ->
  forall root s,
    In (index_key (root ++ chain) file) (keys (os_walk walk_body root n s)).
Proof.
  intros H. induction H as [a a' es file data Hr Hin
                           | a es nm child chain file Hr Hin Hd Hne _ IH];
    intros root s; cbn [os_walk]; rewrite Hr.
  - pose proof (proj2 (walk_body_keys root (dir_names es) (file_names es) s)
                  (index_key root file)) as Hk.
    destruct (walk_body root (dir_names es) (file_names es) s) as [dirs' s1].
    simpl in Hk. rewrite app_nil_r. apply descend_keeps_keys. apply Hk.
    right. exists file. split; [|reflexivity].
    apply (file_names_intro file a' data). exact Hin.
  - pose proof (walk_body_dirs root (dir_names es) (file_names es) s) as Hdirs.
    destruct (walk_body root (dir_names es) (file_names es) s) as [dirs' s1].
    simpl in Hdirs.
    assert (Hm : mem nm dirs' = true).
    { apply mem_In. rewrite Hdirs.
      pose proof (dir_names_intro nm child es Hin Hd) as Hnm.
      destruct (mem (py ".git") (dir_names es));
        [apply list_remove_keeps; assumption | exact Hnm]. }
    clear Hdirs. revert s1. induction es as [|[nm' child'] es IHes];
      intros s1; [contradiction|].
    simpl. destruct Hin as [Heq | Hin].
    + injection Heq as -> ->. rewrite Hd, Hm. simpl.
      apply descend_keeps_keys. change (nm :: chain) with ([nm] ++ chain).
      rewrite app_assoc. apply IH.
    + destruct (is_dir child' && mem nm' dirs'); apply IHes; exact Hin.
Qed.

(** X8: the index misses no file the walk can reach: a regular file below the
    root, through directories that can be listed and none of which is
    named [.git], has its key in the index. *)
Theorem index_holds_reachable_files (fs : node) (repo_dir : pystr)
    (top : node) (chain : list pystr) (file : pystr) :
  stat fs repo_dir = Some top -> reachable top chain file ->
  In (index_key chain file) (keys (get_repo_structure fs repo_dir)).
Proof.
  intros Hs Hr. unfold get_repo_structure, os_path_isdir. rewrite Hs.
  assert (Hd : is_dir top = true) by (destruct Hr; reflexivity).
  destruct top as [|a es]; [discriminate|]. cbn [negb].
  apply (os_walk_reaches _ _ _ Hr []).
Qed.

Lemma index_holds_reachable_files_witness :
  In (index_key [py "src"] (py "app.py"))
     (keys (get_repo_structure fs_checkout (py "/repo"))).
Proof.
  apply (index_holds_reachable_files fs_checkout (py "/repo") checkout_top
           [py "src"] (py "app.py") eq_refl).
  unfold checkout_top.
  eapply reachable_below;
    [reflexivity | right; right; left; reflexivity | reflexivity
     | discriminate |].
  eapply reachable_here; [reflexivity | left; reflexivity].
Defined.

(** ** The bundle: order and origin of its pieces *)

(** X9: the pieces of the bundle come in the order of the steps: those of
    step 1, then at most one README section, then at most ten sections of
    step 3, then the listing when the index has fewer than 200 paths. *)
Theorem bundle_order (fs : node) (repo_dir query : pystr)
    (context : context_arg) :
  exists b explicit readme additional listing,
    process_code_state fs repo_dir query context = Ok b
    /\ sections b = explicit ++ readme ++ additional ++ listing
    /\ Forall (produced_by Explicit) explicit
    /\ Forall (produced_by Readme) readme /\ (List.length readme <= 1)%nat
    /\ Forall (produced_by Additional) additional
    /\ (List.length additional <= 10)%nat
    /\ listing
       = if (List.length (get_repo_structure fs repo_dir) <? 200)%nat
         then [Listing (firstn 75 (keys (get_repo_structure fs repo_dir)))]
         else [].
Proof.
  destruct (process_code_state_spec fs repo_dir query context)
    as [b1 [b [new2 [new3 [E1 [E [Hs [Hc [Hp2 [Hl2 [Hp3 Hl3]]]]]]]]]]].
  destruct (include_explicit_files_spec fs repo_dir context)
    as [b1' [E1' [_ [Hp1 _]]]].
  rewrite E1 in E1'. injection E1' as <-.
  exists b, (sections b1), new2, new3. eexists.
  repeat split; eauto.
Qed.

(** X10: for an index of fewer than 200 paths the bundle ends with the listing
    of the first 75 keys, in index order, and holds no other listing. *)
Theorem small_index_listing (fs : node) (repo_dir query : pystr)
    (context : context_arg) :
  (List.length (get_repo_structure fs repo_dir) < 200)%nat ->
  exists b pieces,
    process_code_state fs repo_dir query context = Ok b
    /\ sections b
       = pieces ++ [Listing (firstn 75 (keys (get_repo_structure fs repo_dir)))]
    /\ existsb is_listing pieces = false
    /\ (List.length (firstn 75 (keys (get_repo_structure fs repo_dir)))
        = Nat.min 75 (List.length (get_repo_structure fs repo_dir)))%nat.
Proof.
  intros Hlen.
  destruct (process_code_state_spec fs repo_dir query context)
    as [b1 [b [new2 [new3 [E1 [E [Hs [Hc [Hp2 [Hl2 [Hp3 Hl3]]]]]]]]]]].
  destruct (include_explicit_files_spec fs repo_dir context)
    as [b1' [E1' [_ [Hp1 _]]]].
  rewrite E1 in E1'. injection E1' as <-.
  apply Nat.ltb_lt in Hlen. rewrite Hlen in Hs.
  exists b, (sections b1 ++ new2 ++ new3).
  split; [exact E|]. split; [rewrite Hs, <- !app_assoc; reflexivity|].
  split.
  - rewrite !existsb_app.
    rewrite (no_listing_produced _ _ Hp1), (no_listing_produced _ _ Hp2),
      (no_listing_produced _ _ Hp3).
    reflexivity.
  - rewrite length_firstn. unfold keys. rewrite length_map. reflexivity.
Qed.

Lemma small_index_listing_witness :
  exists b pieces,
    process_code_state fs_main_py (py "/repo") (py "what does it do") None
    = Ok b
    /\ sections b
       = pieces
         ++ [Listing (firstn 75 (keys (get_repo_structure fs_main_py
                                         (py "/repo"))))]
    /\ existsb is_listing pieces = false
    /\ (List.length (firstn 75 (keys (get_repo_structure fs_main_py
                                        (py "/repo"))))
        = Nat.min 75 (List.length (get_repo_structure fs_main_py (py "/repo"))))%nat.
Proof.
  apply (small_index_listing fs_main_py (py "/repo") (py "what does it do")
           None).
  apply Nat.ltb_lt. vm_compute. reflexivity.
Defined.

Lemma additional_loop_from (fs : node) (repo_dir : pystr) (P : section -> Prop)
    (files : list pystr) :
  (forall q e, In q files -> P (FileSection Additional q e)) ->
  forall b b',
    additional_loop fs repo_dir files b = Ok b' ->
    Forall P (sections b) -> Forall P (sections b').
Proof.
  induction files as [|file_path rest IH]; intros HP b b' E Hb; simpl in E.
  - injection E as <-. exact Hb.
  - assert (Hrest : forall q e, In q rest -> P (FileSection Additional q e))
      by (intros q e Hq; apply HP; right; exact Hq).
    destruct (get_file_content fs repo_dir file_path) as [content|];
      [|discriminate].
    destruct (truthy content); [|eauto].
    apply (IH Hrest _ _ E). simpl. apply Forall_app. split; [exact Hb|].
    constructor; [|constructor]. apply HP. left. reflexivity.
Qed.

Lemma firstn_subset {A : Type} (n : nat) (l : list A) (x : A) :
  In x (firstn n l) -> In x l.
Proof.
  intros H. rewrite <- (firstn_skipn n l). apply in_or_app. left. exact H.
Qed.

Lemma files_to_add_eligible (structure : dict) (processed : list pystr)
    (q : pystr) :
  In q (files_to_add structure processed) -> eligible structure q.
Proof.
  unfold files_to_add, potential_files. intros H.
  apply firstn_subset in H. apply filter_In in H. destruct H as [H _].
  apply in_app_or in H. destruct H as [H | H]; apply filter_In in H;
    destruct H as [Hin Hc]; apply andb_true_iff in Hc; destruct Hc as [H1 H2].
  - split; [apply mem_In; exact H1 | left; exact Hin].
  - split; [exact Hin | right; exact H2].
Qed.

Lemma produced_by_from_index (structure : dict) (o : origin)
    (l : list section) :
  o <> Additional -> Forall (produced_by o) l -> Forall (from_index structure) l.
Proof.
  intros Ho H. eapply Forall_impl; [|exact H].
  intros [o' p e| |]; simpl; auto. intros [-> _].
  destruct o; simpl; auto. congruence.
Qed.

(** X11: step 3 takes its files from the index: every file section it appends
    is for a key of the index that is one of the priority files or ends,
    in lower case, with one of the source extensions. *)
Theorem additional_sections_from_index (fs : node) (repo_dir query : pystr)
    (context : context_arg) :
  exists b,
    process_code_state fs repo_dir query context = Ok b
    /\ Forall (from_index (get_repo_structure fs repo_dir)) (sections b).
Proof.
  destruct (process_code_state_spec fs repo_dir query context)
    as [b1 [b [new2 [new3 [E1 [E _]]]]]].
  exists b. split; [exact E|].
  set (structure := get_repo_structure fs repo_dir).
  unfold process_code_state in E. fold initial_builder in E.
  rewrite E1 in E. simpl in E.
  destruct (include_explicit_files_spec fs repo_dir context)
    as [b1' [E1' [_ [Hp1 _]]]].
  rewrite E1 in E1'. injection E1' as <-.
  destruct (include_readme fs repo_dir b1) as [b2|] eqn:E2; [|discriminate].
  assert (H2 : Forall (from_index structure) (sections b2)).
  { unfold include_readme in E2.
    destruct (negb (mem (py "README.md") (files_processed b1))
              && negb (mem (py "readme.md") (files_processed b1))).
    - destruct (readme_loop_spec fs repo_dir readme_names b1)
        as [b2' [new2' [E2' [Hs2 [_ [Hp2 _]]]]]].
      rewrite E2 in E2'. injection E2' as <-. rewrite Hs2.
      apply Forall_app. split;
        eapply produced_by_from_index; eauto; discriminate.
    - injection E2 as <-.
      eapply produced_by_from_index; eauto; discriminate. }
  simpl in E. fold structure in E.
  destruct (include_source_files fs repo_dir structure b2) as [b3|] eqn:E3;
    [|discriminate].
  assert (H3 : Forall (from_index structure) (sections b3)).
  { apply (additional_loop_from fs repo_dir (from_index structure)
             (files_to_add structure (files_processed b2))
             (fun q e Hq => files_to_add_eligible _ _ _ Hq) b2 b3 E3 H2). }
  simpl in E. injection E as <-. unfold add_structure_list.
  destruct (_ <? _)%nat; [|exact H3].
  simpl. apply Forall_app. split; [exact H3|].
  constructor; [exact I | constructor].
Qed.

(** *** The README *)

Lemma readme_loop_first (fs : node) (repo_dir : pystr) (names : list pystr)
    (b : builder) :
  files_processed b = [] ->
  readme_loop fs repo_dir names b
  = Ok match first_readable fs repo_dir names with
       | Some (name, content) =>
           add_processed name
             (append (FileSection Readme name (firstn 3000 content)) b)
       | None => b
       end.
Proof.
  intros Hb. induction names as [|name rest IH]; [reflexivity|].
  simpl. rewrite Hb. simpl.
  destruct (get_file_content_total fs repo_dir name) as [content Hg].
  rewrite Hg. destruct content as [content|]; [reflexivity | exact IH].
Qed.

Lemma after_readme (fs : node) (repo_dir query : pystr)
    (context : context_arg) (b2 : builder) :
  include_explicit_files fs repo_dir context initial_builder
  = Ok initial_builder ->
  include_readme fs repo_dir initial_builder = Ok b2 ->
  exists b rest,
    process_code_state fs repo_dir query context = Ok b
    /\ sections b = sections b2 ++ rest
    /\ existsb is_readme_section rest = false.
Proof.
  intros E1 E2. set (structure := get_repo_structure fs repo_dir).
  destruct (additional_loop_spec fs repo_dir
              (files_to_add structure (files_processed b2)) b2)
    as [b3 [new3 [E3 [Hs3 [_ [Hp3 _]]]]]].
  exists (add_structure_list structure b3),
    (new3 ++ if (List.length structure <? 200)%nat
             then [Listing (firstn 75 (keys structure))] else []).
  split.
  { unfold process_code_state. fold initial_builder. rewrite E1. simpl.
    rewrite E2. simpl. fold structure. unfold include_source_files.
    rewrite E3. reflexivity. }
  split.
  - unfold add_structure_list.
    destruct (List.length structure <? 200)%nat; simpl; rewrite Hs3;
      rewrite ?app_nil_r, <- ?app_assoc; reflexivity.
  - rewrite existsb_app.
    assert (H3 : existsb is_readme_section new3 = false).
    { clear Hs3. induction Hp3 as [|sec l Hsec _ IHl]; [reflexivity|].
      simpl. rewrite IHl. destruct sec as [o p e| |]; simpl in *; auto.
      destruct Hsec as [-> _]. reflexivity. }
    rewrite H3. destruct (_ <? _)%nat; reflexivity.
Qed.

(** X12: with no explicit files the bundle opens with the README section of
    the first of [README.md], [readme.md], [README], [README.txt] that can
    be read, empty or not; when none can be read there is no README
    section. *)
Theorem readme_is_first_readable (fs : node) (repo_dir query : pystr)
    (context : context_arg) :
  explicit_files context = [] ->
  exists b rest,
    process_code_state fs repo_dir query context = Ok b
    /\ sections b
       = match first_readable fs repo_dir readme_names with
         | Some (name, content) =>
             FileSection Readme name (firstn 3000 content) :: rest
         | None => rest
         end
    /\ existsb is_readme_section rest = false.
Proof.
  intros Hctx.
  assert (E1 : include_explicit_files fs repo_dir context initial_builder
               = Ok initial_builder).
  { destruct context as [[[files|]|]|]; try reflexivity.
    simpl in Hctx. subst files. reflexivity. }
  pose proof (readme_loop_first fs repo_dir readme_names initial_builder
                eq_refl) as E2.
  change (readme_loop fs repo_dir readme_names initial_builder)
    with (include_readme fs repo_dir initial_builder) in E2.
  destruct (first_readable fs repo_dir readme_names) as [[name content]|];
    destruct (after_readme fs repo_dir query context _ E1 E2)
      as [b [rest [E [Hs Hr]]]];
    exists b, rest; repeat split; auto.
Qed.

Lemma readme_is_first_readable_witness :
  exists b rest,
    process_code_state fs_checkout (py "/repo") (py "what does it do") None
    = Ok b
    /\ sections b = FileSection Readme (py "README.md") (py "Demo") :: rest
    /\ existsb is_readme_section rest = false.
Proof.
  apply (readme_is_first_readable fs_checkout (py "/repo")
           (py "what does it do") None).
  reflexivity.
Defined.

(** *** Paths that leave the workspace *)

(** X13: an explicit path that begins with a slash is not looked up in the
    workspace: its content is the same whatever [repo_dir] is, and when it
    is not empty it goes into the bundle. *)
Theorem absolute_path_leaves_workspace (fs : node)
    (repo_dir other_dir query file_path text : pystr) :
  startswith [slash] file_path = true ->
  get_file_content fs other_dir file_path = Ok (Some text) -> text <> [] ->
  get_file_content fs repo_dir file_path = Ok (Some text)
  /\ exists b,
       process_code_state fs repo_dir query
         (Some (Some (FilesList [file_path]))) = Ok b
       /\ In (FileSection Explicit file_path (firstn 5000 text)) (sections b).
Proof.
  intros Hs Hg Hne.
  assert (Hg' : get_file_content fs repo_dir file_path = Ok (Some text)).
  { unfold get_file_content, os_path_join in *. rewrite Hs in *. exact Hg. }
  split; [exact Hg'|].
  destruct (process_code_state_spec fs repo_dir query
              (Some (Some (FilesList [file_path]))))
    as [b1 [b [new2 [new3 [E1 [E [Hsec _]]]]]]].
  exists b. split; [exact E|]. rewrite Hsec. apply in_or_app. left.
  simpl in E1. rewrite Hg' in E1.
  destruct text as [|c text]; [congruence|]. simpl in E1.
  injection E1 as <-. simpl. left. reflexivity.
Qed.

Lemma absolute_path_leaves_workspace_witness :
  get_file_content fs_checkout (py "/repo/src") (py "/repo/README.md")
  = Ok (Some (py "Demo"))
  /\ exists b,
       process_code_state fs_checkout (py "/repo/src") (py "what does it do")
         (Some (Some (FilesList [py "/repo/README.md"]))) = Ok b
       /\ In (FileSection Explicit (py "/repo/README.md") (py "Demo"))
             (sections b).
Proof.
  apply (absolute_path_leaves_workspace fs_checkout (py "/repo/src")
           (py "/") (py "what does it do") (py "/repo/README.md")
           (py "Demo")).
  - reflexivity.
  - reflexivity.
  - discriminate.
Defined.

(** ** generate_gemini_response *)

Lemma startswith_app (a b : pystr) : startswith a (a ++ b) = true.
Proof.
  induction a as [|c a IH]; [reflexivity|]. simpl.
  rewrite N.eqb_refl. exact IH.
Qed.

Lemma generate_gemini_response_outcome
    (generate_content : pystr -> result llm_response)
    (prompt error_detail : pystr) :
  (exists answer,
     generate_gemini_response generate_content prompt error_detail
     = Ok answer)
  \/ (exists e,
        generate_gemini_response generate_content prompt error_detail
        = Raise (HTTPException 503 (error_detail ++ py ": " ++ exn_str e))).
Proof.
  unfold generate_gemini_response, try_except, and_then.
  destruct (generate_content prompt) as [response|e]; [|right; eauto].
  destruct (parts response);
    [left; destruct (block_reason response); eauto|].
  destruct (text response); [left | right]; eauto.
Qed.

(** X14: whatever the model call does, [generate_gemini_response] returns a
    text or raises an [HTTPException] of status 503 whose detail begins
    with [error_detail]; a blocked or empty answer is returned as a text,
    not raised. *)
Theorem gemini_failures_are_503
    (generate_content : pystr -> result llm_response)
    (prompt error_detail : pystr) :
  match generate_gemini_response generate_content prompt error_detail with
  | Ok _ => True
  | Raise (HTTPException status detail) =>
      status = 503 /\ startswith (error_detail ++ py ": ") detail = true
  | Raise _ => False
  end
  /\ match generate_content prompt with
     | Ok response =>
         parts response = [] ->
         exists answer,
           generate_gemini_response generate_content prompt error_detail
           = Ok answer
     | Raise _ => True
     end.
Proof.
  split.
  - destruct (generate_gemini_response_outcome generate_content prompt
                error_detail) as [[answer ->] | [e ->]]; [exact I|].
    split; [reflexivity|]. rewrite app_assoc. apply startswith_app.
  - unfold generate_gemini_response, try_except, and_then.
    destruct (generate_content prompt) as [response|e]; [|exact I].
    intros ->. destruct (block_reason response); eexists; reflexivity.
Qed.

(** ** The endpoints *)

Lemma repo_dir_of_nonempty (T repo_name : pystr) (n : N) :
  repo_dir_of T repo_name n <> [].
Proof.
  unfold repo_dir_of, os_path_join.
  change (startswith [slash] (py "llmrepo_" ++ repo_name ++ py "_" ++ str_of_N n))
    with false. cbv iota.
  destruct (str_eqb T [] || endswith [slash] T); intros H;
    apply (f_equal (@List.length N)) in H; rewrite !length_app in H;
    simpl in H; lia.
Qed.

(** What [clone_repository] leaves for an endpoint: a destination that is
    not the empty string, or an [HTTPException]. *)
Lemma clone_repository_cases
    (clone_from : pystr -> pystr -> pystr -> M unit) (T : pystr) (n : N)
    (repo_url branch : pystr) (access_token : option pystr) (fs : node) :
  exists fs1,
    (exists repo_dir,
       clone_repository clone_from T n repo_url branch access_token fs
       = (Ok repo_dir, fs1) /\ repo_dir <> [])
    \/ (exists status detail,
          clone_repository clone_from T n repo_url branch access_token fs
          = (Raise (HTTPException status detail), fs1)
          /\ (status = 400 \/ status = 500)).
Proof.
  unfold clone_repository.
  destruct (search_repo_name repo_url) as [repo_name|];
    [|exists fs; right; eexists _, _; split; [reflexivity | auto]].
  unfold bind.
  destruct (prepare_destination_outcome (repo_dir_of T repo_name n) fs)
    as [fs1 [E | E]]; rewrite E;
    [|exists fs1; right; eexists _, _; split; [reflexivity | auto]].
  destruct (guarded_clone_outcome clone_from (auth_url repo_url access_token)
              (repo_dir_of T repo_name n) branch fs1)
    as [fs3 [E' | [status [detail [E' Hs]]]]]; rewrite E'; exists fs3.
  - left. eexists. split; [reflexivity | apply repo_dir_of_nonempty].
  - right. eauto.
Qed.

Lemma cleanup_runs (repo_dir : pystr) (fs1 : node) :
  repo_dir <> [] ->
  exists ok fs2,
    force_delete_directory repo_dir default_max_retries default_delay fs1
    = (Ok ok, fs2)
    /\ cleanup (Some repo_dir) fs1 = (Ok tt, fs2)
    /\ (ok = true <-> os_path_exists fs2 repo_dir = false).
Proof.
  intros Hne.
  destruct (force_delete_directory_returns repo_dir default_max_retries
              default_delay fs1) as [ok [fs2 [E Hiff]]].
  exists ok, fs2. split; [exact E|]. split; [|exact Hiff].
  destruct repo_dir as [|c dir]; [congruence|].
  unfold cleanup, bind. rewrite E. reflexivity.
Qed.

Section Endpoint.

Variable sv : services.
Variables (repo_url branch : pystr) (access_token : option pystr).

Let clone : M pystr :=
  clone_repository (clone_from sv) (TEMP_DIR sv) (now sv) repo_url branch
    access_token.

(** A failed clone is the outcome of the endpoint, and the body does not
    run. *)
Lemma endpoint_clone_fails {A : Type} (body : pystr -> M A) (e : exn)
    (fs fs1 : node) :
  clone fs = (Raise e, fs1) -> endpoint sv repo_url branch access_token body fs = (Raise e, fs1).
Proof.
  intros Hc. unfold endpoint. fold clone. rewrite Hc.
  destruct (clone_repository_cases (clone_from sv) (TEMP_DIR sv) (now sv)
              repo_url branch access_token fs)
    as [fs1' [[dir [E _]] | [status [detail [E _]]]]];
    fold clone in E; rewrite Hc in E; [discriminate|].
  injection E as -> ->. reflexivity.
Qed.

(** After a clone that succeeded, the outcome is that of the body, with
    every other exception turned into status 500, and the tree is the one
    the removal of the clone leaves. *)
Lemma endpoint_clone_succeeds {A : Type} (body : pystr -> M A)
    (repo_dir : pystr) (fs fs1 : node) :
  clone fs = (Ok repo_dir, fs1) ->
  exists ok fs2,
    force_delete_directory repo_dir default_max_retries default_delay
      (snd (body repo_dir fs1)) = (Ok ok, fs2)
    /\ endpoint sv repo_url branch access_token body fs
       = (match fst (body repo_dir fs1) with
          | Ok a => Ok a
          | Raise e => Raise (as_http_error e)
          end, fs2)
    /\ (ok = true <-> os_path_exists fs2 repo_dir = false).
Proof.
  intros Hc.
  assert (Hne : repo_dir <> []).
  { destruct (clone_repository_cases (clone_from sv) (TEMP_DIR sv) (now sv)
                repo_url branch access_token fs)
      as [fs1' [[dir [E Hd]] | [status [detail [E _]]]]];
      fold clone in E; rewrite Hc in E; [|discriminate].
    injection E as -> ->. exact Hd. }
  destruct (cleanup_runs repo_dir (snd (body repo_dir fs1)) Hne)
    as [ok [fs2 [Ed [Ec Hiff]]]].
  exists ok, fs2. split; [exact Ed|]. split; [|exact Hiff].
  unfold endpoint. fold clone. rewrite Hc.
  unfold and_finally, try_catch.
  destruct (body repo_dir fs1) as [[a|e] fs1']; simpl in *; rewrite Ec;
    reflexivity.
Qed.

Lemma endpoint_http_only {A : Type} (body : pystr -> M A) (fs : node) :
  match endpoint sv repo_url branch access_token body fs with
  | (Ok _, _) => True
  | (Raise (HTTPException _ _), _) => True
  | (Raise _, _) => False
  end.
Proof.
  destruct (clone_repository_cases (clone_from sv) (TEMP_DIR sv) (now sv)
              repo_url branch access_token fs)
    as [fs1 [[dir [E _]] | [status [detail [E _]]]]]; fold clone in E.
  - destruct (endpoint_clone_succeeds body dir fs fs1 E)
      as [ok [fs2 [_ [-> _]]]].
    destruct (fst (body dir fs1)) as [a|e]; [exact I|].
    destruct e; exact I.
  - rewrite (endpoint_clone_fails body _ _ _ E). exact I.
Qed.

End Endpoint.

(** *** Every endpoint *)

Section Endpoints.

Variable sv : services.

Lemma reading_keeps_tree {A B : Type} (f : node -> result A) (k : A -> M B)
    (fs : node) :
  (forall a fs', snd (k a fs') = fs') ->
  snd ((x <- reading f ;; k x) fs) = fs.
Proof.
  intros Hk. unfold bind, reading. destruct (f fs); [apply Hk | reflexivity].
Qed.

Lemma info_body_reads (repo_request : RepoRequest.t) (repo_dir : pystr)
    (fs : node) :
  snd (repository_info_body sv repo_request repo_dir fs) = fs.
Proof.
  apply reading_keeps_tree. intros structure fs'.
  apply reading_keeps_tree. reflexivity.
Qed.

Lemma query_body_reads (query_request : QueryRequest.t) (repo_dir : pystr)
    (fs : node) :
  snd (query_body sv query_request repo_dir fs) = fs.
Proof.
  apply reading_keeps_tree. intros context_str fs'.
  apply reading_keeps_tree. reflexivity.
Qed.

Lemma file_body_reads (file_request : FileRequest.t) (repo_dir : pystr)
    (fs : node) :
  snd (file_body sv file_request repo_dir fs) = fs.
Proof.
  apply reading_keeps_tree. intros [file_content|] fs'; [|reflexivity].
  apply reading_keeps_tree. reflexivity.
Qed.

Lemma dependencies_body_reads (repo_request : RepoRequest.t)
    (repo_dir : pystr) (fs : node) :
  snd (dependencies_body sv repo_request repo_dir fs) = fs.
Proof.
  apply reading_keeps_tree. intros f fs'.
  destruct (dependencies f); [reflexivity|].
  apply reading_keeps_tree. reflexivity.
Qed.

Lemma endpoint_removes_clone {A : Type} (repo_url branch : pystr)
    (access_token : option pystr) (body : pystr -> M A) (fs : node) :
  (forall repo_dir fs1, snd (body repo_dir fs1) = fs1) ->
  removes_clone (request_clone sv repo_url branch access_token)
    (endpoint sv repo_url branch access_token body) fs.
Proof.
  intros Hbody repo_dir fs1 Hc.
  destruct (endpoint_clone_succeeds sv repo_url branch access_token body
              repo_dir fs fs1 Hc) as [ok [fs2 [Ed [Ee Hiff]]]].
  rewrite Hbody in Ed. exists ok, fs2. rewrite Ee. auto.
Qed.

(** X15: no endpoint lets an exception other than [HTTPException] out:
    whatever the clone, the model and the JSON parser do, each of the four
    returns or raises an [HTTPException]. *)
Theorem endpoints_raise_http_only (repo_request : RepoRequest.t)
    (query_request : QueryRequest.t) (file_request : FileRequest.t)
    (fs : node) :
  http_only (get_repository_info sv repo_request fs)
  /\ http_only (query_repository sv query_request fs)
  /\ http_only (summarize_file sv file_request fs)
  /\ http_only (analyze_dependencies sv repo_request fs).
Proof.
  repeat split; apply endpoint_http_only.
Qed.

(** X16: every endpoint removes its clone on every way out: once
    [clone_repository] has returned, the tree the endpoint leaves is the
    tree of the clone after [force_delete_directory], whether the endpoint
    returns or raises. *)
Theorem endpoints_remove_clone (repo_request : RepoRequest.t)
    (query_request : QueryRequest.t) (file_request : FileRequest.t)
    (fs : node) :
  removes_clone
    (request_clone sv (RepoRequest.repo_url repo_request)
       (RepoRequest.branch repo_request)
       (RepoRequest.access_token repo_request))
    (get_repository_info sv repo_request) fs
  /\ removes_clone
       (request_clone sv (QueryRequest.repo_url query_request)
          (QueryRequest.branch query_request)
          (QueryRequest.access_token query_request))
       (query_repository sv query_request) fs
  /\ removes_clone
       (request_clone sv (FileRequest.repo_url file_request)
          (FileRequest.branch file_request)
          (FileRequest.access_token file_request))
       (summarize_file sv file_request) fs
  /\ removes_clone
       (request_clone sv (RepoRequest.repo_url repo_request)
          (RepoRequest.branch repo_request)
          (RepoRequest.access_token repo_request))
       (analyze_dependencies sv repo_request) fs.
Proof.
  repeat split; apply endpoint_removes_clone; intros repo_dir fs1.
  - apply info_body_reads.
  - apply query_body_reads.
  - apply file_body_reads.
  - apply dependencies_body_reads.
Qed.

(** X17: when [clone_repository] raises, every endpoint raises the same
    exception and leaves the tree as the clone left it; its body, and with
    it the model, is not reached. *)
Theorem endpoints_pass_clone_failure (repo_request : RepoRequest.t)
    (query_request : QueryRequest.t) (file_request : FileRequest.t)
    (fs : node) :
  passes_clone_failure
    (request_clone sv (RepoRequest.repo_url repo_request)
       (RepoRequest.branch repo_request)
       (RepoRequest.access_token repo_request))
    (get_repository_info sv repo_request) fs
  /\ passes_clone_failure
       (request_clone sv (QueryRequest.repo_url query_request)
          (QueryRequest.branch query_request)
          (QueryRequest.access_token query_request))
       (query_repository sv query_request) fs
  /\ passes_clone_failure
       (request_clone sv (FileRequest.repo_url file_request)
          (FileRequest.branch file_request)
          (FileRequest.access_token file_request))
       (summarize_file sv file_request) fs
  /\ passes_clone_failure
       (request_clone sv (RepoRequest.repo_url repo_request)
          (RepoRequest.branch repo_request)
          (RepoRequest.access_token repo_request))
       (analyze_dependencies sv repo_request) fs.
Proof.
  repeat split; intros e fs1 Hc; apply endpoint_clone_fails; exact Hc.
Qed.

(** *** query_repository *)








(** *** summarize_file *)


End Endpoints.

Lemma endpoints_remove_clone_witness :
  exists ok fs2,
    force_delete_directory sample_dir default_max_retries default_delay
      fs_cloned = (Ok ok, fs2)
    /\ snd (analyze_dependencies sv_answers sample_request fs_tmp) = fs2
    /\ (ok = true <-> os_path_exists fs2 sample_dir = false).
Proof.
  exact (proj2 (proj2 (proj2 (endpoints_remove_clone sv_answers sample_request
                                sample_query sample_file fs_tmp)))
           sample_dir fs_cloned eq_refl).
Defined.

Lemma endpoints_pass_clone_failure_witness :
  get_repository_info sv_answers unnamed_request fs_tmp
  = (Raise (HTTPException 400
              (py "Could not determine repository name from URL.")), fs_tmp).
Proof.
  exact (proj1 (endpoints_pass_clone_failure sv_answers unnamed_request
                  sample_query sample_file fs_tmp)
           _ fs_tmp eq_refl).
Defined.



(** *** get_repository_info *)

Lemma summary_readme_total (fs : node) (repo_dir : pystr)
    (names : list pystr) :
  exists readme_content, summary_readme fs repo_dir names = Ok readme_content.
Proof.
  induction names as [|name names IH]; simpl; [eauto|].
  destruct (get_file_content_total fs repo_dir name) as [[content|] ->];
    simpl; [eauto | exact IH].
Qed.

(** X20: after a clone that succeeded, [get_repository_info] returns the
    URL and the branch of the request, the whole index of the clone and
    the summary [get_repo_summary] gives for it; when it raises, it is the
    model's failure, with status 503. *)
Theorem get_repository_info_answer (sv : services)
    (repo_request : RepoRequest.t) (repo_dir : pystr) (fs fs1 : node) :
  request_clone sv (RepoRequest.repo_url repo_request)
    (RepoRequest.branch repo_request)
    (RepoRequest.access_token repo_request) fs = (Ok repo_dir, fs1) ->
  match fst (get_repository_info sv repo_request fs) with
  | Ok info =>
      info_repo_url info = RepoRequest.repo_url repo_request
      /\ info_branch info = RepoRequest.branch repo_request
      /\ info_structure info = get_repo_structure fs1 repo_dir
      /\ get_repo_summary (generate_content sv) fs1 repo_dir
         = Ok (info_summary info)
  | Raise (HTTPException status detail) =>
      status = 503
      /\ startswith (py "Failed to generate repository summary: ") detail
         = true
  | Raise _ => False
  end.
Proof.
  intros Hc. unfold get_repository_info.
  destruct (endpoint_clone_succeeds sv _ _ _
              (repository_info_body sv repo_request) repo_dir fs fs1 Hc)
    as [ok [fs2 [_ [-> _]]]].
  unfold repository_info_body, bind, reading, ret. cbn [fst].
  unfold get_repo_summary.
  destruct (summary_readme_total fs1 repo_dir
              [py "README.md"; py "readme.md"; py "README"; py "README.txt"])
    as [readme_content ->].
  cbn [and_then].
  destruct (generate_gemini_response_outcome (generate_content sv)
              (summary_prompt (keys (get_repo_structure fs1 repo_dir))
                 readme_content)
              (py "Failed to generate repository summary"))
    as [[answer ->] | [e ->]]; cbn [fst info_repo_url info_branch
                                    info_structure info_summary].
  - auto.
  - split; [reflexivity|].
    rewrite app_assoc. apply startswith_app.
Qed.

Lemma get_repository_info_answer_witness :
  exists info,
    fst (get_repository_info sv_answers sample_request fs_tmp) = Ok info
    /\ info_structure info = get_repo_structure fs_cloned sample_dir
    /\ info_summary info = py "It prints 1.".
Proof.
  pose proof (get_repository_info_answer sv_answers sample_request
                sample_dir fs_tmp fs_cloned eq_refl) as H.
  destruct (fst (get_repository_info sv_answers sample_request fs_tmp))
    as [info|e] eqn:E; vm_compute in E; [|discriminate E].
  injection E as <-. destruct H as [_ [_ [Hs _]]].
  eexists. split; [reflexivity|]. split; [exact Hs | reflexivity].
Defined.

(** *** analyze_dependencies *)

Lemma span_passes (p : N -> bool) (s : pystr) :
  forallb p (fst (span p s)) = true.
Proof.
  induction s as [|c s IH]; [reflexivity|]. simpl.
  destruct (p c) eqn:Hc; [|reflexivity].
  destruct (span p s) as [taken rest]. simpl in *. rewrite Hc. exact IH.
Qed.

Lemma lstrip_keeps_last (l : pystr) (c : N) :
  is_space c = false -> exists l', lstrip (l ++ [c]) = l' ++ [c].
Proof.
  intros Hc. induction l as [|d l IH]; simpl.
  - rewrite Hc. exists []. reflexivity.
  - destruct (is_space d); [exact IH|]. exists (d :: l). reflexivity.
Qed.

(** Stripping a text that begins with a character that is not a space
    leaves that character in front. *)
Lemma strip_keeps_head (c : N) (s : pystr) :
  is_space c = false -> exists s', strip (c :: s) = c :: s'.
Proof.
  intros Hc. unfold strip, rstrip. cbn [lstrip]. rewrite Hc.
  cbn [rev]. destruct (lstrip_keeps_last (rev s) c Hc) as [l' ->].
  exists (rev l'). rewrite rev_app_distr. reflexivity.
Qed.

Lemma spec_char_not_space (c : N) : is_spec_char c = true -> is_space c = false.
Proof.
  unfold is_spec_char. rewrite !orb_true_iff, !N.eqb_eq.
  intros [[[[-> | ->] | ->] | ->] | ->]; reflexivity.
Qed.

Lemma spec_char_not_newline (c : N) :
  is_spec_char c = true -> negb (c =? 10) = true.
Proof.
  unfold is_spec_char. rewrite !orb_true_iff, !N.eqb_eq.
  intros [[[[-> | ->] | ->] | ->] | ->]; reflexivity.
Qed.

Lemma match_requirement_groups (line name : pystr) (group2 : option pystr) :
  match_requirement line = Some (name, group2) ->
  name <> [] /\ forallb is_name_char name = true
  /\ match group2 with
     | Some spec => exists c rest, spec = c :: rest /\ is_spec_char c = true
     | None => True
     end.
Proof.
  unfold match_requirement.
  pose proof (span_passes is_name_char (lstrip line)) as Hn.
  destruct (span is_name_char (lstrip line)) as [nm rest]. simpl in Hn.
  destruct nm as [|n0 nm]; [discriminate|].
  destruct (lstrip rest) as [|c rest'] eqn:Hr.
  - intros H. injection H as <- <-. repeat split; auto; discriminate.
  - destruct (is_spec_char c) eqn:Hc; intros H; injection H as <- <-;
      (split; [discriminate|]); (split; [exact Hn|]); [|exact I].
    rewrite (spec_char_not_newline c Hc).
    destruct (span (fun d => negb (d =? 10)) rest') as [taken rest1].
    exists c, taken. auto.
Qed.

Lemma assoc_set_keeps {V : Type} (P : pystr -> Prop) (Q : V -> Prop)
    (k : pystr) (v : V) (d : list (pystr * V)) :
  P k -> Q v ->
  Forall (fun e => P (fst e) /\ Q (snd e)) d ->
  Forall (fun e => P (fst e) /\ Q (snd e)) (assoc_set k v d).
Proof.
  intros Hk Hv. induction d as [|[k' v'] d IH]; simpl; intros H.
  - constructor; [split; assumption | constructor].
  - inversion H as [|? ? [Hk' Hv'] Hd]; subst. simpl in *.
    destruct (str_eqb k k'); constructor; auto.
Qed.

Lemma assoc_set_distinct {V : Type} (k : pystr) (v : V)
    (d : list (pystr * V)) :
  NoDup (map fst d) -> NoDup (map fst (assoc_set k v d)).
Proof.
  assert (Hin : forall x (d' : list (pystr * V)),
             In x (map fst (assoc_set k v d')) -> In x (map fst d') \/ x = k).
  { intros x d'. induction d' as [|[k' v'] d' IH]; simpl.
    - intros [<- | []]. auto.
    - destruct (str_eqb k k'); simpl; [auto|].
      intros [<- | H]; [auto|]. destruct (IH H); auto. }
  induction d as [|[k' v'] d IH]; simpl; intros H.
  - constructor; [intros [] | constructor].
  - inversion H as [|? ? Hn Hd]; subst.
    destruct (str_eqb k k') eqn:He; simpl; [constructor; assumption|].
    constructor; [|apply IH; exact Hd].
    intros Hk. destruct (Hin _ _ Hk) as [Hk' | ->]; [exact (Hn Hk')|].
    rewrite str_eqb_refl in He. discriminate.
Qed.

Lemma requirement_step_ok (reqs : list (pystr * pystr)) (line : pystr) :
  Forall requirement_ok reqs /\ NoDup (map fst reqs) ->
  Forall requirement_ok (requirement_step reqs line)
  /\ NoDup (map fst (requirement_step reqs line)).
Proof.
  intros [Hok Hnd]. unfold requirement_step.
  destruct (strip line) as [|c0 stripped]; [auto|].
  destruct (negb (startswith (py "#") (c0 :: stripped))); [|auto].
  destruct (match_requirement (c0 :: stripped)) as [[name group2]|] eqn:Hm;
    [|auto].
  destruct (match_requirement_groups _ _ _ Hm) as [Hne [Hchars Hg]].
  split; [|apply assoc_set_distinct; exact Hnd].
  assert (Hshape : forall l : list (pystr * pystr),
             Forall (fun e => (fst e <> [] /\ forallb is_name_char (fst e) = true)
                              /\ (snd e = py "any"
                                  \/ exists c rest,
                                       snd e = c :: rest
                                       /\ is_spec_char c = true)) l ->
             Forall requirement_ok l).
  { intros l Hl. eapply Forall_impl; [|exact Hl].
    intros [k v] [[H1 H2] H3]. repeat split; assumption. }
  apply Hshape.
  apply (assoc_set_keeps
           (fun k => k <> [] /\ forallb is_name_char k = true)
           (fun v => v = py "any"
                     \/ exists c rest, v = c :: rest /\ is_spec_char c = true)).
  - auto.
  - destruct group2 as [spec|]; [|left; reflexivity].
    destruct Hg as [c [rest [-> Hc]]].
    destruct (strip_keeps_head c rest (spec_char_not_space c Hc)) as [s' ->].
    right. exists c, s'. auto.
  - eapply Forall_impl; [|exact Hok]. intros [k v] [H1 [H2 H3]]. auto.
Qed.

(** X21: every requirement that [parse_requirements] stores has a name of one
    or more name characters and a version that is [any] or begins with a
    comparison character, and no name is stored twice. *)
Theorem requirements_well_formed (content : pystr) :
  Forall requirement_ok (parse_requirements content)
  /\ NoDup (map fst (parse_requirements content)).
Proof.
  unfold parse_requirements.
  assert (Hfold : forall lines reqs,
             Forall requirement_ok reqs /\ NoDup (map fst reqs) ->
             Forall requirement_ok (fold_left requirement_step lines reqs)
             /\ NoDup (map fst (fold_left requirement_step lines reqs))).
  { induction lines as [|line lines IH]; simpl; intros reqs H; [exact H|].
    apply IH, requirement_step_ok, H. }
  apply Hfold. split; constructor.
Qed.

Ltac char_classes :=
  unfold is_space, is_linebreak, is_name_char, is_spec_char in *;
  rewrite ?orb_true_iff, ?andb_true_iff, ?orb_false_iff, ?andb_false_iff,
    ?N.leb_le, ?N.leb_gt, ?N.eqb_eq, ?N.eqb_neq in *.

Lemma name_char_not_space (c : N) : is_name_char c = true -> is_space c = false.
Proof.
  intros H. destruct (is_space c) eqn:E; [|reflexivity]. exfalso.
  char_classes. lia.
Qed.

Lemma name_char_not_spec (c : N) :
  is_name_char c = true -> is_spec_char c = false.
Proof.
  intros H. destruct (is_spec_char c) eqn:E; [|reflexivity]. exfalso.
  char_classes. lia.
Qed.

Lemma linebreak_is_space (c : N) : is_space c = false -> is_linebreak c = false.
Proof.
  intros H. destruct (is_linebreak c) eqn:E; [|reflexivity]. exfalso.
  char_classes. lia.
Qed.

Lemma lstrip_unspaced (s : pystr) : unspaced s -> lstrip s = s.
Proof. intros H. destruct H as [|c s Hc _]; simpl; [|rewrite Hc]; reflexivity. Qed.

Lemma strip_unspaced (s : pystr) : unspaced s -> strip s = s.
Proof.
  intros H. unfold strip, rstrip. rewrite (lstrip_unspaced s H).
  rewrite lstrip_unspaced; [apply rev_involutive|].
  apply Forall_forall. intros c Hc. apply in_rev in Hc.
  exact (proj1 (Forall_forall _ _) H c Hc).
Qed.

Lemma splitlines_unspaced (s : pystr) :
  s <> [] -> unspaced s -> splitlines s = [s].
Proof.
  intros Hne H. induction H as [|c s Hc Hs IH]; [congruence|].
  cbn [splitlines]. rewrite (linebreak_is_space c Hc).
  destruct s as [|d s]; [reflexivity|]. rewrite IH; [reflexivity | discriminate].
Qed.

Lemma span_name (name rest : pystr) (c : N) :
  forallb is_name_char name = true -> is_name_char c = false ->
  span is_name_char (name ++ c :: rest) = (name, c :: rest).
Proof.
  intros Hn Hc. induction name as [|n name IH]; simpl in *.
  - rewrite Hc. reflexivity.
  - apply andb_true_iff in Hn. destruct Hn as [-> Hn]. rewrite (IH Hn).
    reflexivity.
Qed.

Lemma span_line (s : pystr) :
  unspaced s -> span (fun d => negb (d =? 10)) s = (s, []).
Proof.
  intros H. induction H as [|c s Hc Hs IH]; simpl; [reflexivity|].
  rewrite IH. destruct (N.eqb_spec c 10) as [-> | _]; [discriminate|].
  reflexivity.
Qed.

(** X22: a requirements file of one line without white space, a name followed
    by a version that begins with one of [<>=!~], is read as that name
    with that version. *)
Theorem pinned_requirement_parsed (name rest : pystr) (op : N) :
  name <> [] -> forallb is_name_char name = true ->
  is_spec_char op = true -> unspaced rest ->
  parse_requirements (name ++ op :: rest) = [(name, op :: rest)].
Proof.
  intros Hne Hn Hop Hrest.
  assert (Hspec : unspaced (op :: rest)).
  { constructor; [apply spec_char_not_space, Hop | exact Hrest]. }
  assert (Hline : unspaced (name ++ op :: rest)).
  { apply Forall_app. split; [|exact Hspec].
    apply Forall_forall. intros c Hc. apply name_char_not_space.
    exact (proj1 (forallb_forall _ _) Hn c Hc). }
  unfold parse_requirements. rewrite splitlines_unspaced; [|
    destruct name; [congruence | discriminate] | exact Hline].
  cbn [fold_left]. unfold requirement_step.
  rewrite (strip_unspaced _ Hline).
  destruct name as [|n0 name]; [congruence|].
  cbn [app]. cbn [forallb] in Hn. apply andb_true_iff in Hn.
  destruct Hn as [Hn0 Hn].
  assert (Hhash : startswith (py "#") (n0 :: name ++ op :: rest) = false).
  { change (startswith (py "#") (n0 :: name ++ op :: rest))
      with ((35 =? n0) && true).
    destruct (N.eqb_spec 35 n0) as [<- | _]; [discriminate Hn0|].
    reflexivity. }
  rewrite Hhash. cbn [negb].
  unfold match_requirement.
  change (n0 :: name ++ op :: rest) with ((n0 :: name) ++ op :: rest).
  rewrite (lstrip_unspaced _ Hline).
  rewrite span_name;
    [| cbn [forallb]; rewrite Hn0; exact Hn
     | destruct (is_name_char op) eqn:E; [|reflexivity];
       rewrite (name_char_not_spec op E) in Hop; discriminate].
  rewrite (lstrip_unspaced _ Hspec). rewrite Hop.
  rewrite (span_line _ Hspec). cbn [fst].
  rewrite (strip_unspaced _ Hspec). reflexivity.
Qed.

Lemma pinned_requirement_parsed_witness :
  parse_requirements (py "flask>=2.0")
  = [(py "flask", py ">=2.0")].
Proof.
  apply (pinned_requirement_parsed (py "flask") (py "=2.0") 62).
  - discriminate.
  - reflexivity.
  - reflexivity.
  - repeat constructor.
Defined.

(** *** The endpoint *)

Lemma for_each_skips {A S : Type} (body : S -> A -> result S) (l : list A)
    (s : S) :
  (forall x, In x l -> body s x = Ok s) -> for_each body l s = Ok s.
Proof.
  induction l as [|x l IH]; intros H; simpl; [reflexivity|].
  rewrite (H x (or_introl eq_refl)). simpl. apply IH.
  intros y Hy. apply H. right. exact Hy.
Qed.

Lemma for_each_keeps {A S : Type} (P : S -> Prop) (body : S -> A -> result S)
    (l : list A) (s : S) :
  (forall s x, P s -> In x l -> exists s', body s x = Ok s' /\ P s') ->
  P s -> exists s', for_each body l s = Ok s' /\ P s'.
Proof.
  revert s. induction l as [|x l IH]; intros s Hbody Hs; simpl.
  - exists s. auto.
  - destruct (Hbody s x Hs (or_introl eq_refl)) as [s1 [-> Hs1]]. simpl.
    apply IH; [|exact Hs1].
    intros s' y Hs' Hy. apply Hbody; [exact Hs' | right; exact Hy].
Qed.

Lemma assoc_get_other {V : Type} (k k' : pystr) (v : V)
    (d : list (pystr * V)) :
  k' <> k -> assoc_get k (assoc_set k' v d) = assoc_get k d.
Proof.
  intros Hk. induction d as [|[kd vd] d IH]; simpl.
  - destruct (str_eqb k k') eqn:E; [|reflexivity].
    apply str_eqb_eq in E. congruence.
  - destruct (str_eqb k' kd) eqn:E; simpl.
    + apply str_eqb_eq in E. subst kd.
      destruct (str_eqb k k') eqn:E'; [|reflexivity].
      apply str_eqb_eq in E'. congruence.
    + rewrite IH. reflexivity.
Qed.

Lemma assoc_get_same {V : Type} (k : pystr) (v : V) (d : list (pystr * V)) :
  assoc_get k (assoc_set k v d) = Some v.
Proof.
  induction d as [|[kd vd] d IH]; simpl.
  - rewrite str_eqb_refl. reflexivity.
  - destruct (str_eqb k kd) eqn:E; simpl; rewrite E; [reflexivity | exact IH].
Qed.

Lemma get_file_content_exists (fs : node) (repo_dir file_path content : pystr) :
  get_file_content fs repo_dir file_path = Ok (Some content) ->
  os_path_exists fs (os_path_join repo_dir file_path) = true.
Proof.
  unfold get_file_content.
  destruct (os_path_exists fs (os_path_join repo_dir file_path));
    [reflexivity | discriminate].
Qed.

Section Dependencies.

Variable sv : services.
Variable repo_request : RepoRequest.t.
Variables (repo_dir : pystr) (fs fs1 : node).

Hypothesis cloned :
  request_clone sv (RepoRequest.repo_url repo_request)
    (RepoRequest.branch repo_request)
    (RepoRequest.access_token repo_request) fs = (Ok repo_dir, fs1).

Lemma analyze_dependencies_outcome :
  fst (analyze_dependencies sv repo_request fs)
  = match fst (dependencies_body sv repo_request repo_dir fs1) with
    | Ok report => Ok report
    | Raise e => Raise (as_http_error e)
    end.
Proof.
  unfold analyze_dependencies.
  destruct (endpoint_clone_succeeds sv _ _ _
              (dependencies_body sv repo_request) repo_dir fs fs1 cloned)
    as [ok [fs2 [_ [-> _]]]].
  reflexivity.
Qed.

(** X23: when the root of the clone holds none of the dependency files,
    [analyze_dependencies] reports no dependencies with the fixed
    explanation, whatever the language model would answer. *)
Theorem analyze_dependencies_nothing_found :
  (forall name, In name dependency_file_names ->
     os_path_exists fs1 (os_path_join repo_dir name) = false) ->
  fst (analyze_dependencies sv repo_request fs)
  = Ok (mkDependencyReport (RepoRequest.repo_url repo_request)
          (RepoRequest.branch repo_request) [] no_dependencies_explanation).
Proof.
  intros Hnone. rewrite analyze_dependencies_outcome.
  assert (Hcollect : collect_dependencies (json_loads sv) fs1 repo_dir
                     = Ok (mkFindings [] [])).
  { unfold collect_dependencies, check_package_json.
    rewrite (Hnone (py "package.json") (or_introl eq_refl)). cbn [and_then].
    rewrite for_each_skips.
    - cbn [and_then]. apply for_each_skips. intros [fname key] Hin.
      unfold check_other_file. rewrite Hnone; [reflexivity|].
      right. apply in_or_app. right.
      exact (in_map fst other_dep_files (fname, key) Hin).
    - intros name Hin. unfold check_req_file. rewrite Hnone; [reflexivity|].
      right. apply in_or_app. left. exact Hin. }
  unfold dependencies_body, bind, reading, ret. rewrite Hcollect.
  reflexivity.
Qed.

(** X24: a [package.json] that parses to anything but an object makes
    [analyze_dependencies] fail with status 500: the value has no [get]. *)
Theorem analyze_dependencies_package_not_object (content : pystr)
    (package_data : json) :
  get_file_content fs1 repo_dir (py "package.json") = Ok (Some content) ->
  content <> [] ->
  json_loads sv content = inr package_data ->
  (forall members, package_data <> JObject members) ->
  fst (analyze_dependencies sv repo_request fs)
  = Raise (HTTPException 500
             (py "An unexpected server error occurred: '"
              ++ json_type_name package_data
              ++ py "' object has no attribute 'get'")).
Proof.
  intros Hread Hne Hloads Hshape. rewrite analyze_dependencies_outcome.
  assert (Hcollect : collect_dependencies (json_loads sv) fs1 repo_dir
                     = Raise (OtherException
                                (py "'" ++ json_type_name package_data
                                 ++ py "' object has no attribute 'get'"))).
  { unfold collect_dependencies, check_package_json.
    rewrite (get_file_content_exists _ _ _ _ Hread), Hread. cbn [and_then].
    destruct content as [|c content]; [congruence|].
    cbn [truthy text_of]. rewrite Hloads.
    destruct package_data; try reflexivity.
    exfalso. exact (Hshape _ eq_refl). }
  unfold dependencies_body, bind, reading. rewrite Hcollect. reflexivity.
Qed.

(** X25: a [package.json] that does not parse does not fail the request: the
    message of the parser is reported under [nodejs_parse_error], and the
    explanation is asked of the language model. *)
Theorem analyze_dependencies_parse_error (content message : pystr) :
  get_file_content fs1 repo_dir (py "package.json") = Ok (Some content) ->
  content <> [] ->
  json_loads sv content = inl message ->
  exists f,
    collect_dependencies (json_loads sv) fs1 repo_dir = Ok f
    /\ assoc_get (py "nodejs_parse_error") (dependencies f)
       = Some (JString message)
    /\ fst (analyze_dependencies sv repo_request fs)
       = match generate_gemini_response (generate_content sv)
                 (dependency_prompt (dependency_context f))
                 (py "Failed to generate dependency explanation") with
         | Ok explanation =>
             Ok (mkDependencyReport (RepoRequest.repo_url repo_request)
                   (RepoRequest.branch repo_request) (dependencies f)
                   explanation)
         | Raise e => Raise e
         end.
Proof.
  intros Hread Hne Hloads.
  set (reported := fun f : findings =>
         assoc_get (py "nodejs_parse_error") (dependencies f)
         = Some (JString message)).
  assert (Hcollect : exists f,
             collect_dependencies (json_loads sv) fs1 repo_dir = Ok f
             /\ reported f).
  { unfold collect_dependencies, check_package_json.
    rewrite (get_file_content_exists _ _ _ _ Hread), Hread. cbn [and_then].
    destruct content as [|c content]; [congruence|].
    cbn [truthy text_of]. rewrite Hloads.
    cbn [and_then dependencies dependency_files_content].
    destruct (for_each_keeps reported (check_req_file fs1 repo_dir) req_files
                (mkFindings
                   (assoc_set (py "nodejs_parse_error") (JString message) [])
                   [])) as [f1 [-> Hf1]].
    - intros s name Hs _. unfold check_req_file.
      destruct (os_path_exists fs1 (os_path_join repo_dir name)); [|eauto].
      destruct (get_file_content_total fs1 repo_dir name) as [text ->].
      cbn [and_then]. destruct (truthy text); [|eauto].
      destruct (endswith (py ".txt") name).
      + destruct (parse_requirements (text_of text)); [eauto|].
        eexists. split; [reflexivity|]. unfold reported. cbn [dependencies].
        rewrite assoc_get_other; [exact Hs | discriminate].
      + destruct (str_eqb name (py "pyproject.toml")); [|eauto].
        destruct (contains (py "[tool.poetry.dependencies]") (text_of text)
                  || contains (py "[project.dependencies]") (text_of text));
          [|eauto].
        eexists. split; [reflexivity|]. unfold reported. cbn [dependencies].
        rewrite assoc_get_other; [exact Hs | discriminate].
    - reflexivity.
    - cbn [and_then].
      apply (for_each_keeps reported (check_other_file fs1 repo_dir)
               other_dep_files f1); [|exact Hf1].
      intros s [fname key] Hs Hin. unfold check_other_file.
      destruct (os_path_exists fs1 (os_path_join repo_dir fname)); [|eauto].
      destruct (get_file_content_total fs1 repo_dir fname) as [text ->].
      cbn [and_then]. destruct (truthy text); [|eauto].
      eexists. split; [reflexivity|]. unfold reported. cbn [dependencies].
      rewrite assoc_get_other; [exact Hs|].
      intros ->. simpl in Hin.
      repeat (destruct Hin as [Hin | Hin]; [discriminate Hin|]).
      exact Hin. }
  destruct Hcollect as [f [Hf Hrep]]. exists f. split; [exact Hf|].
  split; [exact Hrep|].
  rewrite analyze_dependencies_outcome.
  unfold dependencies_body, bind, reading, ret. rewrite Hf.
  destruct (dependencies f) as [|entry entries] eqn:Hd;
    [unfold reported in Hrep; rewrite Hd in Hrep; discriminate|].
  destruct (generate_gemini_response_outcome (generate_content sv)
              (dependency_prompt (dependency_context f))
              (py "Failed to generate dependency explanation"))
    as [[answer ->] | [e ->]]; reflexivity.
Qed.

End Dependencies.

Lemma analyze_dependencies_nothing_found_witness :
  fst (analyze_dependencies sv_answers sample_request fs_tmp)
  = Ok (mkDependencyReport sample_url (py "main") []
          no_dependencies_explanation).
Proof.
  apply (analyze_dependencies_nothing_found sv_answers sample_request
           sample_dir fs_tmp fs_cloned eq_refl).
  intros name Hin.
  unfold dependency_file_names, req_files, other_dep_files in Hin.
  simpl in Hin.
  repeat (destruct Hin as [<- | Hin]; [reflexivity|]). destruct Hin.
Defined.

Lemma analyze_dependencies_package_not_object_witness :
  fst (analyze_dependencies sv_package_list sample_request fs_tmp)
  = Raise (HTTPException 500
             (py "An unexpected server error occurred: 'list' object has no attribute 'get'")).
Proof.
  apply (analyze_dependencies_package_not_object sv_package_list
           sample_request sample_dir fs_tmp fs_cloned_package eq_refl
           (py "[1]") (JArray [JInt 1])).
  - reflexivity.
  - discriminate.
  - reflexivity.
  - discriminate.
Defined.

Lemma analyze_dependencies_parse_error_witness :
  exists f,
    assoc_get (py "nodejs_parse_error") (dependencies f)
    = Some (JString (py "Expecting value: line 1 column 1 (char 0)"))
    /\ fst (analyze_dependencies sv_package_no_json sample_request fs_tmp)
       = Ok (mkDependencyReport sample_url (py "main") (dependencies f)
               (py "It prints 1.")).
Proof.
  destruct (analyze_dependencies_parse_error sv_package_no_json sample_request
              sample_dir fs_tmp fs_cloned_package eq_refl (py "[1]")
              (py "Expecting value: line 1 column 1 (char 0)"))
    as [f [_ [Hrep E]]].
  - reflexivity.
  - discriminate.
  - reflexivity.
  - exists f. split; [exact Hrep|]. rewrite E. reflexivity.
Defined.
